(** * trahn-coin-trader: the control core, embedded in Rocq

    A shallow embedding of the Go backend's grid engine, paper wallet,
    change detectors, retry executor, risk guardian, HTTP middleware and
    S/R cache, followed by the properties proved about them.

    Conventions of the embedding.
    - Go [int] and [time.Duration] are [Z]; where the code adds or doubles
      a value that may leave the 64-bit range, the wrap-around is written
      out with [wrap64].
    - Go [float64] is embedded at two levels.  Where a statement rests
      on a value that the code computes in floating point (the prices
      and quantities of the grid levels, the amounts and balances of a
      paper swap, the accumulated gas, the drift of a midpoint), the code
      is embedded in the module [binary64] over Rocq's primitive floats,
      which are IEEE 754 binary64 with round-to-nearest-even, as Go's
      are; no operation is fused.  [math.Pow] and [sort.Slice] are
      library functions and parameters of that embedding.  Where floats
      are only compared, copied, stored or counted (which level a price
      triggers, which position is reset, what the cache serves, what the
      guardian refuses), a float is a rational [Q] standing for the
      number it holds; infinities and NaN are outside that part, except
      in the Dune client, whose validation tests for NaN: there a float
      is a [jfloat], a rational or NaN.  The functions of the first part
      that also compute (the spacing of the levels, the paper swap) are
      read there for the structure of their results only: lengths,
      positions, flags and counts.
    - Slices are lists, indexed with stdpp's lookup and insert; a pointer
      into a slice is the position it points at.
    - Clocks, random draws, the network and the database are inputs of the
      functions that consult them. *)

From stdpp Require Import base list strings gmap sorting.
From Stdlib Require Import ZArith QArith Qpower Qabs Qround Lqa Lia.
From Stdlib Require Import PrimFloat Uint63.
From Stdlib Require FloatAxioms FloatOps SpecFloat.
Close Scope Q_scope.
Local Open Scope Z_scope.
Set Warnings "-inexact-float".

(** ** Shared vocabulary *)

(** A Go function returning [(T, error)]. *)
Inductive result (E A : Type) : Type :=
| Ok (a : A)
| Err (e : E).
Arguments Ok {E A} a.
Arguments Err {E A} e.

(** Two's-complement wrap-around of a 64-bit signed integer. *)
Definition wrap64 (z : Z) : Z := (z + 2 ^ 63) mod 2 ^ 64 - 2 ^ 63.

Definition int64_range (z : Z) : Prop := - 2 ^ 63 <= z < 2 ^ 63.

(** [x < y] on floats; [Qle_bool] is [x <= y]. *)
Definition Qlt_bool (x y : Q) : bool :=
  Qnum x * QDen y <? Qnum y * QDen x.

(** ** package strategy (internal/strategy/grid.go) *)

Module strategy.

Record GridLevel : Type := mkGridLevel {
  Index : Z;
  Price : Q;
  Side : string;
  Quantity : Q;
  Filled : bool;
  FilledAt : option Z;       (* *time.Time, nanoseconds since the epoch *)
  TxHash : option string
}.

Record GridParams : Type := mkGridParams {
  CenterPrice : Q;
  LevelCount : Z;
  SpacingPercent : Q;
  AmountPerGrid : Q
}.

(** The body of the generation loop for one exponent [i]. *)
Definition levelAt (p : GridParams) (i : Z) : GridLevel :=
  let multiplier := ((1 + SpacingPercent p / 100) ^ i)%Q in
  let levelPrice := (CenterPrice p * multiplier)%Q in
  let side := if i <? 0 then "buy" else "sell" in
  let quantity := (AmountPerGrid p / levelPrice)%Q in
  {| Index := 0; Price := levelPrice; Side := side; Quantity := quantity;
     Filled := false; FilledAt := None; TxHash := None |}.

(** [for i := ...; i <= halfLevels; i++]: [fuel] iterations from [i]. *)
Fixpoint genLoop (p : GridParams) (even : bool) (fuel : nat) (i : Z)
  : list GridLevel :=
  match fuel with
  | O => []
  | S fuel' =>
      (if (i =? 0) && even then [] else [levelAt p i])
        ++ genLoop p even fuel' (i + 1)
  end.

Definition generate (p : GridParams) : list GridLevel :=
  let halfLevels := Z.quot (LevelCount p) 2 in
  let even := Z.rem (LevelCount p) 2 =? 0 in
  genLoop p even (Z.to_nat (halfLevels - (- halfLevels) + 1)) (- halfLevels).

(** The [less] closure handed to [sort.Slice]. *)
Definition lessPrice (a b : GridLevel) : bool :=
  Qlt_bool (Price a) (Price b).

Definition setIndex (i : nat) (l : GridLevel) : GridLevel :=
  {| Index := Z.of_nat i; Price := Price l; Side := Side l;
     Quantity := Quantity l; Filled := Filled l; FilledAt := FilledAt l;
     TxHash := TxHash l |}.

(** [sort.Slice] is a parameter: the library promises a sorted
    rearrangement and nothing about ties. *)
Definition SortSlice : Type :=
  (GridLevel -> GridLevel -> bool) -> list GridLevel -> list GridLevel.

Definition CalculateGridLevels (sortSlice : SortSlice) (p : GridParams)
  : result string (list GridLevel) :=
  if Qle_bool (CenterPrice p) 0 then Err "center price must be positive"
  else if LevelCount p <? 2 then Err "level count must be at least 2"
  else if Qle_bool (SpacingPercent p) 0
       then Err "spacing percent must be positive"
  else if Qle_bool (AmountPerGrid p) 0
       then Err "amount per grid must be positive"
  else
    let grid := generate p in
    let grid := sortSlice lessPrice grid in
    Ok (imap setIndex grid).

(** What [sort.Slice] guarantees for the price comparison: the result is
    a rearrangement of the input in which no element is less than its
    predecessor. *)
Definition notAfter (a b : GridLevel) : Prop := lessPrice b a = false.

Definition SortSliceSpec (sortSlice : SortSlice) : Prop :=
  forall l : list GridLevel,
    sortSlice lessPrice l ≡ₚ l /\ Sorted notAfter (sortSlice lessPrice l).

(** One sorting function that meets the contract, used to run examples. *)
Definition mergeSortSlice : SortSlice :=
  fun less l =>
    @merge_sort _ (fun a b => less b a = false)
      (fun a b => decide (less b a = false)) l.

(** The position of the level the returned pointer refers to. *)
Fixpoint findFrom (i : nat) (currentPrice : Q) (grid : list GridLevel)
  : option nat :=
  match grid with
  | [] => None
  | l :: rest =>
      if Filled l then findFrom (S i) currentPrice rest
      else if String.eqb (Side l) "buy" && Qle_bool currentPrice (Price l)
      then Some i
      else if String.eqb (Side l) "sell" && Qle_bool (Price l) currentPrice
      then Some i
      else findFrom (S i) currentPrice rest
  end.

Definition FindTriggeredLevel (currentPrice : Q) (grid : list GridLevel)
  : option nat :=
  findFrom 0 currentPrice grid.

Definition GetOppositeLevelIndex (filledLevel : GridLevel) (gridLength : Z)
  : option Z :=
  let idx :=
    if String.eqb (Side filledLevel) "buy"
    then wrap64 (Index filledLevel + 1)
    else wrap64 (Index filledLevel - 1) in
  if (0 <=? idx) && (idx <? gridLength) then Some idx else None.


(** *** The rest of grid.go *)

Record GridStats : Type := mkGridStats {
  Levels : Z;
  LowestPrice : option Q;
  HighestPrice : option Q;
  FilledLevels : Z;
  PendingBuys : Z;
  PendingSells : Z;
  FilledBuys : Z;
  FilledSells : Z
}.

Record FallbackSR : Type := mkFallbackSR {
  Support : Q;
  Resistance : Q;
  Midpoint : Q;
  Method : string;
  LookbackDays : Z
}.

(** The [switch] in the loop of [GetGridStats]; the counters are bounded
    by the length of the slice, so they do not wrap. *)
Definition countLevel (s : GridStats) (l : GridLevel) : GridStats :=
  if String.eqb (Side l) "buy" && Filled l then
    {| Levels := Levels s; LowestPrice := LowestPrice s;
       HighestPrice := HighestPrice s;
       FilledLevels := FilledLevels s + 1; PendingBuys := PendingBuys s;
       PendingSells := PendingSells s; FilledBuys := FilledBuys s + 1;
       FilledSells := FilledSells s |}
  else if String.eqb (Side l) "buy" && negb (Filled l) then
    {| Levels := Levels s; LowestPrice := LowestPrice s;
       HighestPrice := HighestPrice s;
       FilledLevels := FilledLevels s; PendingBuys := PendingBuys s + 1;
       PendingSells := PendingSells s; FilledBuys := FilledBuys s;
       FilledSells := FilledSells s |}
  else if String.eqb (Side l) "sell" && Filled l then
    {| Levels := Levels s; LowestPrice := LowestPrice s;
       HighestPrice := HighestPrice s;
       FilledLevels := FilledLevels s + 1; PendingBuys := PendingBuys s;
       PendingSells := PendingSells s; FilledBuys := FilledBuys s;
       FilledSells := FilledSells s + 1 |}
  else if String.eqb (Side l) "sell" && negb (Filled l) then
    {| Levels := Levels s; LowestPrice := LowestPrice s;
       HighestPrice := HighestPrice s;
       FilledLevels := FilledLevels s; PendingBuys := PendingBuys s;
       PendingSells := PendingSells s + 1; FilledBuys := FilledBuys s;
       FilledSells := FilledSells s |}
  else s.

Definition GetGridStats (grid : list GridLevel) : GridStats :=
  match grid with
  | [] => mkGridStats 0 None None 0 0 0 0 0
  | first :: _ =>
      let lo := Price first in
      let hi := Price (List.last grid first) in
      fold_left countLevel grid
        (mkGridStats (Z.of_nat (length grid)) (Some lo) (Some hi) 0 0 0 0 0)
  end.

Definition CreateFallbackSR (currentPrice : Q) : FallbackSR :=
  {| Support := (currentPrice * 0.9)%Q;
     Resistance := (currentPrice * 1.1)%Q;
     Midpoint := currentPrice;
     Method := "fallback";
     LookbackDays := 0 |}.

(** One step of the scan for the lowest and the highest price. *)
Definition widen (range : Q * Q) (l : GridLevel) : Q * Q :=
  let (lo, hi) := range in
  (if Qlt_bool (Price l) lo then Price l else lo,
   if Qlt_bool hi (Price l) then Price l else hi).

Definition IsPriceOutsideGrid (currentPrice : Q) (grid : list GridLevel)
  : bool :=
  match grid with
  | [] => true
  | first :: rest =>
      let (lo, hi) := fold_left widen rest (Price first, Price first) in
      Qlt_bool currentPrice lo || Qlt_bool hi currentPrice
  end.

(** One step of the count of the levels of [side] and of the filled ones
    among them. *)
Definition tally (side : string) (counts : Z * Z) (l : GridLevel) : Z * Z :=
  let (count, filled) := counts in
  if String.eqb (Side l) side
  then (count + 1, if Filled l then filled + 1 else filled)
  else (count, filled).

Definition AreAllSideFilled (grid : list GridLevel) (side : string) : bool :=
  let (count, filled) := fold_left (tally side) grid (0, 0) in
  if count =? 0 then false else filled =? count.

End strategy.

(** ** package bot (internal/bot/gridbot.go and the paper wallet) *)

Module bot.

Record PaperTrade : Type := mkPaperTrade {
  ID : Z;
  Timestamp : Z;             (* time.Now(), formatted RFC 3339 in the code *)
  Side : string;
  GridLevel : Z;
  TriggerPrice : Q;
  ExecutionPrice : Q;
  ETHAmount : Q;
  USDCAmount : Q;
  SlippagePct : Q;
  GasCost : Q;
  BalanceAfterETH : Q;
  BalanceAfterUSDC : Q
}.

Record PaperWallet : Type := mkPaperWallet {
  initialETH : Q;
  initialUSDC : Q;
  ETHBalance : Q;
  USDCBalance : Q;
  Trades : list PaperTrade;
  TotalGas : Q
}.

Definition setBalances (pw : PaperWallet) (eth usdc : Q) : PaperWallet :=
  {| initialETH := initialETH pw; initialUSDC := initialUSDC pw;
     ETHBalance := eth; USDCBalance := usdc;
     Trades := Trades pw; TotalGas := TotalGas pw |}.

Definition ExecuteBuy (pw : PaperWallet) (usdcAmount ethAmount : Q)
  : result string PaperWallet :=
  if Qlt_bool (USDCBalance pw) usdcAmount then Err "insufficient USDC"
  else Ok (setBalances pw (ETHBalance pw + ethAmount)%Q
                          (USDCBalance pw - usdcAmount)%Q).

Definition ExecuteSell (pw : PaperWallet) (ethAmount usdcAmount : Q)
  : result string PaperWallet :=
  if Qlt_bool (ETHBalance pw) ethAmount then Err "insufficient ETH"
  else Ok (setBalances pw (ETHBalance pw - ethAmount)%Q
                          (USDCBalance pw + usdcAmount)%Q).

Definition DeductGas (pw : PaperWallet) (gasETH : Q) : PaperWallet :=
  {| initialETH := initialETH pw; initialUSDC := initialUSDC pw;
     ETHBalance := (ETHBalance pw - gasETH)%Q;
     USDCBalance := USDCBalance pw;
     Trades := Trades pw; TotalGas := (TotalGas pw + gasETH)%Q |}.

Definition RecordTrade (now : Z) (pw : PaperWallet) (t : PaperTrade)
  : PaperWallet :=
  let stamped :=
    {| ID := Z.of_nat (length (Trades pw)) + 1; Timestamp := now;
       Side := Side t; GridLevel := GridLevel t;
       TriggerPrice := TriggerPrice t; ExecutionPrice := ExecutionPrice t;
       ETHAmount := ETHAmount t; USDCAmount := USDCAmount t;
       SlippagePct := SlippagePct t; GasCost := GasCost t;
       BalanceAfterETH := ETHBalance pw;
       BalanceAfterUSDC := USDCBalance pw |} in
  {| initialETH := initialETH pw; initialUSDC := initialUSDC pw;
     ETHBalance := ETHBalance pw; USDCBalance := USDCBalance pw;
     Trades := Trades pw ++ [stamped]; TotalGas := TotalGas pw |}.

(** [rand.Float64() * maxPct / 100]; [u] is the draw, in [0, 1). *)
Definition randomSlippage (u maxPct : Q) : Q := (u * maxPct / 100)%Q.

Definition defaultPaperGasCost : Q := 0.005%Q.

(** What [executePaperSwap] hands back besides the wallet: the slippage in
    percent and the gas cost.  The synthetic hash and the log line are
    functions of the side and the clock alone and are left out. *)
Record PaperReceipt : Type := mkPaperReceipt {
  slippagePct : Q;
  gasCost : Q
}.

Definition executePaperSwap (PaperSlippagePercent u : Q) (now : Z)
    (pw : PaperWallet) (level : strategy.GridLevel) (currentPrice : Q)
    (side : string) (ethAmount usdcAmount : Q)
  : result string (PaperWallet * PaperReceipt) :=
  let slip := randomSlippage u PaperSlippagePercent in
  let gas := defaultPaperGasCost in
  let swapped :=
    if String.eqb side "buy" then
      let actualETH := (ethAmount * (1 - slip))%Q in
      match ExecuteBuy pw usdcAmount actualETH with
      | Err e => Err e
      | Ok pw1 => Ok (pw1, actualETH, usdcAmount)
      end
    else if Qlt_bool (ETHBalance pw) (ethAmount + gas)%Q
    then Err "insufficient ETH"
    else
      let usdcAfterSlip := (usdcAmount * (1 - slip))%Q in
      match ExecuteSell pw ethAmount usdcAfterSlip with
      | Err e => Err e
      | Ok pw1 => Ok (pw1, ethAmount, usdcAfterSlip)
      end in
  match swapped with
  | Err e => Err e
  | Ok (pw1, ethDone, usdcDone) =>
      let pw2 := DeductGas pw1 gas in
      let pw3 :=
        RecordTrade now pw2
          {| ID := 0; Timestamp := 0; Side := side;
             GridLevel := strategy.Index level;
             TriggerPrice := strategy.Price level;
             ExecutionPrice := currentPrice;
             ETHAmount := ethDone; USDCAmount := usdcDone;
             SlippagePct := (slip * 100)%Q; GasCost := gas;
             BalanceAfterETH := 0; BalanceAfterUSDC := 0 |} in
      Ok (pw3, {| slippagePct := (slip * 100)%Q; gasCost := gas |})
  end.

Definition clearFill (adj : strategy.GridLevel) : strategy.GridLevel :=
  {| strategy.Index := strategy.Index adj;
     strategy.Price := strategy.Price adj;
     strategy.Side := strategy.Side adj;
     strategy.Quantity := strategy.Quantity adj;
     strategy.Filled := false;
     strategy.FilledAt := None;
     strategy.TxHash := None |}.

(** [filled] is read through its pointer before the opposite level is
    written; the writes go to [Grid[*idx]] alone.  Saving the state and
    logging do not touch the grid. *)
Definition resetOppositeLevel (Grid : list strategy.GridLevel)
    (filled : strategy.GridLevel) : list strategy.GridLevel :=
  match strategy.GetOppositeLevelIndex filled (Z.of_nat (length Grid)) with
  | None => Grid
  | Some idx =>
      match Grid !! Z.to_nat idx with
      | Some adj =>
          if strategy.Filled adj
          then <[Z.to_nat idx := clearFill adj]> Grid
          else Grid
      | None => Grid
      end
  end.

Definition markFilled (now : Z) (txHash : string)
    (level : strategy.GridLevel) : strategy.GridLevel :=
  {| strategy.Index := strategy.Index level;
     strategy.Price := strategy.Price level;
     strategy.Side := strategy.Side level;
     strategy.Quantity := strategy.Quantity level;
     strategy.Filled := true;
     strategy.FilledAt := Some now;
     strategy.TxHash := Some txHash |}.

(** The part of [GridBot] that a paper trade reads and writes. *)
Record GridBot : Type := mkGridBot {
  Grid : list strategy.GridLevel;
  TradesExecuted : Z;
  paperWallet : PaperWallet
}.

(** [executeSwap] with paper trading enabled; [pos] is the position in
    [b.Grid] that the [level] pointer refers to, [txHash] the synthetic
    hash.  Notifications and the trade row go to collaborators. *)
Definition executeSwap (PaperSlippagePercent u : Q) (now : Z)
    (txHash : string) (b : GridBot) (pos : nat) (currentPrice : Q)
    (side : string) : result string GridBot :=
  match Grid b !! pos with
  | None => Err "no such level"
  | Some level =>
      let ethAmount := strategy.Quantity level in
      let usdcAmount := (ethAmount * currentPrice)%Q in
      match executePaperSwap PaperSlippagePercent u now (paperWallet b)
              level currentPrice side ethAmount usdcAmount with
      | Err e => Err e
      | Ok (pw, _) =>
          let filled := markFilled now txHash level in
          let grid := <[pos := filled]> (Grid b) in
          Ok {| Grid := resetOppositeLevel grid filled;
                TradesExecuted := wrap64 (TradesExecuted b + 1);
                paperWallet := pw |}
      end
  end.


(** *** The rest of the paper wallet *)

Definition NewPaperWallet (initialETH initialUSDC : Q) : PaperWallet :=
  {| initialETH := initialETH; initialUSDC := initialUSDC;
     ETHBalance := initialETH; USDCBalance := initialUSDC;
     Trades := []; TotalGas := 0 |}.

Record PaperStats : Type := mkPaperStats {
  InitialETH : Q;
  InitialUSDC : Q;
  CurrentETH : Q;
  CurrentUSDC : Q;
  InitialValueUSD : Q;
  CurrentValueUSD : Q;
  UnrealizedPnL : Q;
  UnrealizedPnLPct : Q;
  TotalTrades : Z;
  BuyTrades : Z;
  SellTrades : Z;
  TotalGasSpent : Q;
  GasSpentUSD : Q;
  RunningTimeHours : Q
}.

(** The loop over the trades in [Stats]. *)
Definition countSide (counts : Z * Z) (t : PaperTrade) : Z * Z :=
  let (buys, sells) := counts in
  if String.eqb (Side t) "buy" then (buys + 1, sells) else (buys, sells + 1).

(** [runningHours] is [time.Since(pw.StartTime).Hours()]. *)
Definition Stats (runningHours : Q) (pw : PaperWallet) (currentETHPrice : Q)
  : PaperStats :=
  let initialVal := (initialETH pw * currentETHPrice + initialUSDC pw)%Q in
  let currentVal := (ETHBalance pw * currentETHPrice + USDCBalance pw)%Q in
  let pnl := (currentVal - initialVal)%Q in
  let pnlPct :=
    if Qlt_bool 0 initialVal then (pnl / initialVal * 100)%Q else 0%Q in
  let (buys, sells) := fold_left countSide (Trades pw) (0, 0) in
  {| InitialETH := initialETH pw;
     InitialUSDC := initialUSDC pw;
     CurrentETH := ETHBalance pw;
     CurrentUSDC := USDCBalance pw;
     InitialValueUSD := initialVal;
     CurrentValueUSD := currentVal;
     UnrealizedPnL := pnl;
     UnrealizedPnLPct := pnlPct;
     TotalTrades := Z.of_nat (length (Trades pw));
     BuyTrades := buys;
     SellTrades := sells;
     TotalGasSpent := TotalGas pw;
     GasSpentUSD := (TotalGas pw * currentETHPrice)%Q;
     RunningTimeHours := runningHours |}.

End bot.

(** ** package httputil (the retry executor) *)

Module httputil.

Record RetryConfig : Type := mkRetryConfig {
  MaxAttempts : Z;
  BaseDelay : Z;             (* time.Duration, nanoseconds *)
  MaxDelay : Z
}.

Definition DefaultRetry : RetryConfig :=
  {| MaxAttempts := 3; BaseDelay := 1000000000; MaxDelay := 10000000000 |}.

(** Go errors, with the wrapping that [%w] records. *)
Inductive error : Type :=
| Transport (msg : string)                   (* what client.Do returned *)
| HTTPStatus (status : Z) (body : string)    (* "HTTP %d: %s" *)
| BuildRequest (cause : string)              (* "build request: %w" *)
| AllAttemptsFailed (attempts : Z) (last : error)
                                             (* "all %d attempts failed, ..." *)
| Cancelled (cause : string)                 (* ctx.Err() *)
| NilError.                                  (* a nil error, wrapped *)

Record Response : Type := mkResponse {
  StatusCode : Z;
  Body : string
}.

(** What [client.Do] returns on one attempt. *)
Inductive Sent : Type :=
| SendError (msg : string)
| SendResponse (resp : Response).

(** The world a call to [Do] runs in, per attempt number: whether
    [buildReq] fails, what [client.Do] returns, and whether the context is
    done first in the backoff wait that follows the attempt. *)
Record World : Type := mkWorld {
  buildReq : Z -> option string;
  send : Z -> Sent;
  ctxDone : Z -> option string
}.

(** What a call to [Do] did, in order. *)
Inductive Event : Type :=
| Attempt (n : Z)
| Sleep (delay : Z).

(** The cause recorded in [lastErr] after a failed attempt; the body is
    cut at 512 bytes. *)
Definition failureOf (s : Sent) : error :=
  match s with
  | SendError msg => Transport msg
  | SendResponse resp =>
      HTTPStatus (StatusCode resp) (String.substring 0 512 (Body resp))
  end.

(** [err == nil && resp.StatusCode < 500] *)
Definition succeeded (s : Sent) : option Response :=
  match s with
  | SendError _ => None
  | SendResponse resp => if StatusCode resp <? 500 then Some resp else None
  end.

(** [delay *= 2; if delay > cfg.MaxDelay { delay = cfg.MaxDelay }] *)
Definition nextDelay (cfg : RetryConfig) (delay : Z) : Z :=
  let doubled := wrap64 (delay * 2) in
  if MaxDelay cfg <? doubled then MaxDelay cfg else doubled.

(** The loop from [attempt], with [fuel] iterations left before the loop
    condition [attempt <= cfg.MaxAttempts] fails. *)
Fixpoint attemptLoop (w : World) (cfg : RetryConfig) (fuel : nat)
    (attempt delay : Z) (lastErr : error)
  : result error Response * list Event :=
  match fuel with
  | O => (Err (AllAttemptsFailed (MaxAttempts cfg) lastErr), [])
  | S fuel' =>
      match buildReq w attempt with
      | Some cause => (Err (BuildRequest cause), [])
      | None =>
          match succeeded (send w attempt) with
          | Some resp => (Ok resp, [Attempt attempt])
          | None =>
              let lastErr' := failureOf (send w attempt) in
              if attempt =? MaxAttempts cfg
              then (Err (AllAttemptsFailed (MaxAttempts cfg) lastErr'),
                    [Attempt attempt])
              else
                match ctxDone w attempt with
                | Some cause => (Err (Cancelled cause), [Attempt attempt])
                | None =>
                    let (r, evs) :=
                      attemptLoop w cfg fuel' (attempt + 1)
                        (nextDelay cfg delay) lastErr' in
                    (r, Attempt attempt :: Sleep delay :: evs)
                end
          end
      end
  end.

Definition withDefault (cfg : RetryConfig) : RetryConfig :=
  if MaxAttempts cfg <=? 0
  then {| MaxAttempts := MaxAttempts DefaultRetry;
          BaseDelay := BaseDelay cfg; MaxDelay := MaxDelay cfg |}
  else cfg.

Definition Do (w : World) (cfg : RetryConfig)
  : result error Response * list Event :=
  let cfg := withDefault cfg in
  attemptLoop w cfg (Z.to_nat (MaxAttempts cfg)) 1 (BaseDelay cfg) NilError.

Definition attempts (evs : list Event) : list Z :=
  omap (fun e => match e with Attempt n => Some n | Sleep _ => None end) evs.


End httputil.

(** ** package risk (internal/risk/guardian.go) *)

Module risk.

Record Limits : Type := mkLimits {
  MaxDailyTrades : Z;
  MaxPositionSizeUSD : Q;
  StopLossPercent : Q;
  TakeProfitPercent : Q
}.

(** What [CountToday] answers when it is asked. *)
Inductive Count : Type :=
| Counted (n : Z)
| CountFailed (cause : string).

(** [counter] is [None] for a nil interface. *)
Record Guardian : Type := mkGuardian {
  limits : Limits;
  counter : option Count
}.

Inductive error : Type :=
| PositionTooLarge (tradeUSDValue max : Q)
| CountUnavailable (cause : string)
| DailyLimitReached (max count : Z)
| StopLoss (pnlPercent threshold : Q)
| TakeProfit (pnlPercent threshold : Q).

Definition PreTradeCheck (g : Guardian) (tradeUSDValue : Q) : option error :=
  if Qlt_bool 0 (MaxPositionSizeUSD (limits g))
     && Qlt_bool (MaxPositionSizeUSD (limits g)) tradeUSDValue
  then Some (PositionTooLarge tradeUSDValue (MaxPositionSizeUSD (limits g)))
  else
    if 0 <? MaxDailyTrades (limits g) then
      match counter g with
      | None => None
      | Some (CountFailed cause) => Some (CountUnavailable cause)
      | Some (Counted count) =>
          if MaxDailyTrades (limits g) <=? count
          then Some (DailyLimitReached (MaxDailyTrades (limits g)) count)
          else None
      end
    else None.

Definition PortfolioCheck (g : Guardian) (pnlPercent : Q) : option error :=
  if Qlt_bool 0 (StopLossPercent (limits g))
     && Qle_bool pnlPercent (- StopLossPercent (limits g))
  then Some (StopLoss pnlPercent (StopLossPercent (limits g)))
  else if Qlt_bool 0 (TakeProfitPercent (limits g))
          && Qle_bool (TakeProfitPercent (limits g)) pnlPercent
  then Some (TakeProfit pnlPercent (TakeProfitPercent (limits g)))
  else None.

End risk.

(** ** package api (internal/api/server.go): the middleware *)

Module api.

Record Request : Type := mkRequest {
  Method : string;
  Path : string;             (* r.URL.Path *)
  Authorization : string     (* r.Header.Get("Authorization"), empty if absent *)
}.

(** What [writeJSON] encodes into the body. *)
Inductive Payload : Type :=
| NoBody
| ErrorBody (msg : string).  (* map[string]string{"error": msg} *)

(** The state of an [http.ResponseWriter]: the header map, the status once
    [WriteHeader] has been called, and the body. *)
Record ResponseWriter : Type := mkResponseWriter {
  Header : gmap string string;
  status : option Z;
  body : Payload
}.

Definition emptyWriter : ResponseWriter :=
  {| Header := ∅; status := None; body := NoBody |}.

Definition SetHeader (w : ResponseWriter) (key value : string)
  : ResponseWriter :=
  {| Header := <[key := value]> (Header w); status := status w;
     body := body w |}.

(** Only the first call sets the status. *)
Definition WriteHeader (w : ResponseWriter) (code : Z) : ResponseWriter :=
  {| Header := Header w;
     status := match status w with None => Some code | Some c => Some c end;
     body := body w |}.

Definition StatusOK : Z := 200.
Definition StatusUnauthorized : Z := 401.

Definition writeError (w : ResponseWriter) (code : Z) (msg : string)
  : ResponseWriter :=
  let w := SetHeader w "Content-Type" "application/json" in
  let w := WriteHeader w code in
  {| Header := Header w; status := status w; body := ErrorBody msg |}.

(** [strings.HasPrefix] and the slice [s[len(prefix):]] behind
    [strings.TrimPrefix]. *)
Fixpoint HasPrefix (s prefix : string) {struct prefix} : bool :=
  match prefix, s with
  | EmptyString, _ => true
  | String c prefix', String d s' => Ascii.eqb c d && HasPrefix s' prefix'
  | String _ _, EmptyString => false
  end.

Fixpoint sliceFrom (n : nat) (s : string) {struct n} : string :=
  match n, s with
  | O, _ => s
  | S n', String _ s' => sliceFrom n' s'
  | S _, EmptyString => EmptyString
  end.

Definition TrimPrefix (s prefix : string) : string :=
  if HasPrefix s prefix then sliceFrom (String.length prefix) s else s.

(** A middleware either answers the request itself or hands it, with the
    writer as it stands, to the handler it wraps; both middlewares call
    [next.ServeHTTP] as their last act. *)
Inductive Outcome : Type :=
| Respond (w : ResponseWriter)
| CallNext (w : ResponseWriter).

Definition Handler : Type := Request -> ResponseWriter -> ResponseWriter.

Definition Middleware : Type := Request -> ResponseWriter -> Outcome.

Definition wrap (m : Middleware) (next : Handler) : Handler :=
  fun r w =>
    match m r w with
    | Respond w' => w'
    | CallNext w' => next r w'
    end.

Definition authMiddleware (apiKey : string) : Middleware :=
  fun r w =>
    if String.eqb apiKey "" || String.eqb (Path r) "/health"
    then CallNext w
    else
      let auth := Authorization r in
      if String.eqb auth ""
      then Respond (writeError w StatusUnauthorized
                      "missing Authorization header")
      else
        let token := TrimPrefix auth "Bearer " in
        if String.eqb token auth || negb (String.eqb token apiKey)
        then Respond (writeError w StatusUnauthorized "invalid API key")
        else CallNext w.

Definition corsMiddleware (allowOrigin : string) : Middleware :=
  let allowOrigin := if String.eqb allowOrigin "" then "*" else allowOrigin in
  fun r w =>
    let w := SetHeader w "Access-Control-Allow-Origin" allowOrigin in
    let w := SetHeader w "Access-Control-Allow-Methods" "GET, OPTIONS" in
    let w := SetHeader w "Access-Control-Allow-Headers"
               "Content-Type, Authorization" in
    if String.eqb (Method r) "OPTIONS"
    then Respond (WriteHeader w StatusOK)
    else CallNext w.

(** The handler [NewServer] installs: [s.authMiddleware(corsMiddleware(mux,
    corsOrigin))]. *)
Definition serverHandler (apiKey corsOrigin : string) (mux : Handler)
  : Handler :=
  wrap (authMiddleware apiKey) (wrap (corsMiddleware corsOrigin) mux).

End api.

(** ** package external (internal/external/dune.go): the S/R cache *)

Module external.

(** A float that may be NaN. *)
Inductive jfloat : Type :=
| NaN
| Num (q : Q).

Definition IsNaN (f : jfloat) : bool :=
  match f with NaN => true | Num _ => false end.

(** [x >= y]; false when either side is NaN. *)
Definition fge (x y : jfloat) : bool :=
  match x, y with
  | Num a, Num b => Qle_bool b a
  | _, _ => false
  end.

(** The values a decoded row can hold: a [float64], a [json.Number] with
    what its [Float64] method returns, or anything else. *)
Inductive JSONValue : Type :=
| JFloat64 (f : jfloat)
| JNumber (f : jfloat)
| JOther.

Definition jsonFloat (m : gmap string JSONValue) (key : string) : jfloat :=
  match m !! key with
  | None => NaN
  | Some (JFloat64 n) => n
  | Some (JNumber f) => f
  | Some JOther => NaN
  end.

Record SRResult : Type := mkSRResult {
  Support : jfloat;
  Resistance : jfloat;
  Midpoint : jfloat;
  AvgPrice : jfloat;
  Method : string;
  LookbackDays : Z;
  FetchedAt : Z
}.

Record DuneClient : Type := mkDuneClient {
  method : string;
  lookbackDays : Z;
  cachedResult : option SRResult;
  lastFetch : Z;
  cacheTTL : Z
}.

(** The three readings of the clock in one call: at the cache test, at
    the construction of the result and at the cache update. *)
Record Clock : Type := mkClock {
  atCheck : Z;
  atResult : Z;
  atStore : Z
}.

Definition store (d : DuneClient) (r : SRResult) (now : Z) : DuneClient :=
  {| method := method d; lookbackDays := lookbackDays d;
     cachedResult := Some r; lastFetch := now; cacheTTL := cacheTTL d |}.

(** The result built from the first row. *)
Definition rowResult (d : DuneClient) (clock : Clock)
    (row : gmap string JSONValue) : SRResult :=
  {| Support := jsonFloat row "support";
     Resistance := jsonFloat row "resistance";
     Midpoint := jsonFloat row "midpoint";
     AvgPrice := jsonFloat row "avg_price";
     Method := method d;
     LookbackDays := lookbackDays d;
     FetchedAt := atResult clock |}.

(** [rows] is what [executeQuery] returned: the rows, or the error of the
    submission, the polling or the download. *)
Definition FetchSupportResistance (d : DuneClient) (clock : Clock)
    (forceRefresh : bool)
    (rows : result string (list (gmap string JSONValue)))
  : result string SRResult * DuneClient :=
  let fresh :=
    match cachedResult d with
    | Some cached =>
        if negb forceRefresh && (atCheck clock - lastFetch d <? cacheTTL d)
        then Some cached else None
    | None => None
    end in
  match fresh with
  | Some cached => (Ok cached, d)
  | None =>
      match rows with
      | Err e => (Err e, d)
      | Ok [] => (Err "dune returned no data for S/R query", d)
      | Ok (row :: _) =>
          let r := rowResult d clock row in
          if IsNaN (Support r) || IsNaN (Resistance r) || IsNaN (Midpoint r)
          then (Err "invalid S/R data from Dune", d)
          else if fge (Support r) (Resistance r)
          then (Err "invalid S/R range", d)
          else (Ok r, store d r (atStore clock))
      end
  end.


(** *** The rest of the client *)

(** [Method] and [LookbackDays] of [DuneOptions]; the names are taken by
    [SRResult] in this module. *)
Record DuneOptions : Type := mkDuneOptions {
  OptMethod : string;
  OptLookbackDays : Z;
  RefreshHours : Z
}.

Definition Hour : Z := 3600000000000.   (* time.Hour, in nanoseconds *)

(** The cache starts empty; [lastFetch] is the zero time, which is not
    read while [cachedResult] is nil.  Times are in nanoseconds and
    [time.Since] is the plain difference. *)
Definition NewDuneClient (opts : DuneOptions) : DuneClient :=
  let method := if String.eqb (OptMethod opts) "" then "simple"
                else OptMethod opts in
  let lookback := if OptLookbackDays opts <=? 0 then 14
                  else OptLookbackDays opts in
  let refreshHours := if RefreshHours opts <=? 0 then 48
                      else RefreshHours opts in
  {| method := method; lookbackDays := lookback; cachedResult := None;
     lastFetch := 0; cacheTTL := wrap64 (refreshHours * Hour) |}.

(** [sr] is [None] for a nil pointer; [now] is the reading of the clock. *)
Definition SeedCache (d : DuneClient) (sr : option SRResult) (now : Z)
  : DuneClient :=
  match sr with
  | None => d
  | Some sr =>
      let age := now - FetchedAt sr in
      if cacheTTL d <=? age then d
      else {| method := method d; lookbackDays := lookbackDays d;
              cachedResult := Some sr; lastFetch := FetchedAt sr;
              cacheTTL := cacheTTL d |}
  end.

Definition NeedsRefresh (d : DuneClient) (now : Z) : bool :=
  match cachedResult d with
  | None => true
  | Some _ => cacheTTL d <=? now - lastFetch d
  end.


(** *** The price client (the CoinGecko client of the same package) *)

Definition coingeckoRetry : httputil.RetryConfig :=
  httputil.mkRetryConfig 3 2000000000 10000000000.

Inductive PriceError : Type :=
| FetchFailed (cause : httputil.error)     (* "coingecko fetch: %w" *)
| BadStatus (status : Z)                   (* "coingecko returned status %d" *)
| DecodeFailed (cause : string)            (* "decode: %w" *)
| InvalidPrice (usd : Q).                  (* "invalid price: %f" *)

(** [decode] is the JSON decoder on the body: the value of [ethereum.usd]
    (0 when the field is absent) or the decoder's error. *)
Definition GetETHPrice (decode : string -> result string Q)
    (w : httputil.World) : result PriceError Q :=
  match (httputil.Do w coingeckoRetry).1 with
  | Err e => Err (FetchFailed e)
  | Ok resp =>
      if negb (httputil.StatusCode resp =? 200)
      then Err (BadStatus (httputil.StatusCode resp))
      else
        match decode (httputil.Body resp) with
        | Err cause => Err (DecodeFailed cause)
        | Ok usd =>
            if Qle_bool usd 0 then Err (InvalidPrice usd) else Ok usd
        end
  end.

End external.

(** * The arithmetic of the code, in binary64

    The modules above compare, copy and count the floats they are given.
    The functions whose results are computed floats are embedded here a
    second time, over Rocq's primitive floats: IEEE 754 binary64 with
    round to nearest, ties to even, every operation rounded on its own
    (no fused multiply-add), NaN and the infinities included.  A decimal
    literal stands for the nearest float, as in Go. *)

Module binary64.

(** The conversion [float64(i)] of an [int]; exact up to 2^53. *)
Definition float64 (i : Z) : float :=
  if i <? 0 then PrimFloat.opp (PrimFloat.of_uint63 (Uint63.of_Z (- i)))
  else PrimFloat.of_uint63 (Uint63.of_Z i).

(** [math.Pow] is a library function and a parameter of the embedding. *)
Definition PowFn : Type := float -> float -> float.

Module strategy.

Record GridLevel : Type := mkGridLevel {
  Index : Z;
  Price : float;
  Side : string;
  Quantity : float;
  Filled : bool;
  FilledAt : option Z;
  TxHash : option string
}.

Record GridParams : Type := mkGridParams {
  CenterPrice : float;
  LevelCount : Z;
  SpacingPercent : float;
  AmountPerGrid : float
}.

(** The body of the generation loop for one exponent [i]. *)
Definition levelAt (Pow : PowFn) (p : GridParams) (i : Z) : GridLevel :=
  let multiplier := Pow (1 + SpacingPercent p / 100)%float (float64 i) in
  let levelPrice := (CenterPrice p * multiplier)%float in
  let side := if i <? 0 then "buy" else "sell" in
  let quantity := (AmountPerGrid p / levelPrice)%float in
  {| Index := 0; Price := levelPrice; Side := side; Quantity := quantity;
     Filled := false; FilledAt := None; TxHash := None |}.

(** [for i := -halfLevels; i <= halfLevels; i++]: [fuel] iterations from
    [i]. *)
Fixpoint genLoop (Pow : PowFn) (p : GridParams) (even : bool) (fuel : nat)
    (i : Z) : list GridLevel :=
  match fuel with
  | O => []
  | S fuel' =>
      (if (i =? 0) && even then [] else [levelAt Pow p i])
        ++ genLoop Pow p even fuel' (i + 1)
  end.

Definition generate (Pow : PowFn) (p : GridParams) : list GridLevel :=
  let halfLevels := Z.quot (LevelCount p) 2 in
  let even := Z.rem (LevelCount p) 2 =? 0 in
  genLoop Pow p even (Z.to_nat (halfLevels - (- halfLevels) + 1))
    (- halfLevels).

(** The [less] closure handed to [sort.Slice]. *)
Definition lessPrice (a b : GridLevel) : bool :=
  (Price a <? Price b)%float.

Definition setIndex (i : nat) (l : GridLevel) : GridLevel :=
  {| Index := Z.of_nat i; Price := Price l; Side := Side l;
     Quantity := Quantity l; Filled := Filled l; FilledAt := FilledAt l;
     TxHash := TxHash l |}.

(** [sort.Slice] is a parameter, as above. *)
Definition SortSlice : Type :=
  (GridLevel -> GridLevel -> bool) -> list GridLevel -> list GridLevel.

(** A NaN passes each of the three float guards: [NaN <= 0] is false. *)
Definition CalculateGridLevels (Pow : PowFn) (sortSlice : SortSlice)
    (p : GridParams) : result string (list GridLevel) :=
  if (CenterPrice p <=? 0)%float then Err "center price must be positive"
  else if LevelCount p <? 2 then Err "level count must be at least 2"
  else if (SpacingPercent p <=? 0)%float
       then Err "spacing percent must be positive"
  else if (AmountPerGrid p <=? 0)%float
       then Err "amount per grid must be positive"
  else
    let grid := generate Pow p in
    let grid := sortSlice lessPrice grid in
    Ok (imap setIndex grid).

(** A price that is a number: [x == x] fails for NaN only. *)
Definition numeric (x : float) : Prop := (x =? x)%float = true.

Definition atMost (a b : GridLevel) : Prop :=
  (Price a <=? Price b)%float = true.

(** What the embedding assumes of [sort.Slice]: the result is a
    rearrangement of the slice, and when every price is a number, so that
    [less] orders the slice, each level is priced at most as every level
    after it. *)
Definition SortSliceSpec (sortSlice : SortSlice) : Prop :=
  forall l : list GridLevel,
    sortSlice lessPrice l ≡ₚ l /\
    (Forall (fun x => numeric (Price x)) l ->
     StronglySorted atMost (sortSlice lessPrice l)).

(** One sorting function that meets the contract, used to run examples:
    a stable insertion sort. *)
Fixpoint insertBy (less : GridLevel -> GridLevel -> bool) (x : GridLevel)
    (l : list GridLevel) : list GridLevel :=
  match l with
  | [] => [x]
  | y :: l' => if less y x then y :: insertBy less x l' else x :: l
  end.

Definition insertionSortSlice : SortSlice :=
  fun less l => foldr (insertBy less) [] l.

(** One power function, used to run examples.  It has the special cases
    [Pow(x, 0) = 1] and [Pow(1, y) = 1] that [math.Pow] documents, and
    for a whole exponent up to 64 in magnitude it multiplies [x] that
    many times, taking the reciprocal for a negative exponent. *)
Fixpoint powLoop (fuel : nat) (x y acc : float) : float :=
  match fuel with
  | O => acc
  | S fuel' =>
      if (y <=? 0)%float then acc
      else powLoop fuel' x (y - 1)%float (acc * x)%float
  end.

Definition powWhole : PowFn :=
  fun x y =>
    if (y =? 0)%float then 1%float
    else if (x =? 1)%float then 1%float
    else if (0 <? y)%float then powLoop 64 x y 1%float
    else (1 / powLoop 64 x (- y)%float 1)%float.

Definition CalculateSRChange (newMidpoint oldMidpoint : float) : float :=
  if (oldMidpoint =? 0)%float then 100%float
  else PrimFloat.abs ((newMidpoint - oldMidpoint) / oldMidpoint * 100)%float.

End strategy.

Module models.

Record SupportResistance : Type := mkSupportResistance {
  Support : float;
  Resistance : float;
  Midpoint : float
}.

(** [change >= thresholdPercent] is [thresholdPercent <= change], false
    when either is NaN. *)
Definition HasChangedSignificantly (sr : SupportResistance)
    (previous : option SupportResistance) (thresholdPercent : float) : bool :=
  match previous with
  | None => true
  | Some prev =>
      if (Midpoint prev =? 0)%float then true
      else
        let change :=
          PrimFloat.abs
            ((Midpoint sr - Midpoint prev) / Midpoint prev * 100)%float in
        (thresholdPercent <=? change)%float
  end.

End models.

Module repository.

Inductive Reason : Type :=
| FirstFetch                     (* "First S/R fetch" *)
| Stable                         (* "S/R stable" *)
| MidpointChanged (pct : float). (* "Midpoint changed %.2f%%" *)

Record ChangeAnalysis : Type := mkChangeAnalysis {
  HasChanged : bool;
  ChangePercent : option float;
  Previous : option models.SupportResistance;
  reason : Reason
}.

(** [latest] is what [GetLatest] returned: a database error, no row, or
    the most recent sample.  There is no guard on a zero midpoint here:
    the division then gives an infinity or NaN. *)
Definition CheckSignificantChange
    (latest : result string (option models.SupportResistance))
    (newSR : models.SupportResistance) (thresholdPercent : float)
  : result string ChangeAnalysis :=
  match latest with
  | Err e => Err e
  | Ok None =>
      Ok {| HasChanged := true; ChangePercent := None; Previous := None;
            reason := FirstFetch |}
  | Ok (Some previous) =>
      let pct :=
        PrimFloat.abs
          ((models.Midpoint newSR - models.Midpoint previous)
           / models.Midpoint previous * 100)%float in
      let changed := (thresholdPercent <=? pct)%float in
      Ok {| HasChanged := changed; ChangePercent := Some pct;
            Previous := Some previous;
            reason := if changed then MidpointChanged pct else Stable |}
  end.

End repository.

Module bot.

Record PaperTrade : Type := mkPaperTrade {
  ID : Z;
  Timestamp : Z;             (* time.Now(), formatted RFC 3339 in the code *)
  Side : string;
  GridLevel : Z;
  TriggerPrice : float;
  ExecutionPrice : float;
  ETHAmount : float;
  USDCAmount : float;
  SlippagePct : float;
  GasCost : float;
  BalanceAfterETH : float;
  BalanceAfterUSDC : float
}.

Record PaperWallet : Type := mkPaperWallet {
  initialETH : float;
  initialUSDC : float;
  ETHBalance : float;
  USDCBalance : float;
  Trades : list PaperTrade;
  TotalGas : float
}.

Definition NewPaperWallet (initialETH initialUSDC : float) : PaperWallet :=
  {| initialETH := initialETH; initialUSDC := initialUSDC;
     ETHBalance := initialETH; USDCBalance := initialUSDC;
     Trades := []; TotalGas := 0%float |}.

Definition setBalances (pw : PaperWallet) (eth usdc : float) : PaperWallet :=
  {| initialETH := initialETH pw; initialUSDC := initialUSDC pw;
     ETHBalance := eth; USDCBalance := usdc;
     Trades := Trades pw; TotalGas := TotalGas pw |}.

Definition ExecuteBuy (pw : PaperWallet) (usdcAmount ethAmount : float)
  : result string PaperWallet :=
  if (USDCBalance pw <? usdcAmount)%float then Err "insufficient USDC"
  else Ok (setBalances pw (ETHBalance pw + ethAmount)%float
                          (USDCBalance pw - usdcAmount)%float).

Definition ExecuteSell (pw : PaperWallet) (ethAmount usdcAmount : float)
  : result string PaperWallet :=
  if (ETHBalance pw <? ethAmount)%float then Err "insufficient ETH"
  else Ok (setBalances pw (ETHBalance pw - ethAmount)%float
                          (USDCBalance pw + usdcAmount)%float).

Definition DeductGas (pw : PaperWallet) (gasETH : float) : PaperWallet :=
  {| initialETH := initialETH pw; initialUSDC := initialUSDC pw;
     ETHBalance := (ETHBalance pw - gasETH)%float;
     USDCBalance := USDCBalance pw;
     Trades := Trades pw; TotalGas := (TotalGas pw + gasETH)%float |}.

Definition RecordTrade (now : Z) (pw : PaperWallet) (t : PaperTrade)
  : PaperWallet :=
  let stamped :=
    {| ID := Z.of_nat (length (Trades pw)) + 1; Timestamp := now;
       Side := Side t; GridLevel := GridLevel t;
       TriggerPrice := TriggerPrice t; ExecutionPrice := ExecutionPrice t;
       ETHAmount := ETHAmount t; USDCAmount := USDCAmount t;
       SlippagePct := SlippagePct t; GasCost := GasCost t;
       BalanceAfterETH := ETHBalance pw;
       BalanceAfterUSDC := USDCBalance pw |} in
  {| initialETH := initialETH pw; initialUSDC := initialUSDC pw;
     ETHBalance := ETHBalance pw; USDCBalance := USDCBalance pw;
     Trades := Trades pw ++ [stamped]; TotalGas := TotalGas pw |}.

(** [rand.Float64() * maxPct / 100]; [u] is the draw, in [0, 1). *)
Definition randomSlippage (u maxPct : float) : float :=
  (u * maxPct / 100)%float.

Definition defaultPaperGasCost : float := 0.005%float.

Record PaperReceipt : Type := mkPaperReceipt {
  slippagePct : float;
  gasCost : float
}.

Definition executePaperSwap (PaperSlippagePercent u : float) (now : Z)
    (pw : PaperWallet) (level : strategy.GridLevel) (currentPrice : float)
    (side : string) (ethAmount usdcAmount : float)
  : result string (PaperWallet * PaperReceipt) :=
  let slip := randomSlippage u PaperSlippagePercent in
  let gas := defaultPaperGasCost in
  let swapped :=
    if String.eqb side "buy" then
      let actualETH := (ethAmount * (1 - slip))%float in
      match ExecuteBuy pw usdcAmount actualETH with
      | Err e => Err e
      | Ok pw1 => Ok (pw1, actualETH, usdcAmount)
      end
    else if (ETHBalance pw <? ethAmount + gas)%float
    then Err "insufficient ETH"
    else
      let usdcAfterSlip := (usdcAmount * (1 - slip))%float in
      match ExecuteSell pw ethAmount usdcAfterSlip with
      | Err e => Err e
      | Ok pw1 => Ok (pw1, ethAmount, usdcAfterSlip)
      end in
  match swapped with
  | Err e => Err e
  | Ok (pw1, ethDone, usdcDone) =>
      let pw2 := DeductGas pw1 gas in
      let pw3 :=
        RecordTrade now pw2
          {| ID := 0; Timestamp := 0; Side := side;
             GridLevel := strategy.Index level;
             TriggerPrice := strategy.Price level;
             ExecutionPrice := currentPrice;
             ETHAmount := ethDone; USDCAmount := usdcDone;
             SlippagePct := (slip * 100)%float; GasCost := gas;
             BalanceAfterETH := 0%float; BalanceAfterUSDC := 0%float |} in
      Ok (pw3, {| slippagePct := (slip * 100)%float; gasCost := gas |})
  end.

Definition GetOppositeLevelIndex (filledLevel : strategy.GridLevel)
    (gridLength : Z) : option Z :=
  let idx :=
    if String.eqb (strategy.Side filledLevel) "buy"
    then wrap64 (strategy.Index filledLevel + 1)
    else wrap64 (strategy.Index filledLevel - 1) in
  if (0 <=? idx) && (idx <? gridLength) then Some idx else None.

Definition clearFill (adj : strategy.GridLevel) : strategy.GridLevel :=
  {| strategy.Index := strategy.Index adj;
     strategy.Price := strategy.Price adj;
     strategy.Side := strategy.Side adj;
     strategy.Quantity := strategy.Quantity adj;
     strategy.Filled := false;
     strategy.FilledAt := None;
     strategy.TxHash := None |}.

Definition resetOppositeLevel (Grid : list strategy.GridLevel)
    (filled : strategy.GridLevel) : list strategy.GridLevel :=
  match GetOppositeLevelIndex filled (Z.of_nat (length Grid)) with
  | None => Grid
  | Some idx =>
      match Grid !! Z.to_nat idx with
      | Some adj =>
          if strategy.Filled adj
          then <[Z.to_nat idx := clearFill adj]> Grid
          else Grid
      | None => Grid
      end
  end.

Definition markFilled (now : Z) (txHash : string)
    (level : strategy.GridLevel) : strategy.GridLevel :=
  {| strategy.Index := strategy.Index level;
     strategy.Price := strategy.Price level;
     strategy.Side := strategy.Side level;
     strategy.Quantity := strategy.Quantity level;
     strategy.Filled := true;
     strategy.FilledAt := Some now;
     strategy.TxHash := Some txHash |}.

(** The part of [GridBot] that a paper trade reads and writes. *)
Record GridBot : Type := mkGridBot {
  Grid : list strategy.GridLevel;
  TradesExecuted : Z;
  paperWallet : PaperWallet
}.

(** [executeSwap] with paper trading enabled; [pos] is the position in
    [b.Grid] that the [level] pointer refers to. *)
Definition executeSwap (PaperSlippagePercent u : float) (now : Z)
    (txHash : string) (b : GridBot) (pos : nat) (currentPrice : float)
    (side : string) : result string GridBot :=
  match Grid b !! pos with
  | None => Err "no such level"
  | Some level =>
      let ethAmount := strategy.Quantity level in
      let usdcAmount := (ethAmount * currentPrice)%float in
      match executePaperSwap PaperSlippagePercent u now (paperWallet b)
              level currentPrice side ethAmount usdcAmount with
      | Err e => Err e
      | Ok (pw, _) =>
          let filled := markFilled now txHash level in
          let grid := <[pos := filled]> (Grid b) in
          Ok {| Grid := resetOppositeLevel grid filled;
                TradesExecuted := wrap64 (TradesExecuted b + 1);
                paperWallet := pw |}
      end
  end.

Record PaperStats : Type := mkPaperStats {
  InitialETH : float;
  InitialUSDC : float;
  CurrentETH : float;
  CurrentUSDC : float;
  InitialValueUSD : float;
  CurrentValueUSD : float;
  UnrealizedPnL : float;
  UnrealizedPnLPct : float;
  TotalTrades : Z;
  BuyTrades : Z;
  SellTrades : Z;
  TotalGasSpent : float;
  GasSpentUSD : float;
  RunningTimeHours : float
}.

(** The loop over the trades in [Stats]. *)
Definition countSide (counts : Z * Z) (t : PaperTrade) : Z * Z :=
  let (buys, sells) := counts in
  if String.eqb (Side t) "buy" then (buys + 1, sells) else (buys, sells + 1).

(** [runningHours] is [time.Since(pw.StartTime).Hours()]. *)
Definition Stats (runningHours : float) (pw : PaperWallet)
    (currentETHPrice : float) : PaperStats :=
  let initialVal :=
    (initialETH pw * currentETHPrice + initialUSDC pw)%float in
  let currentVal :=
    (ETHBalance pw * currentETHPrice + USDCBalance pw)%float in
  let pnl := (currentVal - initialVal)%float in
  let pnlPct :=
    if (0 <? initialVal)%float then (pnl / initialVal * 100)%float
    else 0%float in
  let (buys, sells) := fold_left countSide (Trades pw) (0, 0) in
  {| InitialETH := initialETH pw;
     InitialUSDC := initialUSDC pw;
     CurrentETH := ETHBalance pw;
     CurrentUSDC := USDCBalance pw;
     InitialValueUSD := initialVal;
     CurrentValueUSD := currentVal;
     UnrealizedPnL := pnl;
     UnrealizedPnLPct := pnlPct;
     TotalTrades := Z.of_nat (length (Trades pw));
     BuyTrades := buys;
     SellTrades := sells;
     TotalGasSpent := TotalGas pw;
     GasSpentUSD := (TotalGas pw * currentETHPrice)%float;
     RunningTimeHours := runningHours |}.

End bot.

End binary64.

(** ** package scheduler (internal/scheduler/sr.go) *)

Module scheduler.

Record BotState : Type := mkBotState {
  Grid : list strategy.GridLevel;
  LastETHPrice : Q
}.

(** [OnSRUpdate] and [OnGridRecalculate] say whether the callback is set;
    a call of a callback is an event of the run.  [GetBotState] is an
    argument of [fetchAndProcess]: what the provider answers then. *)
Record SRSchedulerConfig : Type := mkSRSchedulerConfig {
  CronInterval : Z;          (* time.Duration, nanoseconds *)
  SRChangeThreshold : Q;
  OnSRUpdate : bool;
  OnGridRecalculate : bool
}.

Record SRScheduler : Type := mkSRScheduler {
  cfg : SRSchedulerConfig;
  running : bool
}.

Definition NewSRScheduler (cfg : SRSchedulerConfig) : SRScheduler :=
  let interval := if CronInterval cfg <=? 0 then 1 * external.Hour
                  else CronInterval cfg in
  let threshold := if Qle_bool (SRChangeThreshold cfg) 0 then 5%Q
                   else SRChangeThreshold cfg in
  {| cfg := {| CronInterval := interval; SRChangeThreshold := threshold;
               OnSRUpdate := OnSRUpdate cfg;
               OnGridRecalculate := OnGridRecalculate cfg |};
     running := false |}.

Definition MaxFloat64 : Q := inject_Z (2 ^ 1024 - 2 ^ 971).

(** The loop of [gridRange] is the scan of [IsPriceOutsideGrid], started
    from the largest and the smallest float. *)
Definition gridRange (grid : list strategy.GridLevel) : Q * Q :=
  fold_left strategy.widen grid (MaxFloat64, (- MaxFloat64)%Q).

(** The reasons collected for a recalculation, before formatting. *)
Inductive Reason : Type :=
| MidpointChanged (pct : option float)
                             (* "S/R midpoint changed %s" *)
| PriceOutside (price lo hi : Q)
                             (* "Price $%.2f outside grid range (...)" *)
| AllBuysFilled              (* "All buy levels filled - ..." *)
| AllSellsFilled.            (* "All sell levels filled - ..." *)

(** What a run does to its collaborators, in order: the row stored by
    [srRepo.Record] with its [GridRecalculated] flag, and the callbacks. *)
Inductive Event : Type :=
| Recorded (sr : external.SRResult) (gridRecalculated : bool)
| SRUpdated (sr : external.SRResult)
| GridRecalculated (sr : external.SRResult).

(** [srRepo.CheckSignificantChange], a method of the repository: given
    the midpoint of the new sample and the threshold it answers with its
    analysis or with the error of the database. *)
Definition ChangeCheck : Type :=
  external.jfloat -> Q -> result string binary64.repository.ChangeAnalysis.

(** The three conditions, each taking [shouldRecalculate] and [reasons]
    as they stand and giving them back.  Condition 1: the midpoint
    changed; an error of the check is only logged. *)
Definition changeCondition
    (change : result string binary64.repository.ChangeAnalysis)
    (state : bool * list Reason) : bool * list Reason :=
  match change with
  | Err _ => state
  | Ok change =>
      if binary64.repository.HasChanged change
      then (true,
            state.2
              ++ [MidpointChanged (binary64.repository.ChangePercent change)])
      else state
  end.

(** Conditions 2 and 3, on the state of the bot. *)
Definition gridConditions (bot : BotState)
    (state : bool * list Reason) : bool * list Reason :=
  let state :=
    if Qlt_bool 0 (LastETHPrice bot)
       && strategy.IsPriceOutsideGrid (LastETHPrice bot) (Grid bot)
    then
      let (lo, hi) := gridRange (Grid bot) in
      (true, state.2 ++ [PriceOutside (LastETHPrice bot) lo hi])
    else state in
  let state :=
    if strategy.AreAllSideFilled (Grid bot) "buy"
    then (true, state.2 ++ [AllBuysFilled]) else state in
  if strategy.AreAllSideFilled (Grid bot) "sell"
  then (true, state.2 ++ [AllSellsFilled]) else state.

(** [getBotState] is [None] when no provider is configured and
    [Some None] when the provider answers nil. *)
Definition botConditions (getBotState : option (option BotState))
    (state : bool * list Reason) : bool * list Reason :=
  match getBotState with
  | Some (Some bot) =>
      if 0 <? Z.of_nat (length (Grid bot))
      then gridConditions bot state else state
  | _ => state
  end.

(** [recordError] is the error of [srRepo.Record], if any.  The result
    is the error returned, the client, the events and the reasons. *)
Definition fetchAndProcess (s : SRScheduler) (d : external.DuneClient)
    (clock : external.Clock)
    (rows : result string (list (gmap string external.JSONValue)))
    (CheckSignificantChange : ChangeCheck)
    (getBotState : option (option BotState)) (recordError : option string)
  : option string * external.DuneClient * list Event * list Reason :=
  match external.FetchSupportResistance d clock true rows with
  | (Err e, d) => (Some e, d, [], [])
  | (Ok sr, d) =>
      let change :=
        CheckSignificantChange (external.Midpoint sr)
          (SRChangeThreshold (cfg s)) in
      let (shouldRecalculate, reasons) :=
        botConditions getBotState (changeCondition change (false, [])) in
      match recordError with
      | Some e => (Some e, d, [], reasons)
      | None =>
          (None, d,
           [Recorded sr shouldRecalculate]
             ++ (if OnSRUpdate (cfg s) then [SRUpdated sr] else [])
             ++ (if shouldRecalculate && OnGridRecalculate (cfg s)
                 then [GridRecalculated sr] else []),
           reasons)
      end
  end.

(** [joinReasons] on the formatted reasons. *)
Definition joinReasons (reasons : list string) : string :=
  match reasons with
  | [] => "none"
  | first :: rest =>
      fold_left (fun out r => String.append out (String.append ", " r))
        rest first
  end.

End scheduler.

(** ** package bot, continued: the price, the grid and the tick *)

Module gridbot.

(** The fields of [config.Config] read here.  Paper trading is enabled
    and [Init] has made the paper wallet; notifications, logging and the
    rows written to the database are left to the collaborators. *)
Record Config : Type := mkConfig {
  GridLevels : Z;
  GridSpacingPercent : Q;
  AmountPerGrid : Q;
  PaperSlippagePercent : Q
}.

Record GridBot : Type := mkGridBot {
  cfg : Config;
  limits : risk.Limits;      (* the limits of b.guardian *)
  Grid : list strategy.GridLevel;
  LastETHPrice : Q;
  BasePrice : Q;
  TradesExecuted : Z;
  PriceChecks : Z;
  LastSRRefresh : option Z;
  paperWallet : bot.PaperWallet;
  running : bool;
  stopClosed : bool          (* b.stopCh has been closed *)
}.

(** [NewGridBot], followed by the wallet that [Init] makes. *)
Definition NewGridBot (cfg : Config) (limits : risk.Limits)
    (wallet : bot.PaperWallet) : GridBot :=
  {| cfg := cfg; limits := limits; Grid := []; LastETHPrice := 0;
     BasePrice := 0; TradesExecuted := 0; PriceChecks := 0;
     LastSRRefresh := None; paperWallet := wallet; running := false;
     stopClosed := false |}.

Definition withLastETHPrice (b : GridBot) (price : Q) : GridBot :=
  {| cfg := cfg b; limits := limits b; Grid := Grid b;
     LastETHPrice := price; BasePrice := BasePrice b;
     TradesExecuted := TradesExecuted b; PriceChecks := PriceChecks b;
     LastSRRefresh := LastSRRefresh b; paperWallet := paperWallet b;
     running := running b; stopClosed := stopClosed b |}.

Definition withBasePrice (b : GridBot) (center : Q) : GridBot :=
  {| cfg := cfg b; limits := limits b; Grid := Grid b;
     LastETHPrice := LastETHPrice b; BasePrice := center;
     TradesExecuted := TradesExecuted b; PriceChecks := PriceChecks b;
     LastSRRefresh := LastSRRefresh b; paperWallet := paperWallet b;
     running := running b; stopClosed := stopClosed b |}.

Definition withGrid (b : GridBot) (grid : list strategy.GridLevel)
  : GridBot :=
  {| cfg := cfg b; limits := limits b; Grid := grid;
     LastETHPrice := LastETHPrice b; BasePrice := BasePrice b;
     TradesExecuted := TradesExecuted b; PriceChecks := PriceChecks b;
     LastSRRefresh := LastSRRefresh b; paperWallet := paperWallet b;
     running := running b; stopClosed := stopClosed b |}.

Definition withLastSRRefresh (b : GridBot) (now : Z) : GridBot :=
  {| cfg := cfg b; limits := limits b; Grid := Grid b;
     LastETHPrice := LastETHPrice b; BasePrice := BasePrice b;
     TradesExecuted := TradesExecuted b; PriceChecks := PriceChecks b;
     LastSRRefresh := Some now; paperWallet := paperWallet b;
     running := running b; stopClosed := stopClosed b |}.

Definition withPriceChecks (b : GridBot) (n : Z) : GridBot :=
  {| cfg := cfg b; limits := limits b; Grid := Grid b;
     LastETHPrice := LastETHPrice b; BasePrice := BasePrice b;
     TradesExecuted := TradesExecuted b; PriceChecks := n;
     LastSRRefresh := LastSRRefresh b; paperWallet := paperWallet b;
     running := running b; stopClosed := stopClosed b |}.

(** [close(b.stopCh); b.running = false] *)
Definition halt (b : GridBot) : GridBot :=
  {| cfg := cfg b; limits := limits b; Grid := Grid b;
     LastETHPrice := LastETHPrice b; BasePrice := BasePrice b;
     TradesExecuted := TradesExecuted b; PriceChecks := PriceChecks b;
     LastSRRefresh := LastSRRefresh b; paperWallet := paperWallet b;
     running := false; stopClosed := true |}.

(** The part of the bot that a paper trade reads and writes. *)
Definition core (b : GridBot) : bot.GridBot :=
  bot.mkGridBot (Grid b) (TradesExecuted b) (paperWallet b).

Definition withCore (b : GridBot) (c : bot.GridBot) : GridBot :=
  {| cfg := cfg b; limits := limits b; Grid := bot.Grid c;
     LastETHPrice := LastETHPrice b; BasePrice := BasePrice b;
     TradesExecuted := bot.TradesExecuted c; PriceChecks := PriceChecks b;
     LastSRRefresh := LastSRRefresh b; paperWallet := bot.paperWallet c;
     running := running b; stopClosed := stopClosed b |}.

(** [quote] is what [coingecko.GetETHPrice] returned.  The result is the
    price handed back and the bot with its [LastETHPrice]. *)
Definition fetchETHPrice (b : GridBot)
    (quote : result external.PriceError Q) : Q * GridBot :=
  match quote with
  | Err _ => (LastETHPrice b, b)
  | Ok price =>
      if Qlt_bool price 100 || Qlt_bool 100000 price
      then (LastETHPrice b, b)
      else (price, withLastETHPrice b price)
  end.

(** The [external.SRResult] built from the fallback; the fields not
    named in the literal are zero. *)
Definition fallbackResult (price : Q) : external.SRResult :=
  let fb := strategy.CreateFallbackSR price in
  {| external.Support := external.Num (strategy.Support fb);
     external.Resistance := external.Num (strategy.Resistance fb);
     external.Midpoint := external.Num (strategy.Midpoint fb);
     external.AvgPrice := external.Num 0;
     external.Method := strategy.Method fb;
     external.LookbackDays := 0;
     external.FetchedAt := 0 |}.

(** [dune] is [None] for a nil client; the client is shared with the
    scheduler, so its state is handed back. *)
Definition fetchSR (b : GridBot) (dune : option external.DuneClient)
    (clock : external.Clock)
    (rows : result string (list (gmap string external.JSONValue)))
    (now : Z) (quote : result external.PriceError Q)
  : external.SRResult * GridBot * option external.DuneClient :=
  match dune with
  | None =>
      let (price, b) := fetchETHPrice b quote in
      (fallbackResult price, b, None)
  | Some d =>
      match external.FetchSupportResistance d clock false rows with
      | (Err _, d) =>
          let (price, b) := fetchETHPrice b quote in
          (fallbackResult price, b, Some d)
      | (Ok sr, d) => (sr, withLastSRRefresh b now, Some d)
      end
  end.

(** [quoteSR] is the quote that [fetchSR] asks for when it falls back,
    [quote] the one asked for afterwards.  The result is the error (if
    any), the bot and the client; it is [None] where the center would be
    the NaN midpoint of a seeded result, which the rationals do not
    have. *)
Definition InitializeGrid (sortSlice : strategy.SortSlice) (b : GridBot)
    (dune : option external.DuneClient) (clock : external.Clock)
    (rows : result string (list (gmap string external.JSONValue)))
    (now : Z) (quoteSR quote : result external.PriceError Q)
  : option (option string * GridBot * option external.DuneClient) :=
  let '(sr, b, dune) := fetchSR b dune clock rows now quoteSR in
  let center :=
    if Qeq_bool (BasePrice b) 0
    then match external.Midpoint sr with
         | external.Num m => Some m
         | external.NaN => None
         end
    else Some (BasePrice b) in
  match center with
  | None => None
  | Some center =>
      let b := withBasePrice b center in
      let (price, b) := fetchETHPrice b quote in
      if Qle_bool price 0
      then Some (Some "cannot initialize grid: invalid ETH price", b, dune)
      else
        match strategy.CalculateGridLevels sortSlice
                {| strategy.CenterPrice := center;
                   strategy.LevelCount := GridLevels (cfg b);
                   strategy.SpacingPercent := GridSpacingPercent (cfg b);
                   strategy.AmountPerGrid := AmountPerGrid (cfg b) |} with
        | Err e => Some (Some e, b, dune)
        | Ok grid => Some (None, withGrid b grid, dune)
        end
  end.

(** [Service.BotState] and [Service.InitializeGrid]; [sbot] is [None]
    while the service has no bot. *)
Definition Service_BotState (sbot : option GridBot)
  : option scheduler.BotState :=
  match sbot with
  | None => None
  | Some b =>
      if Z.of_nat (length (Grid b)) =? 0 then None
      else Some (scheduler.mkBotState (Grid b) (LastETHPrice b))
  end.

Definition Service_InitializeGrid (sortSlice : strategy.SortSlice)
    (sbot : option GridBot) (dune : option external.DuneClient)
    (clock : external.Clock)
    (rows : result string (list (gmap string external.JSONValue)))
    (now : Z) (quoteSR quote : result external.PriceError Q)
  : option (option GridBot * option external.DuneClient) :=
  match sbot with
  | None => Some (None, dune)
  | Some b =>
      match InitializeGrid sortSlice (withBasePrice b 0) dune clock rows
              now quoteSR quote with
      | None => None
      | Some (_, b, dune) => Some (Some b, dune)
      end
  end.

Inductive TradeError : Type :=
| RiskRefused (e : risk.error)
| SwapError (e : string).

(** What one tick needs from outside: the quote, the answer of
    [CountToday], the random draw, the clock and the synthetic hash. *)
Record TickInput : Type := mkTickInput {
  quote : result external.PriceError Q;
  count : risk.Count;
  draw : Q;
  now : Z;
  txHash : string
}.

(** The two numbers that the guards of a tick compare with the limits
    are computed in binary64: the P&L percent in what
    [paperWallet.Stats] reports at a price, and the product
    [level.Quantity * currentPrice].  Their arithmetic is kept abstract
    here: the tick is embedded for every such pair of functions. *)
Record Arith : Type := mkArith {
  Stats : bot.PaperWallet -> Q -> bot.PaperStats;
  mul : Q -> Q -> Q
}.

(** [pos] is the position in [b.Grid] of the level that [level] points
    to. *)
Definition executeTrade (ar : Arith) (b : GridBot) (i : TickInput)
    (pos : nat) (currentPrice : Q) : result TradeError GridBot :=
  match Grid b !! pos with
  | None => Err (SwapError "no such level")
  | Some level =>
      let tradeUSD := mul ar (strategy.Quantity level) currentPrice in
      match risk.PreTradeCheck
              (risk.mkGuardian (limits b) (Some (count i))) tradeUSD with
      | Some e => Err (RiskRefused e)
      | None =>
          let side :=
            if String.eqb (strategy.Side level) "buy" then "buy"
            else "sell" in
          match bot.executeSwap (PaperSlippagePercent (cfg b)) (draw i)
                  (now i) (txHash i) (core b) pos currentPrice side with
          | Err e => Err (SwapError e)
          | Ok c => Ok (withCore b c)
          end
      end
  end.

Definition portfolioPnLPercent (ar : Arith) (b : GridBot)
    (currentPrice : Q) : Q * bool :=
  (bot.UnrealizedPnLPct (Stats ar (paperWallet b) currentPrice), true).

Inductive TickOutcome : Type :=
| NoPrice                    (* "Could not fetch ETH price, skipping tick" *)
| CircuitBreaker (e : risk.error)
| ClosedTwice                (* close of a closed channel: the tick panics *)
| Quiet                      (* no level is triggered *)
| TradeFailed (pos : nat) (e : TradeError)
| Traded (pos : nat).

Definition tick (ar : Arith) (b : GridBot) (i : TickInput)
  : TickOutcome * GridBot :=
  let b := withPriceChecks b (wrap64 (PriceChecks b + 1)) in
  let (price, b) := fetchETHPrice b (quote i) in
  if Qle_bool price 0 then (NoPrice, b)
  else
    let (pnl, ok) := portfolioPnLPercent ar b price in
    let tripped :=
      if ok
      then risk.PortfolioCheck
             (risk.mkGuardian (limits b) (Some (count i))) pnl
      else None in
    match tripped with
    | Some e =>
        if stopClosed b then (ClosedTwice, b) else (CircuitBreaker e, halt b)
    | None =>
        match strategy.FindTriggeredLevel price (Grid b) with
        | None => (Quiet, b)
        | Some pos =>
            match executeTrade ar b i pos price with
            | Err e => (TradeFailed pos e, b)
            | Ok b => (Traded pos, b)
            end
        end
    end.

End gridbot.

(** ** Vocabulary of the statements *)

(** The preconditions of [CalculateGridLevels]. *)
Definition validParams (p : strategy.GridParams) : Prop :=
  (0 < strategy.CenterPrice p)%Q /\ 2 <= strategy.LevelCount p /\
  (0 < strategy.SpacingPercent p)%Q /\ (0 < strategy.AmountPerGrid p)%Q.

(** The exponents the generation loop keeps for [n] levels, in order:
    from [-n/2] to [n/2], without 0 when [n] is even. *)
Definition exponents (n : Z) : list Z :=
  filter (fun i => ~ (i = 0 /\ n mod 2 = 0))
         (seqZ (- (n / 2)) (2 * (n / 2) + 1)).

(** The number of levels of a grid that wait on [side]. *)
Definition sideCount (side : string)
    (grid : list binary64.strategy.GridLevel) : nat :=
  length (filter (fun l => binary64.strategy.Side l = side) grid).

(** No guard of [CalculateGridLevels] fires on [p], the comparisons being
    those of binary64: a NaN is not [<= 0]. *)
Definition passesGuards (p : binary64.strategy.GridParams) : Prop :=
  (binary64.strategy.CenterPrice p <=? 0)%float = false /\
  2 <= binary64.strategy.LevelCount p /\
  (binary64.strategy.SpacingPercent p <=? 0)%float = false /\
  (binary64.strategy.AmountPerGrid p <=? 0)%float = false.

(** The exponent of the level that ends up at position [k] of a grid of
    [n] levels: [k - n/2], stepping over 0 when [n] is even. *)
Definition exponentOf (n : Z) (k : nat) : Z :=
  let h := n / 2 in
  if (n mod 2 =? 0) && (h <=? Z.of_nat k)
  then Z.of_nat k - h + 1
  else Z.of_nat k - h.

(** A level fires at price [P]: it is unfilled and the price has reached
    it from the side it waits on. *)
Definition triggered (P : Q) (l : strategy.GridLevel) : Prop :=
  strategy.Filled l = false /\
  ((strategy.Side l = "buy" /\ (P <= strategy.Price l)%Q) \/
   (strategy.Side l = "sell" /\ (strategy.Price l <= P)%Q)).

(** The grid's [Index] fields agree with the positions. *)
Definition wellIndexed (grid : list strategy.GridLevel) : Prop :=
  forall (k : nat) l, grid !! k = Some l -> strategy.Index l = Z.of_nat k.

(** The grid of the second end-to-end scenario; [firstFilled] says whether
    the buy at 2550 has been filled. *)
Definition scenarioGrid (firstFilled : bool) : list strategy.GridLevel :=
  [ strategy.mkGridLevel 0 2550 "buy" 0 firstFilled None None;
    strategy.mkGridLevel 1 2600 "buy" 0 false None None;
    strategy.mkGridLevel 2 2700 "sell" 0 false None None;
    strategy.mkGridLevel 3 2750 "sell" 0 false None None ].


(** A wallet that holds no ETH, as after selling down to the reserve. *)
Definition drainedWallet : bot.PaperWallet :=
  bot.mkPaperWallet 0 1000 0 1000 [] 0.


(** The number of attempts [Do] allows: the configured one, or the
    default 3 when that is not positive. *)
Definition effectiveAttempts (cfg : httputil.RetryConfig) : Z :=
  if httputil.MaxAttempts cfg <=? 0 then 3 else httputil.MaxAttempts cfg.





Definition testRetry : httputil.RetryConfig :=
  httputil.mkRetryConfig 3 50000000 200000000.

(** A request that passes the auth middleware of a server whose key is
    [apiKey]. *)
Definition authorized (apiKey : string) (r : api.Request) : Prop :=
  apiKey = "" \/ api.Path r = "/health" \/
  api.Authorization r = String.append "Bearer " apiKey.

(** The three CORS headers are set on the writer. *)
Definition corsHeadersSet (allowOrigin : string) (w : api.ResponseWriter)
  : Prop :=
  api.Header w !! "Access-Control-Allow-Origin"
    = Some (if String.eqb allowOrigin "" then "*" else allowOrigin) /\
  api.Header w !! "Access-Control-Allow-Methods" = Some "GET, OPTIONS" /\
  api.Header w !! "Access-Control-Allow-Headers"
    = Some "Content-Type, Authorization".

(** The result passed the validation of the S/R client. *)
Definition validSR (r : external.SRResult) : Prop :=
  exists s res m,
    external.Support r = external.Num s /\
    external.Resistance r = external.Num res /\
    external.Midpoint r = external.Num m /\ (s < res)%Q.

(** A client whose cache holds the sample [2400, 3000, 2700] fetched at
    time 1000, and a row whose support is not below its resistance. *)
Definition cachedSample : external.SRResult :=
  external.mkSRResult (external.Num 2400) (external.Num 3000)
    (external.Num 2700) (external.Num 2690) "simple" 14 1000.

Definition warmClient : external.DuneClient :=
  external.mkDuneClient "simple" 14 (Some cachedSample) 1000 172800.

Definition invertedRow : gmap string external.JSONValue :=
  <["support" := external.JFloat64 (external.Num 3000)]>
    (<["resistance" := external.JFloat64 (external.Num 2400)]>
       (<["midpoint" := external.JFloat64 (external.Num 2700)]> ∅)).

(** What a server with the key "s" answers to a preflight request that
    carries no Authorization header; the inner handler would answer 200. *)
Definition preflightAnswer : api.ResponseWriter :=
  api.serverHandler "s" "" (fun _ w => api.WriteHeader w api.StatusOK)
    (api.mkRequest "OPTIONS" "/v1/prices/latest" "") api.emptyWriter.

(** The number of levels of a grid that pass a test. *)
Definition countIf (test : strategy.GridLevel -> bool)
    (grid : list strategy.GridLevel) : Z :=
  Z.of_nat (length (List.filter test grid)).

Definition isSide (side : string) (l : strategy.GridLevel) : bool :=
  String.eqb (strategy.Side l) side.

Definition isFilledSide (side : string) (l : strategy.GridLevel) : bool :=
  String.eqb (strategy.Side l) side && strategy.Filled l.

Definition isPendingSide (side : string) (l : strategy.GridLevel) : bool :=
  String.eqb (strategy.Side l) side && negb (strategy.Filled l).

(** One paper swap in binary64, with everything the code draws from the
    configuration, the random source and the clock. *)
Record SwapInput : Type := mkSwapInput {
  swapSlippagePercent : float;
  swapDraw : float;
  swapNow : Z;
  swapLevel : binary64.strategy.GridLevel;
  swapPrice : float;
  swapSide : string;
  swapETH : float;
  swapUSDC : float
}.

Definition paperSwap (pw : binary64.bot.PaperWallet) (i : SwapInput)
  : result string (binary64.bot.PaperWallet * binary64.bot.PaperReceipt) :=
  binary64.bot.executePaperSwap (swapSlippagePercent i) (swapDraw i)
    (swapNow i) pw (swapLevel i) (swapPrice i) (swapSide i) (swapETH i)
    (swapUSDC i).

(** The wallets a new wallet can become through completed paper swaps. *)
Inductive reachableWallet (initialETH initialUSDC : float)
  : binary64.bot.PaperWallet -> Prop :=
| reach_new :
    reachableWallet initialETH initialUSDC
      (binary64.bot.NewPaperWallet initialETH initialUSDC)
| reach_swap pw i pw' rc :
    reachableWallet initialETH initialUSDC pw ->
    paperSwap pw i = Ok (pw', rc) ->
    reachableWallet initialETH initialUSDC pw'.

(** The buy of the seventh scenario, as an input of [paperSwap]. *)
Definition firstBuy : SwapInput :=
  mkSwapInput 0.5 0.8 0
    (binary64.strategy.mkGridLevel 0 2000 "buy" 0.05 false None None)
    2000 "buy" 0.05 100.

(** The gas of [k] trades as the wallet adds it up: one rounded addition
    of the constant per trade. *)
Definition gasAfter (k : nat) : float :=
  Nat.iter k (fun g => (g + binary64.bot.defaultPaperGasCost)%float) 0%float.


(** A client as [NewDuneClient] makes it from empty options, a row that
    passes validation, and a result that would not: its support is not
    below its resistance. *)
Definition coldClient : external.DuneClient :=
  external.NewDuneClient (external.mkDuneOptions "" 0 0).

Definition sampleRow : gmap string external.JSONValue :=
  <["support" := external.JFloat64 (external.Num 2400)]>
    (<["resistance" := external.JFloat64 (external.Num 3000)]>
       (<["midpoint" := external.JFloat64 (external.Num 2700)]> ∅)).

Definition invertedSample : external.SRResult :=
  external.mkSRResult (external.Num 3000) (external.Num 2400)
    (external.Num 2700) external.NaN "simple" 14 1000.


(** The repository's check, asked about [midpoint] at [threshold],
    answers that the midpoint has changed. *)
Definition changeReported (check : scheduler.ChangeCheck)
    (midpoint : external.jfloat) (threshold : Q) : Prop :=
  exists a,
    check midpoint threshold = Ok a /\
    binary64.repository.HasChanged a = true.

(** Every level of the grid is priced above [P], or every level below. *)
Definition beyondGrid (P : Q) (grid : list strategy.GridLevel) : Prop :=
  (forall l, l ∈ grid -> (P < strategy.Price l)%Q) \/
  (forall l, l ∈ grid -> (strategy.Price l < P)%Q).

(** The grid has levels of [side] and all of them are filled. *)
Definition sideSpent (side : string) (grid : list strategy.GridLevel)
  : Prop :=
  (exists l, l ∈ grid /\ strategy.Side l = side) /\
  (forall l, l ∈ grid -> strategy.Side l = side -> strategy.Filled l = true).

(** The provider answers with a grid that is not empty and that the last
    price has left, or one side of which is used up. *)
Definition gridSpent (getBotState : option (option scheduler.BotState))
  : Prop :=
  exists bot,
    getBotState = Some (Some bot) /\ scheduler.Grid bot <> [] /\
    (((0 < scheduler.LastETHPrice bot)%Q /\
      beyondGrid (scheduler.LastETHPrice bot) (scheduler.Grid bot)) \/
     sideSpent "buy" (scheduler.Grid bot) \/
     sideSpent "sell" (scheduler.Grid bot)).

(** The threshold a scheduler made from [cfg] works with. *)
Definition effectiveThreshold (cfg : scheduler.SRSchedulerConfig) : Q :=
  if Qle_bool (scheduler.SRChangeThreshold cfg) 0 then 5%Q
  else scheduler.SRChangeThreshold cfg.

(** The events of a run that stored its row. *)
Definition storedRun (cfg : scheduler.SRSchedulerConfig)
    (sr : external.SRResult) (should : bool) : list scheduler.Event :=
  [scheduler.Recorded sr should]
    ++ (if scheduler.OnSRUpdate cfg then [scheduler.SRUpdated sr] else [])
    ++ (if should && scheduler.OnGridRecalculate cfg
        then [scheduler.GridRecalculated sr] else []).

(** The wiring of [main]: threshold 5, hourly, only [OnGridRecalculate]
    set; and a bot state whose four-level grid the price has left. *)
Definition mainScheduler : scheduler.SRScheduler :=
  scheduler.NewSRScheduler
    (scheduler.mkSRSchedulerConfig (1 * external.Hour) 5 false true).

(** A repository whose latest midpoint is the new one: no change. *)
Definition steadyCheck : scheduler.ChangeCheck :=
  fun _ _ =>
    Ok (binary64.repository.mkChangeAnalysis false (Some 0%float) None
          binary64.repository.Stable).

Definition leftBehind : scheduler.BotState :=
  scheduler.mkBotState (scenarioGrid false) 2800.

(** [reasons] is empty exactly while [shouldRecalculate] is false. *)
Definition consistent (state : bool * list scheduler.Reason) : Prop :=
  state.2 = [] <-> state.1 = false.

(** The quote is a price that passes the sanity check of
    [fetchETHPrice]. *)
Definition accepted (quote : result external.PriceError Q) (p : Q) : Prop :=
  quote = Ok p /\ (100 <= p)%Q /\ (p <= 100000)%Q.

(** A last price is zero, as in a new bot, or one that was accepted. *)
Definition saneOrUnset (price : Q) : Prop :=
  (price == 0)%Q \/ ((100 <= price)%Q /\ (price <= 100000)%Q).

(** The stop-loss or the take-profit of [limits] is set and reached by
    the P&L. *)
Definition breakerTripped (limits : risk.Limits) (pnl : Q) : Prop :=
  ((0 < risk.StopLossPercent limits)%Q /\
   (pnl <= - risk.StopLossPercent limits)%Q) \/
  ((0 < risk.TakeProfitPercent limits)%Q /\
   (risk.TakeProfitPercent limits <= pnl)%Q).


(** The price a tick works with and the P&L it hands to the guardian. *)
Definition tickPrice (b : gridbot.GridBot) (i : gridbot.TickInput) : Q :=
  (gridbot.fetchETHPrice b (gridbot.quote i)).1.

Definition tickPnL (ar : gridbot.Arith) (b : gridbot.GridBot)
    (i : gridbot.TickInput) : Q :=
  bot.UnrealizedPnLPct
    (gridbot.Stats ar (gridbot.paperWallet b) (tickPrice b i)).



(** A bot holding the single buy level of the seventh scenario, with
    limits that the trade keeps, and the tick that fills it. *)
Definition scenarioTrader : gridbot.GridBot :=
  gridbot.mkGridBot (gridbot.mkConfig 10 2 100 (1 # 2))
    (risk.mkLimits 10 500 20 50)
    [ strategy.mkGridLevel 0 2000 "buy" 0.05 false None None ]
    0 2000 0 0 None (bot.NewPaperWallet 1 1000) true false.


(** The parameters that [InitializeGrid] hands to [CalculateGridLevels]
    for a center. *)
Definition gridParams (cfg : gridbot.Config) (center : Q)
  : strategy.GridParams :=
  strategy.mkGridParams center (gridbot.GridLevels cfg)
    (gridbot.GridSpacingPercent cfg) (gridbot.AmountPerGrid cfg).

(** The drift between two midpoints, as the code computes it in
    binary64. *)
Definition drift64 (newMidpoint prevMidpoint : float) : float :=
  PrimFloat.abs ((newMidpoint - prevMidpoint) / prevMidpoint * 100)%float.


(** * Properties *)

(** ** Floats as rationals: the comparison operators *)

Lemma Qlt_bool_iff (x y : Q) : Qlt_bool x y = true <-> (x < y)%Q.
Proof. unfold Qlt_bool, Qlt. apply Z.ltb_lt. Qed.

Lemma Qlt_bool_false (x y : Q) : Qlt_bool x y = false <-> (y <= x)%Q.
Proof. unfold Qlt_bool, Qle. rewrite Z.ltb_ge. reflexivity. Qed.

Lemma Qle_bool_false (x y : Q) : Qle_bool x y = false <-> (y < x)%Q.
Proof.
  rewrite <- not_true_iff_false, Qle_bool_iff. split.
  - apply Qnot_le_lt.
  - apply Qlt_not_le.
Qed.

Lemma Qeq_bool_false (x y : Q) : Qeq_bool x y = false <-> ~ (x == y)%Q.
Proof. rewrite <- not_true_iff_false, Qeq_bool_iff. reflexivity. Qed.

(** ** Grid generation *)

Section GridGeneration.
Import strategy.

Variable p : GridParams.

Let c := CenterPrice p.
Let n := LevelCount p.
Let s := SpacingPercent p.
Let a := AmountPerGrid p.
Let r : Q := (1 + s / 100)%Q.

Lemma genLoop_app even f1 f2 i :
  genLoop p even (f1 + f2) i =
  genLoop p even f1 i ++ genLoop p even f2 (i + Z.of_nat f1).
Proof.
  revert i. induction f1 as [|f1 IH]; intros i; simpl.
  - f_equal. lia.
  - rewrite IH, <- app_assoc. do 3 f_equal. lia.
Qed.

Lemma genLoop_plain even f i :
  (forall j, i <= j < i + Z.of_nat f -> (j =? 0) && even = false) ->
  genLoop p even f i = levelAt p <$> seqZ i (Z.of_nat f).
Proof.
  revert i. induction f as [|f IH]; intros i Hskip; [reflexivity|].
  rewrite seqZ_cons by lia. cbn [genLoop fmap list_fmap].
  rewrite Hskip by lia. simpl. f_equal.
  rewrite IH by (intros j Hj; apply Hskip; lia).
  do 2 f_equal; lia.
Qed.

Lemma generate_length : 2 <= n -> Z.of_nat (length (generate p)) = n.
Proof.
  intros Hn. unfold generate. fold n.
  rewrite Z.quot_div_nonneg, Z.rem_mod_nonneg by lia.
  set (h := n / 2).
  assert (Hh : n = 2 * h + n mod 2) by (apply Z.div_mod; lia).
  assert (Hm : 0 <= n mod 2 < 2) by (apply Z.mod_pos_bound; lia).
  destruct (Z.eqb_spec (n mod 2) 0) as [He|He].
  - replace (Z.to_nat (h - - h + 1))
      with (Z.to_nat h + (1 + Z.to_nat h))%nat by lia.
    rewrite genLoop_app, (genLoop_app _ 1).
    rewrite (genLoop_plain _ (Z.to_nat h)), (genLoop_plain _ (Z.to_nat h)).
    + cbn [genLoop]. replace (- h + Z.of_nat (Z.to_nat h)) with 0 by lia.
      simpl. rewrite length_app, !length_fmap, !length_seqZ. lia.
    + intros j Hj. destruct (Z.eqb_spec j 0); [lia|reflexivity].
    + intros j Hj. destruct (Z.eqb_spec j 0); [lia|reflexivity].
  - rewrite genLoop_plain.
    + rewrite length_fmap, length_seqZ. lia.
    + intros j _. apply andb_false_r.
Qed.

Lemma generate_lookup (k : nat) :
  2 <= n -> Z.of_nat k < n ->
  generate p !! k = Some (levelAt p (exponentOf n k)).
Proof.
  intros Hn Hk. unfold generate, exponentOf. fold n.
  rewrite Z.quot_div_nonneg, Z.rem_mod_nonneg by lia.
  set (h := n / 2).
  assert (Hh : n = 2 * h + n mod 2) by (apply Z.div_mod; lia).
  assert (Hm : 0 <= n mod 2 < 2) by (apply Z.mod_pos_bound; lia).
  destruct (Z.eqb_spec (n mod 2) 0) as [He|He].
  - replace (Z.to_nat (h - - h + 1))
      with (Z.to_nat h + (1 + Z.to_nat h))%nat by lia.
    rewrite genLoop_app, (genLoop_app _ 1).
    rewrite (genLoop_plain _ (Z.to_nat h)), (genLoop_plain _ (Z.to_nat h)).
    + cbn [genLoop]. replace (- h + Z.of_nat (Z.to_nat h)) with 0 by lia.
      simpl. destruct (Z.leb_spec h (Z.of_nat k)) as [Hle|Hlt].
      * rewrite lookup_app_r; rewrite length_fmap, length_seqZ; [|lia].
        rewrite list_lookup_fmap, lookup_seqZ_lt by lia.
        simpl. do 2 f_equal. lia.
      * rewrite lookup_app_l by (rewrite length_fmap, length_seqZ; lia).
        rewrite list_lookup_fmap, lookup_seqZ_lt by lia.
        simpl. do 2 f_equal. lia.
    + intros j Hj. destruct (Z.eqb_spec j 0); [lia|reflexivity].
    + intros j Hj. destruct (Z.eqb_spec j 0); [lia|reflexivity].
  - rewrite genLoop_plain by (intros j _; apply andb_false_r).
    rewrite list_lookup_fmap, lookup_seqZ_lt by lia.
    simpl. do 2 f_equal. lia.
Qed.

Lemma exponentOf_lt (k : nat) :
  2 <= n -> exponentOf n k < exponentOf n (S k).
Proof.
  intros Hn. unfold exponentOf.
  destruct (n mod 2 =? 0); simpl;
    repeat match goal with |- context [?x <=? ?y] =>
             destruct (Z.leb_spec x y) end; lia.
Qed.

Hypothesis Hc : (0 < c)%Q.
Hypothesis Hs : (0 < s)%Q.

Lemma ratio_gt_1 : (1 < r)%Q.
Proof.
  unfold r. assert (0 < s / 100)%Q; [|lra].
  apply Qlt_shift_div_l; lra.
Qed.

Lemma levelAt_price_lt i j :
  i < j -> (Price (levelAt p i) < Price (levelAt p j))%Q.
Proof.
  intros Hij. simpl. fold c s r.
  rewrite Qmult_lt_l by exact Hc.
  apply Qpower_lt_compat_l; [exact Hij|apply ratio_gt_1].
Qed.

Lemma levelAt_price_inj i j :
  (Price (levelAt p i) == Price (levelAt p j))%Q -> i = j.
Proof.
  intros Heq. destruct (Z.lt_trichotomy i j) as [H|[H|H]]; [|exact H|].
  - apply levelAt_price_lt in H. lra.
  - apply levelAt_price_lt in H. lra.
Qed.

End GridGeneration.

(** ** Sorting a grid that is already in order *)

Section SortedGrid.
Import strategy.

Lemma Sorted_of_adjacent {A} (R : relation A) (l : list A) :
  (forall k x y, l !! k = Some x -> l !! S k = Some y -> R x y) ->
  Sorted R l.
Proof.
  induction l as [|x l IH]; intros Hadj; constructor.
  - apply IH. intros k y z Hy Hz. exact (Hadj (S k) y z Hy Hz).
  - destruct l as [|y l]; constructor.
    exact (Hadj O x y eq_refl eq_refl).
Qed.

#[local] Instance notAfter_trans : Transitive notAfter.
Proof.
  intros x y z. unfold notAfter, lessPrice.
  rewrite !Qlt_bool_false. intros; eapply Qle_trans; eassumption.
Qed.

#[local] Instance notAfter_total : Total notAfter.
Proof.
  intros x y. unfold notAfter, lessPrice. rewrite !Qlt_bool_false.
  destruct (Qlt_le_dec (Price y) (Price x)) as [H|H]; [right|left]; lra.
Qed.

Lemma mergeSortSlice_spec : SortSliceSpec mergeSortSlice.
Proof.
  intros l. unfold mergeSortSlice. split.
  - apply merge_sort_Permutation.
  - apply (Sorted_merge_sort notAfter).
Qed.

Variable p : GridParams.
Hypothesis Hc : (0 < CenterPrice p)%Q.
Hypothesis Hn : 2 <= LevelCount p.
Hypothesis Hs : (0 < SpacingPercent p)%Q.

Lemma generate_elem l :
  l ∈ generate p -> exists i, l = levelAt p i.
Proof.
  intros [k Hk]%list_elem_of_lookup.
  assert (Hlt : Z.of_nat k < LevelCount p).
  { apply lookup_lt_Some in Hk.
    pose proof (generate_length p Hn). lia. }
  rewrite generate_lookup in Hk by assumption.
  injection Hk as <-. eauto.
Qed.

Lemma generate_adjacent k x y :
  generate p !! k = Some x -> generate p !! S k = Some y ->
  (Price x < Price y)%Q.
Proof.
  intros Hx Hy.
  assert (Hlt : Z.of_nat (S k) < LevelCount p).
  { apply lookup_lt_Some in Hy.
    pose proof (generate_length p Hn). lia. }
  rewrite generate_lookup in Hx, Hy by (assumption || lia).
  injection Hx as <-. injection Hy as <-.
  apply levelAt_price_lt; [assumption..|]. apply exponentOf_lt, Hn.
Qed.

Lemma generate_sorted : Sorted notAfter (generate p).
Proof.
  apply Sorted_of_adjacent. intros k x y Hx Hy.
  unfold notAfter, lessPrice. apply Qlt_bool_false.
  apply Qlt_le_weak. eapply generate_adjacent; eassumption.
Qed.

(** Prices in the generated grid are pairwise distinct, so sorting has
    one possible outcome: the grid itself. *)
Lemma sortSlice_generate sortSlice :
  SortSliceSpec sortSlice ->
  sortSlice lessPrice (generate p) = generate p.
Proof.
  intros Hspec. destruct (Hspec (generate p)) as [Hperm Hsorted].
  apply (Sorted_unique_strong notAfter);
    [|exact Hsorted|exact generate_sorted|exact Hperm].
  intros x y Hx Hy Hxy Hyx. rewrite Hperm in Hx.
  apply generate_elem in Hx as [i ->]. apply generate_elem in Hy as [j ->].
  unfold notAfter, lessPrice in Hxy, Hyx.
  apply Qlt_bool_false in Hxy, Hyx. f_equal.
  apply (levelAt_price_inj p Hc Hs). lra.
Qed.

End SortedGrid.

(** ** CalculateGridLevels *)

Section CalculateGridLevels.
Import strategy.

Lemma CalculateGridLevels_valid sortSlice p :
  validParams p ->
  CalculateGridLevels sortSlice p =
  Ok (imap setIndex (sortSlice lessPrice (generate p))).
Proof.
  intros (Hc & Hn & Hs & Ha). unfold CalculateGridLevels.
  rewrite (proj2 (Qle_bool_false _ _) Hc), (proj2 (Qle_bool_false _ _) Hs),
    (proj2 (Qle_bool_false _ _) Ha).
  destruct (Z.ltb_spec (LevelCount p) 2); [lia|reflexivity].
Qed.

End CalculateGridLevels.

(** ** Grid levels in binary64 *)

Section FloatOrder.
Import SpecFloat.

Ltac sf_compare :=
  change (PosDef.Pos.compare_cont Eq) with Pos.compare in *;
  repeat match goal with
  | H : context [(?a ?= ?b)%Z] |- _ => destruct (Z.compare_spec a b)
  | H : context [Pos.compare ?a ?b] |- _ => destruct (Pos.compare_spec a b)
  | |- context [(?a ?= ?b)%Z] => destruct (Z.compare_spec a b)
  | |- context [Pos.compare ?a ?b] => destruct (Pos.compare_spec a b)
  end;
  simpl in *; try discriminate; try reflexivity; try lia.

Ltac sf_signs :=
  simpl; try discriminate; try reflexivity;
  repeat match goal with s : bool |- _ => destruct s end;
  simpl; try discriminate; try reflexivity.

Lemma SFleb_trans x y z :
  SFleb x y = true -> SFleb y z = true -> SFleb x z = true.
Proof.
  unfold SFleb.
  destruct x as [sx|sx| |sx mx ex], y as [sy|sy| |sy my ey],
    z as [sz|sz| |sz mz ez]; sf_signs; sf_compare.
Qed.

Lemma SFltb_false_SFleb x y :
  SFeqb x x = true -> SFeqb y y = true ->
  SFltb x y = false -> SFleb y x = true.
Proof.
  unfold SFltb, SFleb, SFeqb.
  destruct x as [sx|sx| |sx mx ex], y as [sy|sy| |sy my ey];
    sf_signs; intros _ _; sf_compare.
Qed.

Lemma SFltb_SFleb x y : SFltb x y = true -> SFleb x y = true.
Proof.
  unfold SFltb, SFleb.
  destruct (SFcompare x y) as [[]|]; (discriminate || reflexivity).
Qed.

Lemma leb_trans (x y z : float) :
  (x <=? y)%float = true -> (y <=? z)%float = true ->
  (x <=? z)%float = true.
Proof. rewrite !FloatAxioms.leb_spec. apply SFleb_trans. Qed.

Lemma ltb_false_leb (x y : float) :
  (x =? x)%float = true -> (y =? y)%float = true ->
  (x <? y)%float = false -> (y <=? x)%float = true.
Proof.
  rewrite FloatAxioms.ltb_spec, !FloatAxioms.eqb_spec, FloatAxioms.leb_spec.
  apply SFltb_false_SFleb.
Qed.

Lemma ltb_leb (x y : float) :
  (x <? y)%float = true -> (x <=? y)%float = true.
Proof.
  rewrite FloatAxioms.ltb_spec, FloatAxioms.leb_spec. apply SFltb_SFleb.
Qed.

End FloatOrder.

Section InsertionSort.
Import binary64 binary64.strategy.

Lemma insertBy_perm less x l : insertBy less x l ≡ₚ x :: l.
Proof.
  induction l as [|y l IH]; [reflexivity|]. simpl.
  destruct (less y x); [|reflexivity].
  rewrite IH. apply Permutation_swap.
Qed.

Lemma insertionSortSlice_perm less l : insertionSortSlice less l ≡ₚ l.
Proof.
  induction l as [|x l IH]; [reflexivity|].
  unfold insertionSortSlice in *. simpl. rewrite insertBy_perm, IH.
  reflexivity.
Qed.

Lemma insertBy_sorted x l :
  numeric (Price x) -> Forall (fun y => numeric (Price y)) l ->
  StronglySorted atMost l -> StronglySorted atMost (insertBy lessPrice x l).
Proof.
  intros Hx Hl Hs. induction Hs as [|y l Hs IH Hy].
  - repeat constructor.
  - apply Forall_cons in Hl as [Hny Hl]. simpl.
    destruct (lessPrice y x) eqn:Hless.
    + constructor; [apply IH, Hl|].
      rewrite insertBy_perm. constructor; [|exact Hy].
      apply ltb_leb, Hless.
    + assert (Hxy : atMost x y) by (apply ltb_false_leb; assumption).
      constructor; [constructor; assumption|].
      constructor; [exact Hxy|].
      eapply Forall_impl; [exact Hy|].
      intros z Hyz. eapply leb_trans; [exact Hxy|exact Hyz].
Qed.

Lemma insertionSortSlice_spec : SortSliceSpec insertionSortSlice.
Proof.
  intros l. split; [apply insertionSortSlice_perm|].
  induction l as [|x l IH]; intros Hl; [constructor|].
  apply Forall_cons in Hl as [Hx Hl].
  unfold insertionSortSlice in *. simpl.
  apply insertBy_sorted; [exact Hx| |apply IH, Hl].
  fold (insertionSortSlice lessPrice l).
  rewrite insertionSortSlice_perm. exact Hl.
Qed.

End InsertionSort.

Section GridLevels64.
Import binary64 binary64.strategy.

Variable Pow : PowFn.
Variable sortSlice : SortSlice.
Hypothesis Hsort : SortSliceSpec sortSlice.
Variable p : GridParams.

Let n := LevelCount p.

Lemma genLoop64_filter (P : Z -> Prop) `{forall j, Decision (P j)} even f i :
  (forall j, P j <-> (j =? 0) && even = false) ->
  genLoop Pow p even f i = levelAt Pow p <$> filter P (seqZ i (Z.of_nat f)).
Proof.
  intros HP. revert i. induction f as [|f IH]; intros i; [reflexivity|].
  rewrite seqZ_cons by lia. cbn [genLoop]. rewrite filter_cons.
  replace (Z.pred (Z.of_nat (S f))) with (Z.of_nat f) by lia.
  replace (Z.succ i) with (i + 1) by lia. rewrite IH.
  destruct (decide (P i)) as [Hi|Hi].
  - apply HP in Hi. rewrite Hi. reflexivity.
  - destruct ((i =? 0) && even) eqn:He; [reflexivity|].
    apply HP in He. contradiction.
Qed.

Lemma generate64_exponents :
  2 <= n -> generate Pow p = levelAt Pow p <$> exponents n.
Proof.
  intros Hn. unfold generate, exponents. fold n.
  rewrite Z.quot_div_nonneg, Z.rem_mod_nonneg by lia.
  assert (Hh : 0 <= n / 2) by (apply Z.div_pos; lia).
  rewrite (genLoop64_filter (fun i => ~ (i = 0 /\ n mod 2 = 0))).
  - do 3 f_equal. lia.
  - intros j. rewrite andb_false_iff, !Z.eqb_neq.
    destruct (Z.eq_dec j 0), (Z.eq_dec (n mod 2) 0); tauto.
Qed.

Lemma filter_all {A} (P : A -> Prop) `{forall x, Decision (P x)} (l : list A) :
  Forall P l -> filter P l = l.
Proof.
  induction 1 as [|x l Hx _ IH]; [reflexivity|].
  rewrite filter_cons, decide_True by assumption. rewrite IH. reflexivity.
Qed.


Lemma CalculateGridLevels64_passes :
  passesGuards p ->
  CalculateGridLevels Pow sortSlice p =
  Ok (imap setIndex (sortSlice lessPrice (generate Pow p))).
Proof.
  intros (Hc & Hn & Hs & Ha). unfold CalculateGridLevels.
  rewrite Hc, Hs, Ha.
  destruct (Z.ltb_spec (LevelCount p) 2); [lia|reflexivity].
Qed.



End GridLevels64.

Section GridLevels64Examples.
Import binary64 binary64.strategy.



End GridLevels64Examples.

(** ** FindTriggeredLevel *)

Section FindTriggeredLevel.
Import strategy.

Lemma triggered_dec P l : {triggered P l} + {~ triggered P l}.
Proof.
  unfold triggered.
  destruct (Filled l); [right; intros [? _]; discriminate|].
  destruct (String.string_dec (Side l) "buy") as [Hb|Hb].
  - destruct (Qlt_le_dec (Price l) P) as [H|H].
    + right. intros [_ [[_ H']|[Hs _]]]; [lra|congruence].
    + left. auto.
  - destruct (String.string_dec (Side l) "sell") as [Hs|Hs].
    + destruct (Qlt_le_dec P (Price l)) as [H|H].
      * right. intros [_ [[Hs' _]|[_ H']]]; [congruence|lra].
      * left. auto.
    + right. intros [_ [[? _]|[? _]]]; contradiction.
Qed.

(** One iteration of the loop: when the level fires the search stops
    there, otherwise it moves on. *)
Lemma findFrom_cons o P l rest :
  findFrom o P (l :: rest) =
  if triggered_dec P l then Some o else findFrom (S o) P rest.
Proof.
  simpl. destruct (triggered_dec P l) as [Ht|Ht]; unfold triggered in Ht.
  - destruct Ht as [-> [[-> Hp]|[-> Hp]]]; simpl;
      apply Qle_bool_iff in Hp; rewrite Hp; [reflexivity|].
    destruct (Qle_bool P (Price l)); reflexivity.
  - destruct (Filled l); [reflexivity|].
    destruct (String.eqb_spec (Side l) "buy") as [Hb|Hb]; simpl.
    + destruct (Qle_bool P (Price l)) eqn:Hp.
      * exfalso. apply Ht. apply Qle_bool_iff in Hp. auto.
      * rewrite Hb. reflexivity.
    + destruct (String.eqb_spec (Side l) "sell") as [Hs|Hs]; simpl.
      * destruct (Qle_bool (Price l) P) eqn:Hp; [|reflexivity].
        exfalso. apply Ht. apply Qle_bool_iff in Hp. auto.
      * reflexivity.
Qed.

Lemma findFrom_Some o P grid i :
  findFrom o P grid = Some i ->
  exists k l, i = (o + k)%nat /\ grid !! k = Some l /\ triggered P l /\
    forall j l', (j < k)%nat -> grid !! j = Some l' -> ~ triggered P l'.
Proof.
  revert o. induction grid as [|x grid IH]; intros o; [discriminate|].
  rewrite findFrom_cons. destruct (triggered_dec P x) as [Ht|Ht].
  - intros [= <-]. exists O, x.
    split; [lia|]. split; [reflexivity|]. split; [exact Ht|]. lia.
  - intros Hf. apply IH in Hf as (k & l & -> & Hk & Hl & Hmin).
    exists (S k), l.
    split; [lia|]. split; [exact Hk|]. split; [exact Hl|].
    intros [|j] l' Hj Hl'; [injection Hl' as <-; exact Ht|].
    apply (Hmin j); [lia|exact Hl'].
Qed.

Lemma findFrom_None o P grid :
  findFrom o P grid = None ->
  forall j l, grid !! j = Some l -> ~ triggered P l.
Proof.
  revert o. induction grid as [|x grid IH]; intros o;
    [intros _ j l Hl; rewrite lookup_nil in Hl; discriminate|].
  rewrite findFrom_cons. destruct (triggered_dec P x) as [Ht|Ht];
    [discriminate|].
  intros Hf [|j] l Hl; [injection Hl as <-; exact Ht|].
  exact (IH _ Hf j l Hl).
Qed.

(** C2.  [FindTriggeredLevel] is a function of the price and the grid;
    it answers with the position [i] exactly when the level at [i] fires
    and no level before it does, and with none exactly when no level
    fires; on a grid whose indices are the positions the level it
    answers with has the least index among the levels that fire. *)
Theorem FindTriggeredLevel_spec (P : Q) (grid : list GridLevel) :
  (forall i : nat,
     FindTriggeredLevel P grid = Some i <->
     (exists l, grid !! i = Some l /\ triggered P l) /\
     (forall (j : nat) l, (j < i)%nat -> grid !! j = Some l ->
        ~ triggered P l)) /\
  (FindTriggeredLevel P grid = None <->
   forall (j : nat) l, grid !! j = Some l -> ~ triggered P l) /\
  (wellIndexed grid ->
   forall (i : nat) l, FindTriggeredLevel P grid = Some i ->
     grid !! i = Some l ->
     forall l', l' ∈ grid -> triggered P l' -> Index l <= Index l').
Proof.
  unfold FindTriggeredLevel.
  assert (Hfirst : forall i, findFrom 0 P grid = Some i ->
            (exists l, grid !! i = Some l /\ triggered P l) /\
            (forall (j : nat) l, (j < i)%nat -> grid !! j = Some l ->
               ~ triggered P l)).
  { intros i (k & l & -> & Hk & Hl & Hmin)%findFrom_Some. simpl. eauto. }
  split; [|split].
  - intros i. split; [apply Hfirst|].
    intros [(l & Hl & Ht) Hmin].
    destruct (findFrom 0 P grid) as [i'|] eqn:Hf.
    + destruct (Hfirst i' eq_refl) as [(l' & Hl' & Ht') Hmin'].
      f_equal. destruct (Nat.lt_trichotomy i' i) as [H|[H|H]];
        [|exact H|].
      * exfalso. exact (Hmin i' l' H Hl' Ht').
      * exfalso. exact (Hmin' i l H Hl Ht).
    + exfalso. exact (findFrom_None _ _ _ Hf i l Hl Ht).
  - split; [apply findFrom_None|].
    intros Hnone. destruct (findFrom 0 P grid) as [i|] eqn:Hf;
      [|reflexivity].
    destruct (Hfirst i eq_refl) as [(l & Hl & Ht) _].
    exfalso. exact (Hnone i l Hl Ht).
  - intros Hidx i l Hf Hl l' [j Hj]%list_elem_of_lookup Ht'.
    destruct (Hfirst i Hf) as [_ Hmin].
    rewrite (Hidx i l Hl), (Hidx j l' Hj).
    destruct (Nat.le_gt_cases i j) as [H|H]; [lia|].
    exfalso. exact (Hmin j l' H Hj Ht').
Qed.

Lemma FindTriggeredLevel_spec_witness :
  FindTriggeredLevel 2540 (scenarioGrid true) = Some 1%nat.
Proof.
  destruct (FindTriggeredLevel_spec 2540 (scenarioGrid true))
    as (Hfirst & _ & _).
  apply Hfirst. split.
  - exists (mkGridLevel 1 2600 "buy" 0 false None None).
    split; [reflexivity|]. split; [reflexivity|].
    left. split; [reflexivity|]. vm_compute. discriminate.
  - intros [|j] l Hj Hl; [|lia].
    injection Hl as <-. intros [Hfilled _]. discriminate.
Defined.

End FindTriggeredLevel.

(** ** The opposite level *)

Section OppositeLevel.
Import strategy.

Lemma wrap64_small z : int64_range z -> wrap64 z = z.
Proof.
  unfold int64_range, wrap64.
  change (2 ^ 63) with 9223372036854775808.
  change (2 ^ 64) with 18446744073709551616.
  intros Hz. rewrite Z.mod_small by lia. lia.
Qed.

Lemma wrap64_range z : int64_range (wrap64 z).
Proof.
  unfold int64_range, wrap64.
  change (2 ^ 63) with 9223372036854775808.
  change (2 ^ 64) with 18446744073709551616.
  pose proof (Z.mod_pos_bound (z + 9223372036854775808)
                18446744073709551616 ltac:(lia)).
  lia.
Qed.

Lemma wrap64_max_succ : wrap64 (2 ^ 63) = - 2 ^ 63.
Proof. reflexivity. Qed.

Lemma wrap64_min_pred : wrap64 (- 2 ^ 63 - 1) = 2 ^ 63 - 1.
Proof. reflexivity. Qed.

Lemma GetOppositeLevelIndex_buy lvl L :
  int64_range (Index lvl) -> 0 <= L < 2 ^ 63 -> Side lvl = "buy" ->
  GetOppositeLevelIndex lvl L =
  if (0 <=? Index lvl + 1) && (Index lvl + 1 <? L)
  then Some (Index lvl + 1) else None.
Proof.
  intros Hk HL Hside. unfold GetOppositeLevelIndex. rewrite Hside. simpl.
  unfold int64_range in Hk.
  destruct (Z.eq_dec (Index lvl + 1) (2 ^ 63)) as [Hmax|Hmax].
  - rewrite Hmax, wrap64_max_succ.
    destruct (Z.ltb_spec (2 ^ 63) L); [lia|].
    rewrite andb_false_r. reflexivity.
  - rewrite wrap64_small by (unfold int64_range; lia). reflexivity.
Qed.

Lemma GetOppositeLevelIndex_sell lvl L :
  int64_range (Index lvl) -> 0 <= L < 2 ^ 63 -> Side lvl = "sell" ->
  GetOppositeLevelIndex lvl L =
  if (0 <=? Index lvl - 1) && (Index lvl - 1 <? L)
  then Some (Index lvl - 1) else None.
Proof.
  intros Hk HL Hside. unfold GetOppositeLevelIndex. rewrite Hside. simpl.
  unfold int64_range in Hk.
  destruct (Z.eq_dec (Index lvl) (- 2 ^ 63)) as [Hmin|Hmin].
  - rewrite Hmin, wrap64_min_pred.
    destruct (Z.ltb_spec (2 ^ 63 - 1) L); [lia|].
    rewrite andb_false_r. reflexivity.
  - rewrite wrap64_small by (unfold int64_range; lia). reflexivity.
Qed.

Lemma GetOppositeLevelIndex_in_range lvl L idx :
  GetOppositeLevelIndex lvl L = Some idx -> 0 <= idx < L.
Proof.
  unfold GetOppositeLevelIndex.
  match goal with |- context [(0 <=? ?i) && (?i <? L)] =>
    destruct (Z.leb_spec 0 i); destruct (Z.ltb_spec i L); simpl;
    try discriminate; intros [= <-]; lia
  end.
Qed.

(** C3.  For a level at index [k] in a grid of length [L],
    [GetOppositeLevelIndex] answers [k+1] for a buy and [k-1] for a sell
    exactly when that index lies in [0, L), and none otherwise.
    [resetOppositeLevel] keeps the length of the grid and every level
    outside the opposite position; the level at the opposite position is
    rewritten only when it is filled, and then only its [Filled],
    [FilledAt] and [TxHash] change, to false, nil and nil. *)
Theorem opposite_level_spec :
  (forall (lvl : GridLevel) (L : Z),
     int64_range (Index lvl) -> 0 <= L < 2 ^ 63 ->
     let k := Index lvl in
     (Side lvl = "buy" ->
      (GetOppositeLevelIndex lvl L = Some (k + 1) <-> 0 <= k + 1 < L) /\
      (GetOppositeLevelIndex lvl L = None <-> ~ 0 <= k + 1 < L)) /\
     (Side lvl = "sell" ->
      (GetOppositeLevelIndex lvl L = Some (k - 1) <-> 0 <= k - 1 < L) /\
      (GetOppositeLevelIndex lvl L = None <-> ~ 0 <= k - 1 < L))) /\
  (forall (Grid : list GridLevel) (filled : GridLevel),
     let Grid' := bot.resetOppositeLevel Grid filled in
     length Grid' = length Grid /\
     forall (j : nat) (lvl : GridLevel), Grid !! j = Some lvl ->
       exists lvl', Grid' !! j = Some lvl' /\
         Index lvl' = Index lvl /\ Price lvl' = Price lvl /\
         Side lvl' = Side lvl /\ Quantity lvl' = Quantity lvl /\
         ((GetOppositeLevelIndex filled (Z.of_nat (length Grid))
             = Some (Z.of_nat j) /\ Filled lvl = true ->
           Filled lvl' = false /\ FilledAt lvl' = None /\
           TxHash lvl' = None) /\
          (~ (GetOppositeLevelIndex filled (Z.of_nat (length Grid))
                = Some (Z.of_nat j) /\ Filled lvl = true) ->
           lvl' = lvl))).
Proof.
  split.
  - intros lvl L Hk HL k. split; intros Hside.
    + rewrite (GetOppositeLevelIndex_buy lvl L Hk HL Hside). fold k.
      destruct (Z.leb_spec 0 (k + 1)); destruct (Z.ltb_spec (k + 1) L);
        simpl; (split; split; (lia || congruence)).
    + rewrite (GetOppositeLevelIndex_sell lvl L Hk HL Hside). fold k.
      destruct (Z.leb_spec 0 (k - 1)); destruct (Z.ltb_spec (k - 1) L);
        simpl; (split; split; (lia || congruence)).
  - intros Grid filled Grid'. subst Grid'. unfold bot.resetOppositeLevel.
    destruct (GetOppositeLevelIndex filled (Z.of_nat (length Grid)))
      as [idx|] eqn:Hopp.
    2:{ split; [reflexivity|]. intros j lvl Hj. exists lvl.
        do 5 (split; [first [assumption|reflexivity]|]).
        split; [intros [[=] _]|reflexivity]. }
    pose proof (GetOppositeLevelIndex_in_range _ _ _ Hopp) as Hidx.
    destruct (Grid !! Z.to_nat idx) as [adj|] eqn:Hadj.
    2:{ apply lookup_ge_None in Hadj. lia. }
    destruct (Filled adj) eqn:Hfilled.
    + split; [apply length_insert|]. intros j lvl Hj.
      destruct (decide (j = Z.to_nat idx)) as [->|Hne].
      * assert (lvl = adj) as -> by congruence.
        exists (bot.clearFill adj).
        rewrite list_lookup_insert_eq by (eapply lookup_lt_Some; eauto).
        do 5 (split; [reflexivity|]). split; [intros _; auto|].
        intros Hnot. exfalso. apply Hnot. split; [|assumption].
        f_equal. lia.
      * exists lvl. rewrite list_lookup_insert_ne by auto.
        do 5 (split; [first [assumption|reflexivity]|]).
        split; [|reflexivity]. intros [[= Heq] _]. lia.
    + split; [reflexivity|]. intros j lvl Hj. exists lvl.
      do 5 (split; [first [assumption|reflexivity]|]).
      split; [|reflexivity].
      intros [[= Heq] Hf]. assert (j = Z.to_nat idx) as -> by lia.
      congruence.
Qed.

(** The third end-to-end scenario: the buy at index 1 of four levels. *)
Lemma opposite_level_spec_witness :
  GetOppositeLevelIndex (mkGridLevel 1 2600 "buy" 0 true None None) 4
  = Some 2.
Proof.
  destruct opposite_level_spec as [Hopp _].
  destruct (Hopp (mkGridLevel 1 2600 "buy" 0 true None None) 4)
    as [Hbuy _].
  - unfold int64_range. simpl. lia.
  - lia.
  - destruct (Hbuy eq_refl) as [[_ Hsome] _]. apply Hsome. simpl. lia.
Defined.

End OppositeLevel.

(** ** The paper wallet *)

Section PaperWallet.
Import bot.

Variables (PaperSlippagePercent u : Q) (now : Z).
Variables (pw : PaperWallet) (level : strategy.GridLevel).
Variables (currentPrice ethAmount usdcAmount : Q).

Let slip := randomSlippage u PaperSlippagePercent.

(** A completed buy: the USDC covered the cost, the cost is debited,
    the slipped amount credited and the gas taken from the ETH. *)
Lemma executePaperSwap_buy pw' rc :
  executePaperSwap PaperSlippagePercent u now pw level currentPrice "buy"
    ethAmount usdcAmount = Ok (pw', rc) ->
  (usdcAmount <= USDCBalance pw)%Q /\
  USDCBalance pw' = (USDCBalance pw - usdcAmount)%Q /\
  ETHBalance pw' =
    (ETHBalance pw + ethAmount * (1 - slip) - defaultPaperGasCost)%Q /\
  (exists t, Trades pw' = Trades pw ++ [t]).
Proof.
  unfold executePaperSwap, ExecuteBuy. simpl.
  destruct (Qlt_bool (USDCBalance pw) usdcAmount) eqn:Hlt; [discriminate|].
  intros [= <- <-]. apply Qlt_bool_false in Hlt. simpl. eauto.
Qed.

(** A completed sell: the ETH covered the amount and the gas reserve. *)
Lemma executePaperSwap_sell side pw' rc :
  side <> "buy" ->
  executePaperSwap PaperSlippagePercent u now pw level currentPrice side
    ethAmount usdcAmount = Ok (pw', rc) ->
  (ethAmount + defaultPaperGasCost <= ETHBalance pw)%Q /\
  USDCBalance pw' = (USDCBalance pw + usdcAmount * (1 - slip))%Q /\
  ETHBalance pw' = (ETHBalance pw - ethAmount - defaultPaperGasCost)%Q /\
  (exists t, Trades pw' = Trades pw ++ [t]).
Proof.
  intros Hside. unfold executePaperSwap, ExecuteSell.
  destruct (String.eqb_spec side "buy") as [|_]; [contradiction|].
  destruct (Qlt_bool (ETHBalance pw) (ethAmount + defaultPaperGasCost))
    eqn:Hres; [discriminate|].
  destruct (Qlt_bool (ETHBalance pw) ethAmount) eqn:Hlt; [discriminate|].
  intros [= <- <-]. apply Qlt_bool_false in Hres. simpl. eauto.
Qed.


(** A sell keeps both balances non-negative: the reserve check covers
    the gas. *)
Lemma executePaperSwap_sell_nonneg side pw' rc :
  side <> "buy" ->
  (0 <= USDCBalance pw)%Q -> (0 <= usdcAmount * (1 - slip))%Q ->
  executePaperSwap PaperSlippagePercent u now pw level currentPrice side
    ethAmount usdcAmount = Ok (pw', rc) ->
  (0 <= ETHBalance pw')%Q /\ (0 <= USDCBalance pw')%Q.
Proof.
  intros Hside Husdc Hcredit Hok.
  apply executePaperSwap_sell in Hok as (Hres & -> & -> & _); [|assumption].
  split; lra.
Qed.

(** A buy keeps the USDC balance non-negative. *)
Lemma executePaperSwap_buy_usdc_nonneg pw' rc :
  executePaperSwap PaperSlippagePercent u now pw level currentPrice "buy"
    ethAmount usdcAmount = Ok (pw', rc) ->
  (0 <= USDCBalance pw')%Q.
Proof.
  intros Hok. apply executePaperSwap_buy in Hok as (Hres & -> & _). lra.
Qed.

End PaperWallet.

Section PaperWalletClaims.
Import bot.

(** C4, at the failing input.  A wallet with 0 ETH and 1000 USDC buys
    0.001 ETH for 2 USDC with no slippage: the buy completes, and the gas
    of 0.005 ETH, deducted without a reserve check, leaves the ETH
    balance at -0.004. *)
Theorem executePaperSwap_buy_overdraws_gas :
  let level := strategy.mkGridLevel 0 2000 "buy" 0.001 false None None in
  (0 <= ETHBalance drainedWallet)%Q /\
  (0 <= USDCBalance drainedWallet)%Q /\
  exists pw' rc,
    executePaperSwap 0.5 0 0 drainedWallet level 2000 "buy" 0.001 2
    = Ok (pw', rc) /\
    (ETHBalance pw' == - 0.004)%Q /\ (ETHBalance pw' < 0)%Q /\
    (USDCBalance pw' == 998)%Q.
Proof.
  intros level. split; [vm_compute; discriminate|].
  split; [vm_compute; discriminate|].
  eexists. eexists. split; [reflexivity|].
  split; [vm_compute; reflexivity|].
  split; [vm_compute; reflexivity|]. vm_compute. reflexivity.
Qed.

End PaperWalletClaims.

Section PaperBuy.

Import binary64 binary64.bot.





End PaperBuy.



(** ** The midpoint-change detectors *)

Section MidpointChange.

Import binary64.

(** A positive float is not zero. *)
Lemma positive_not_zero (m : float) :
  (0 <? m)%float = true -> (m =? 0)%float = false.
Proof.
  rewrite FloatAxioms.ltb_spec, FloatAxioms.eqb_spec.
  unfold SpecFloat.SFltb, SpecFloat.SFeqb.
  change (FloatOps.Prim2SF 0) with (SpecFloat.S754_zero false).
  destruct (FloatOps.Prim2SF m) as [s|s| |s mm e]; simpl; try discriminate;
    destruct s; intros; try discriminate; reflexivity.
Qed.

(** C6, amended.  With a previous sample whose midpoint is positive, the
    three detectors compute the same drift,
    [|(new - prev) / prev * 100|] with each operation rounded in
    binary64, and each reports change exactly when the threshold is at
    most that computed drift.  With no previous sample
    [CheckSignificantChange] and [HasChangedSignificantly] always report
    change; [CalculateSRChange], given 0 for the absent midpoint, answers
    the constant 100, so its comparison reports change exactly when the
    threshold is at most 100. *)
Theorem midpoint_change_spec :
  (forall (new prev : models.SupportResistance) (threshold : float),
     (0 <? models.Midpoint prev)%float = true ->
     let drift := drift64 (models.Midpoint new) (models.Midpoint prev) in
     (exists a,
        repository.CheckSignificantChange (Ok (Some prev)) new threshold
        = Ok a /\
        repository.ChangePercent a = Some drift /\
        repository.HasChanged a = (threshold <=? drift)%float) /\
     models.HasChangedSignificantly new (Some prev) threshold
     = (threshold <=? drift)%float /\
     strategy.CalculateSRChange (models.Midpoint new) (models.Midpoint prev)
     = drift) /\
  (forall (new : models.SupportResistance) (threshold : float),
     (exists a,
        repository.CheckSignificantChange (Ok None) new threshold = Ok a /\
        repository.HasChanged a = true) /\
     models.HasChangedSignificantly new None threshold = true /\
     strategy.CalculateSRChange (models.Midpoint new) 0 = 100%float).
Proof.
  split.
  - intros new prev threshold Hprev drift.
    apply positive_not_zero in Hprev.
    split; [|split].
    + eexists. split; [reflexivity|]. split; reflexivity.
    + unfold models.HasChangedSignificantly. rewrite Hprev. reflexivity.
    + unfold strategy.CalculateSRChange. rewrite Hprev. reflexivity.
  - intros new threshold. split; [|split].
    + eexists. split; reflexivity.
    + reflexivity.
    + reflexivity.
Qed.

(** From 2700 to 2900 at a threshold of 5 the detector reports change. *)
Lemma midpoint_change_spec_witness :
  models.HasChangedSignificantly
    (models.mkSupportResistance 2600 3200 2900)
    (Some (models.mkSupportResistance 2400 3000 2700)) 5 = true.
Proof.
  destruct midpoint_change_spec as [Hprev _].
  destruct (Hprev (models.mkSupportResistance 2600 3200 2900)
              (models.mkSupportResistance 2400 3000 2700) 5%float)
    as (_ & Hmodel & _).
  - vm_compute. reflexivity.
  - rewrite Hmodel. vm_compute. reflexivity.
Defined.

(** C6 as stated fails twice.  Read with exact arithmetic, the test
    [|new - prev| / prev * 100 >= threshold] holds from 2000 to 2580 at a
    threshold of 29 (the exact drift is 29), but the code computes
    28.999999999999996 and none of the three detectors reports change.
    And with the absent previous midpoint encoded as 0 and a threshold of
    150, the comparison on [CalculateSRChange] reports no change. *)
Lemma midpoint_change_counterexamples :
  (29 <= Qabs ((2580 - 2000) / 2000 * 100))%Q /\
  drift64 2580 2000 = 28.999999999999996%float /\
  models.HasChangedSignificantly
    (models.mkSupportResistance 0 0 2580)
    (Some (models.mkSupportResistance 0 0 2000)) 29 = false /\
  (exists a,
     repository.CheckSignificantChange
       (Ok (Some (models.mkSupportResistance 0 0 2000)))
       (models.mkSupportResistance 0 0 2580) 29 = Ok a /\
     repository.HasChanged a = false) /\
  (29 <=? strategy.CalculateSRChange 2580 2000)%float = false /\
  (150 <=? strategy.CalculateSRChange 2700 0)%float = false.
Proof.
  split; [vm_compute; discriminate|].
  split; [vm_compute; reflexivity|].
  split; [vm_compute; reflexivity|].
  split; [eexists; split; [reflexivity|vm_compute; reflexivity]|].
  split; vm_compute; reflexivity.
Qed.

End MidpointChange.

(** ** The retry executor *)

Section RetryExecutor.
Import httputil.

Variable w : World.
Variable cfg : RetryConfig.






End RetryExecutor.

Section RetryExecutorClaims.
Import httputil.

Variable w : World.
Variable cfg : RetryConfig.

Let n := effectiveAttempts cfg.










End RetryExecutorClaims.

Section RetryExecutorWitness.
Import httputil.


End RetryExecutorWitness.

(** ** The risk guardian *)

Section Guardian.
Import risk.

Variable g : Guardian.

Let maxPosition := MaxPositionSizeUSD (limits g).
Let maxDaily := MaxDailyTrades (limits g).
Let stopLoss := StopLossPercent (limits g).
Let takeProfit := TakeProfitPercent (limits g).

(** Every block names the check that fired, and that check was
    enabled. *)
Lemma PreTradeCheck_cause tradeUSD e :
  PreTradeCheck g tradeUSD = Some e ->
  match e with
  | PositionTooLarge _ _ => (0 < maxPosition)%Q /\ (maxPosition < tradeUSD)%Q
  | CountUnavailable cause =>
      0 < maxDaily /\ counter g = Some (CountFailed cause)
  | DailyLimitReached _ count =>
      0 < maxDaily /\ counter g = Some (Counted count) /\ maxDaily <= count
  | StopLoss _ _ | TakeProfit _ _ => False
  end.
Proof.
  unfold PreTradeCheck. fold maxPosition maxDaily.
  destruct (Qlt_bool 0 maxPosition) eqn:Hpos;
    destruct (Qlt_bool maxPosition tradeUSD) eqn:Hbig; simpl;
    try (intros [= <-]; apply Qlt_bool_iff in Hpos, Hbig; auto);
    (destruct (Z.ltb_spec 0 maxDaily) as [Hd|Hd]; [|discriminate];
     destruct (counter g) as [[count|cause]|]; try discriminate;
     [destruct (Z.leb_spec maxDaily count); [|discriminate]|];
     intros [= <-]; auto).
Qed.

Lemma PortfolioCheck_cause pnl e :
  PortfolioCheck g pnl = Some e ->
  match e with
  | StopLoss _ _ => (0 < stopLoss)%Q /\ (pnl <= - stopLoss)%Q
  | TakeProfit _ _ => (0 < takeProfit)%Q /\ (takeProfit <= pnl)%Q
  | _ => False
  end.
Proof.
  unfold PortfolioCheck. fold stopLoss takeProfit.
  destruct (Qlt_bool 0 stopLoss) eqn:Hsl;
    destruct (Qle_bool pnl (- stopLoss)) eqn:Hlow; simpl;
    try (intros [= <-]; apply Qlt_bool_iff in Hsl;
         apply Qle_bool_iff in Hlow; auto);
    (destruct (Qlt_bool 0 takeProfit) eqn:Htp;
     destruct (Qle_bool takeProfit pnl) eqn:Hhigh; simpl;
     try discriminate;
     intros [= <-]; apply Qlt_bool_iff in Htp;
     apply Qle_bool_iff in Hhigh; auto).
Qed.

(** C8.  [PreTradeCheck] blocks exactly when the position limit is set
    and exceeded, or the daily limit is set and today's count has
    reached it, or the daily limit is set and the counter fails;
    [PortfolioCheck] trips exactly when the stop-loss is set and the
    P&L is at or below its negation, or the take-profit is set and the
    P&L is at or above it.  A block always comes from a check whose
    threshold is positive, and the P&L exactly at a threshold trips. *)
Theorem Guardian_spec :
  (forall tradeUSD : Q,
     (exists e, PreTradeCheck g tradeUSD = Some e) <->
     ((0 < maxPosition)%Q /\ (maxPosition < tradeUSD)%Q) \/
     (0 < maxDaily /\
      exists count, counter g = Some (Counted count) /\ maxDaily <= count) \/
     (0 < maxDaily /\ exists cause, counter g = Some (CountFailed cause))) /\
  (forall pnl : Q,
     (exists e, PortfolioCheck g pnl = Some e) <->
     ((0 < stopLoss)%Q /\ (pnl <= - stopLoss)%Q) \/
     ((0 < takeProfit)%Q /\ (takeProfit <= pnl)%Q)) /\
  ((maxPosition == 0)%Q -> maxDaily = 0 ->
   forall tradeUSD, PreTradeCheck g tradeUSD = None) /\
  ((stopLoss == 0)%Q -> (takeProfit == 0)%Q ->
   forall pnl, PortfolioCheck g pnl = None) /\
  ((0 < stopLoss)%Q -> exists e, PortfolioCheck g (- stopLoss) = Some e) /\
  ((0 < takeProfit)%Q -> exists e, PortfolioCheck g takeProfit = Some e).
Proof.
  assert (Hpre : forall tradeUSD : Q,
     (exists e, PreTradeCheck g tradeUSD = Some e) <->
     ((0 < maxPosition)%Q /\ (maxPosition < tradeUSD)%Q) \/
     (0 < maxDaily /\
      exists count, counter g = Some (Counted count) /\ maxDaily <= count) \/
     (0 < maxDaily /\ exists cause, counter g = Some (CountFailed cause))).
  { intros tradeUSD. split.
    - intros [e He]. apply PreTradeCheck_cause in He.
      destruct e; try contradiction; [left|right; right|right; left];
        intuition eauto.
    - unfold PreTradeCheck. fold maxPosition maxDaily.
      destruct (Qlt_bool 0 maxPosition && Qlt_bool maxPosition tradeUSD)
        eqn:Hfirst; [eauto|].
      intros [[Hpos Hbig]|[[Hd (count & -> & Hc)]|[Hd (cause & ->)]]].
      + apply Qlt_bool_iff in Hpos, Hbig. rewrite Hpos, Hbig in Hfirst.
        discriminate.
      + destruct (Z.ltb_spec 0 maxDaily); [|lia].
        destruct (Z.leb_spec maxDaily count); [eauto|lia].
      + destruct (Z.ltb_spec 0 maxDaily); [eauto|lia]. }
  assert (Hport : forall pnl : Q,
     (exists e, PortfolioCheck g pnl = Some e) <->
     ((0 < stopLoss)%Q /\ (pnl <= - stopLoss)%Q) \/
     ((0 < takeProfit)%Q /\ (takeProfit <= pnl)%Q)).
  { intros pnl. split.
    - intros [e He]. apply PortfolioCheck_cause in He.
      destruct e; try contradiction; auto.
    - unfold PortfolioCheck. fold stopLoss takeProfit.
      destruct (Qlt_bool 0 stopLoss && Qle_bool pnl (- stopLoss))
        eqn:Hfirst; [eauto|].
      intros [[Hsl Hlow]|[Htp Hhigh]].
      + apply Qlt_bool_iff in Hsl. apply Qle_bool_iff in Hlow.
        rewrite Hsl, Hlow in Hfirst. discriminate.
      + apply Qlt_bool_iff in Htp. apply Qle_bool_iff in Hhigh.
        rewrite Htp, Hhigh. eauto. }
  split; [exact Hpre|]. split; [exact Hport|].
  split; [|split; [|split]].
  - intros Hzero Hdaily tradeUSD.
    destruct (PreTradeCheck g tradeUSD) as [e|] eqn:He; [|reflexivity].
    exfalso. destruct (proj1 (Hpre tradeUSD) (ex_intro _ e He))
      as [[Hpos _]|[[Hd _]|[Hd _]]]; (lra || lia).
  - intros Hsl Htp pnl.
    destruct (PortfolioCheck g pnl) as [e|] eqn:He; [|reflexivity].
    exfalso. destruct (proj1 (Hport pnl) (ex_intro _ e He))
      as [[Hpos _]|[Hpos _]]; lra.
  - intros Hsl. apply Hport. left. split; [exact Hsl|lra].
  - intros Htp. apply Hport. right. split; [exact Htp|lra].
Qed.

End Guardian.

Section GuardianWitness.
Import risk.

(** A stop-loss of 10 percent trips at a P&L of exactly -10. *)
Lemma Guardian_spec_witness :
  exists e,
    PortfolioCheck (mkGuardian (mkLimits 0 0 10 0) None) (- (10)) = Some e.
Proof.
  destruct (Guardian_spec (mkGuardian (mkLimits 0 0 10 0) None))
    as (_ & _ & _ & _ & Hstop & _).
  apply Hstop. simpl. reflexivity.
Defined.

End GuardianWitness.

(** ** The API middleware *)

Section Middleware.
Import api.

Lemma HasPrefix_split s prefix :
  HasPrefix s prefix = true ->
  s = String.append prefix (sliceFrom (String.length prefix) s).
Proof.
  revert s. induction prefix as [|c prefix IH]; intros s; [reflexivity|].
  destruct s as [|d s]; [discriminate|]. simpl.
  destruct (Ascii.eqb_spec c d) as [->|]; [|discriminate].
  simpl. intros H. change (String d s = String d
    (String.append prefix (sliceFrom (String.length prefix) s))).
  f_equal. apply IH, H.
Qed.

Lemma HasPrefix_append prefix s : HasPrefix (String.append prefix s) prefix = true.
Proof.
  induction prefix as [|c prefix IH]; [reflexivity|].
  change (Ascii.eqb c c && HasPrefix (String.append prefix s) prefix = true).
  rewrite Ascii.eqb_refl. exact IH.
Qed.

Lemma sliceFrom_append prefix s :
  sliceFrom (String.length prefix) (String.append prefix s) = s.
Proof. induction prefix as [|c prefix IH]; [reflexivity|exact IH]. Qed.

Lemma append_length a b :
  String.length (String.append a b) = (String.length a + String.length b)%nat.
Proof.
  induction a as [|c a IH]; [reflexivity|].
  change (S (String.length (String.append a b))
          = S (String.length a + String.length b)).
  rewrite IH. reflexivity.
Qed.

(** [TrimPrefix] returns its argument exactly when there was nothing to
    trim. *)
Lemma TrimPrefix_Bearer_same auth :
  TrimPrefix auth "Bearer " = auth <-> HasPrefix auth "Bearer " = false.
Proof.
  unfold TrimPrefix. destruct (HasPrefix auth "Bearer ") eqn:Hp.
  - split; [|discriminate]. intros Heq. exfalso.
    apply HasPrefix_split in Hp. rewrite Heq in Hp.
    apply (f_equal String.length) in Hp. rewrite append_length in Hp.
    simpl in Hp. lia.
  - split; reflexivity.
Qed.

Lemma authMiddleware_pass apiKey r w :
  authorized apiKey r -> authMiddleware apiKey r w = CallNext w.
Proof.
  unfold authorized, authMiddleware.
  destruct (String.eqb_spec apiKey "") as [|Hkey]; [reflexivity|].
  destruct (String.eqb_spec (Path r) "/health") as [|Hpath];
    [reflexivity|].
  intros [?|[?|Hauth]]; [contradiction..|]. simpl. rewrite Hauth.
  change (String.append "Bearer " apiKey =? "")%string with false.
  unfold TrimPrefix. rewrite HasPrefix_append.
  rewrite (sliceFrom_append "Bearer " apiKey).
  rewrite String.eqb_refl. simpl.
  destruct (String.eqb_spec apiKey (String.append "Bearer " apiKey))
    as [Heq|]; [|reflexivity].
  apply (f_equal String.length) in Heq. rewrite append_length in Heq.
  simpl in Heq. lia.
Qed.

Lemma authMiddleware_reject apiKey r w :
  ~ authorized apiKey r ->
  exists msg,
    authMiddleware apiKey r w =
    Respond (writeError w StatusUnauthorized msg).
Proof.
  unfold authorized, authMiddleware. intros Hno.
  destruct (String.eqb_spec apiKey "") as [|Hkey]; [tauto|].
  destruct (String.eqb_spec (Path r) "/health") as [|Hpath]; [tauto|].
  simpl. destruct (String.eqb_spec (Authorization r) ""); [eauto|].
  destruct (String.eqb_spec (TrimPrefix (Authorization r) "Bearer ")
              (Authorization r)) as [|Htrim]; [eauto|]. simpl.
  destruct (String.eqb_spec (TrimPrefix (Authorization r) "Bearer ")
              apiKey) as [Htok|]; [|eauto]. simpl.
  exfalso. apply Hno. right. right.
  unfold TrimPrefix in Htok, Htrim.
  destruct (HasPrefix (Authorization r) "Bearer ") eqn:Hp;
    [|contradiction].
  apply HasPrefix_split in Hp. rewrite Htok in Hp. exact Hp.
Qed.

Lemma writeError_status w code msg :
  status w = None -> status (writeError w code msg) = Some code.
Proof. intros H. simpl. rewrite H. reflexivity. Qed.

Lemma corsMiddleware_preflight allowOrigin r w :
  Method r = "OPTIONS" ->
  exists w',
    corsMiddleware allowOrigin r w = Respond w' /\
    corsHeadersSet allowOrigin w' /\
    (status w = None -> status w' = Some StatusOK).
Proof.
  intros Hm. unfold corsMiddleware. rewrite Hm. simpl.
  eexists. split; [reflexivity|]. split.
  - unfold corsHeadersSet. simpl. repeat split.
    + rewrite lookup_insert_ne by discriminate.
      rewrite lookup_insert_ne by discriminate.
      apply lookup_insert_eq.
    + rewrite lookup_insert_ne by discriminate. apply lookup_insert_eq.
    + apply lookup_insert_eq.
  - simpl. intros ->. reflexivity.
Qed.

(** C9, amended.  With an empty key the auth middleware hands every
    request on.  With a key set, a request to a path other than /health
    is handed on when its Authorization header is exactly "Bearer <key>"
    and is answered 401 otherwise, "Basic <key>" included.  The CORS
    middleware answers every OPTIONS request that reaches it with 200,
    the three Access-Control-Allow headers set, and does not call the
    handler it wraps.  Since the server puts the auth middleware in
    front, an OPTIONS request to the server gets that answer exactly
    when it passes the auth middleware, and 401 otherwise. *)
Theorem middleware_spec :
  (forall r w, authMiddleware "" r w = CallNext w) /\
  (forall apiKey r w,
     apiKey <> "" -> Path r <> "/health" ->
     (Authorization r = String.append "Bearer " apiKey ->
      authMiddleware apiKey r w = CallNext w) /\
     (Authorization r <> String.append "Bearer " apiKey ->
      exists msg,
        authMiddleware apiKey r w =
        Respond (writeError w StatusUnauthorized msg) /\
        (status w = None ->
         status (writeError w StatusUnauthorized msg) = Some 401)) /\
     (Authorization r = String.append "Basic " apiKey ->
      exists msg,
        authMiddleware apiKey r w =
        Respond (writeError w StatusUnauthorized msg))) /\
  (forall apiKey r w,
     Path r = "/health" -> authMiddleware apiKey r w = CallNext w) /\
  (forall allowOrigin r w,
     Method r = "OPTIONS" ->
     exists w',
       corsMiddleware allowOrigin r w = Respond w' /\
       corsHeadersSet allowOrigin w' /\
       (status w = None -> status w' = Some 200)) /\
  (forall apiKey corsOrigin mux r,
     Method r = "OPTIONS" ->
     (authorized apiKey r ->
      exists w',
        (forall mux', serverHandler apiKey corsOrigin mux' r emptyWriter
                      = w') /\
        serverHandler apiKey corsOrigin mux r emptyWriter = w' /\
        status w' = Some 200 /\ corsHeadersSet corsOrigin w') /\
     (~ authorized apiKey r ->
      status (serverHandler apiKey corsOrigin mux r emptyWriter)
      = Some 401)).
Proof.
  split; [reflexivity|]. split; [|split; [|split]].
  - intros apiKey r w Hkey Hpath. split; [|split].
    + intros Hauth. apply authMiddleware_pass. right. right. exact Hauth.
    + intros Hauth.
      destruct (authMiddleware_reject apiKey r w) as [msg Hmsg].
      { intros [?|[?|?]]; contradiction. }
      exists msg. split; [exact Hmsg|]. apply writeError_status.
    + intros Hbasic. apply authMiddleware_reject.
      intros [?|[?|Hb]]; [contradiction..|].
      rewrite Hbasic in Hb. discriminate.
  - intros apiKey r w Hpath. apply authMiddleware_pass. right. left.
    exact Hpath.
  - apply corsMiddleware_preflight.
  - intros apiKey corsOrigin mux r Hm. split.
    + intros Hauth.
      destruct (corsMiddleware_preflight corsOrigin r emptyWriter Hm)
        as (w' & Hcors & Hset & Hstatus).
      exists w'. unfold serverHandler, wrap.
      rewrite (authMiddleware_pass _ _ _ Hauth), Hcors.
      repeat split; try apply Hset. apply Hstatus. reflexivity.
    + intros Hno.
      destruct (authMiddleware_reject apiKey r emptyWriter Hno)
        as [msg Hmsg].
      unfold serverHandler, wrap. rewrite Hmsg. reflexivity.
Qed.

(** The sixth end-to-end scenario, key "s": "Basic s" is refused. *)
Lemma middleware_spec_witness :
  exists msg,
    authMiddleware "s" (mkRequest "GET" "/v1/trades/stats" "Basic s")
      emptyWriter
    = Respond (writeError emptyWriter StatusUnauthorized msg).
Proof.
  destruct middleware_spec as (_ & Hkey & _).
  destruct (Hkey "s" (mkRequest "GET" "/v1/trades/stats" "Basic s")
              emptyWriter) as (_ & _ & Hbasic).
  - discriminate.
  - discriminate.
  - apply Hbasic. reflexivity.
Defined.

(** C9 as stated fails at the server: with the key "s" set, a preflight
    OPTIONS request, which carries no Authorization header, is answered
    401 by the auth middleware and never reaches the CORS middleware. *)
Lemma preflight_without_key_unauthorized :
  status preflightAnswer = Some 401 /\
  status preflightAnswer <> Some 200 /\
  Header preflightAnswer !! "Access-Control-Allow-Origin" = None.
Proof. repeat split. discriminate. Qed.

End Middleware.

(** ** The S/R cache *)

Section SRCache.
Import external.

Variable d : DuneClient.
Variable clock : Clock.
Variable forceRefresh : bool.
Variable rows : result string (list (gmap string JSONValue)).

Let outcome := FetchSupportResistance d clock forceRefresh rows.

Lemma validation_passes r :
  IsNaN (Support r) || IsNaN (Resistance r) || IsNaN (Midpoint r) = false ->
  fge (Support r) (Resistance r) = false ->
  validSR r.
Proof.
  unfold validSR.
  destruct (Support r) as [|s]; [discriminate|].
  destruct (Resistance r) as [|res]; [discriminate|].
  destruct (Midpoint r) as [|m]; [discriminate|].
  simpl. intros _ Hlt. apply Qle_bool_false in Hlt.
  exists s, res, m. auto.
Qed.

Lemma validation_fails r :
  ~ validSR r ->
  IsNaN (Support r) || IsNaN (Resistance r) || IsNaN (Midpoint r) = true \/
  fge (Support r) (Resistance r) = true.
Proof.
  intros Hbad.
  destruct (IsNaN (Support r) || IsNaN (Resistance r)
            || IsNaN (Midpoint r)) eqn:Hnan; [auto|].
  destruct (fge (Support r) (Resistance r)) eqn:Hge; [auto|].
  exfalso. apply Hbad, validation_passes; assumption.
Qed.

(** Every path but the last returns the client as it was. *)
Lemma FetchSupportResistance_cases :
  (outcome.2 = d) \/
  (exists r, outcome = (Ok r, store d r (atStore clock)) /\ validSR r).
Proof.
  unfold outcome, FetchSupportResistance.
  destruct (match cachedResult d with
            | Some cached =>
                if negb forceRefresh
                   && (atCheck clock - lastFetch d <? cacheTTL d)
                then Some cached else None
            | None => None
            end); [left; reflexivity|].
  destruct rows as [[|row rest]|e]; [left; reflexivity| |left; reflexivity].
  match goal with
  | |- context [if ?nan then _ else if ?ge then _ else _] =>
      destruct nan eqn:Hnan; [left; reflexivity|];
      destruct ge eqn:Hge; [left; reflexivity|]
  end.
  right. eexists. split; [reflexivity|].
  apply validation_passes; assumption.
Qed.

(** C10.  Whenever [FetchSupportResistance] returns an error the client,
    and with it the cached result and its fetch time, is unchanged; the
    cache changes only by storing a result that passed validation
    (support, resistance and midpoint not NaN, support below
    resistance), which is then the returned result; and a forced refresh
    whose query fails, returns no rows, or returns a first row that
    fails validation, returns an error. *)
Theorem FetchSupportResistance_cache_spec :
  (forall e, outcome.1 = Err e ->
     outcome.2 = d /\
     cachedResult outcome.2 = cachedResult d /\
     lastFetch outcome.2 = lastFetch d) /\
  (cachedResult outcome.2 <> cachedResult d \/
   lastFetch outcome.2 <> lastFetch d ->
   exists r,
     outcome = (Ok r, store d r (atStore clock)) /\ validSR r) /\
  (forceRefresh = true ->
   (forall e, rows = Err e -> outcome = (Err e, d)) /\
   (rows = Ok [] -> exists e, outcome = (Err e, d)) /\
   (forall row rest, rows = Ok (row :: rest) ->
      ~ validSR (rowResult d clock row) ->
      exists e, outcome = (Err e, d))).
Proof.
  split; [|split].
  - intros e He.
    destruct FetchSupportResistance_cases as [Hsame|(r & Hr & _)].
    + rewrite Hsame. auto.
    + rewrite Hr in He. discriminate.
  - intros Hchanged.
    destruct FetchSupportResistance_cases as [Hsame|Hstored];
      [|exact Hstored].
    rewrite Hsame in Hchanged. destruct Hchanged; contradiction.
  - intros Hforce. unfold outcome, FetchSupportResistance.
    rewrite Hforce. simpl.
    assert (Hmiss : match cachedResult d with
                    | Some _ => None | None => None
                    end = @None SRResult)
      by (destruct (cachedResult d); reflexivity).
    rewrite Hmiss. split; [|split].
    + intros e ->. reflexivity.
    + intros ->. eauto.
    + intros row rest -> Hbad.
      destruct (validation_fails _ Hbad) as [Hnan|Hge].
      * unfold rowResult in Hnan. simpl in Hnan. rewrite Hnan. eauto.
      * unfold rowResult in Hge. simpl in Hge. rewrite Hge.
        destruct (_ || _ || _); eauto.
Qed.

End SRCache.

Section SRCacheWitness.
Import external.

(** A forced refresh whose row has support above resistance fails and
    leaves the cached sample in place. *)
Lemma FetchSupportResistance_cache_spec_witness :
  exists e,
    FetchSupportResistance warmClient (mkClock 5000 5001 5002) true
      (Ok [invertedRow]) = (Err e, warmClient).
Proof.
  destruct (FetchSupportResistance_cache_spec warmClient
              (mkClock 5000 5001 5002) true (Ok [invertedRow]))
    as (_ & _ & Hforced).
  destruct (Hforced eq_refl) as (_ & _ & Hrow).
  apply (Hrow invertedRow []); [reflexivity|].
  intros (s & res & m & Hs & Hres & _ & Hlt).
  vm_compute in Hs, Hres. injection Hs as <-. injection Hres as <-.
  revert Hlt. apply Qle_not_lt. vm_compute. discriminate.
Defined.

End SRCacheWitness.

(** ** The repository's tests and the scenarios, replayed on the model *)

Section Replayed.

(** [TestCalculateGridLevels] in binary64, with the example power and
    sorting functions: ten levels, five buys below five sells, strictly
    ascending, and the prices of the first scenario to the cent. *)
Example replay_grid_sides :
  match binary64.strategy.CalculateGridLevels binary64.strategy.powWhole
          binary64.strategy.insertionSortSlice
          (binary64.strategy.mkGridParams 2700 10 2 100) with
  | Ok grid =>
      (fun l => (binary64.strategy.Index l, binary64.strategy.Side l))
        <$> grid =
      [(0, "buy"); (1, "buy"); (2, "buy"); (3, "buy"); (4, "buy");
       (5, "sell"); (6, "sell"); (7, "sell"); (8, "sell"); (9, "sell")]
  | Err _ => False
  end.
Proof. vm_compute. reflexivity. Qed.

Example replay_grid_prices :
  match binary64.strategy.CalculateGridLevels binary64.strategy.powWhole
          binary64.strategy.insertionSortSlice
          (binary64.strategy.mkGridParams 2700 10 2 100) with
  | Ok grid =>
      Forall2
        (fun l cents =>
           (PrimFloat.abs (binary64.strategy.Price l - cents) <? 0.005)%float
           = true)
        grid
        [2445.47; 2494.38; 2544.27; 2595.16; 2647.06;
         2754.00; 2809.08; 2865.26; 2922.57; 2981.02]%float /\
      (forall (k : nat) l l',
         grid !! k = Some l -> grid !! S k = Some l' ->
         (binary64.strategy.Price l <? binary64.strategy.Price l')%float
         = true) /\
      Forall (fun l => (0 <? binary64.strategy.Quantity l)%float = true) grid
  | Err _ => False
  end.
Proof.
  vm_compute (binary64.strategy.CalculateGridLevels _ _ _).
  split; [|split].
  - repeat constructor.
  - intros k l l' Hl Hl'.
    do 10 (destruct k as [|k];
           [try discriminate; injection Hl as <-; injection Hl' as <-;
            reflexivity|]).
    discriminate.
  - repeat constructor.
Qed.

(** [TestCalculateGridLevels_Validation] *)
Example replay_grid_validation :
  Forall (fun p => exists e,
            binary64.strategy.CalculateGridLevels binary64.strategy.powWhole
              binary64.strategy.insertionSortSlice p = Err e)
    [ binary64.strategy.mkGridParams (-1) 10 2 100;
      binary64.strategy.mkGridParams 2700 1 2 100;
      binary64.strategy.mkGridParams 2700 10 0 100;
      binary64.strategy.mkGridParams 2700 10 2 (-5) ].
Proof. repeat constructor; eexists; reflexivity. Qed.

(** [TestFindTriggeredLevel] *)
Example replay_trigger :
  strategy.FindTriggeredLevel 2540 (scenarioGrid false) = Some 0%nat /\
  strategy.FindTriggeredLevel 2590 (scenarioGrid false) = Some 1%nat /\
  strategy.FindTriggeredLevel 2710 (scenarioGrid false) = Some 2%nat /\
  strategy.FindTriggeredLevel 2650 (scenarioGrid false) = None /\
  strategy.FindTriggeredLevel 2540 (scenarioGrid true) = Some 1%nat.
Proof. repeat split; reflexivity. Qed.

(** [TestGetOppositeLevelIndex] *)
Example replay_opposite :
  strategy.GetOppositeLevelIndex
    (strategy.mkGridLevel 2 0 "buy" 0 false None None) 6 = Some 3 /\
  strategy.GetOppositeLevelIndex
    (strategy.mkGridLevel 3 0 "sell" 0 false None None) 6 = Some 2 /\
  strategy.GetOppositeLevelIndex
    (strategy.mkGridLevel 0 0 "sell" 0 false None None) 5 = None /\
  strategy.GetOppositeLevelIndex
    (strategy.mkGridLevel 4 0 "buy" 0 false None None) 5 = None.
Proof. repeat split; reflexivity. Qed.

(** The third scenario: filling the buy at index 1 re-arms a filled sell
    at index 2 and leaves an unfilled one alone. *)
Example replay_reset :
  let filled := strategy.mkGridLevel 1 2600 "buy" 0 true (Some 7) (Some "h") in
  let sell f := strategy.mkGridLevel 2 2700 "sell" 0 f
                  (if f then Some 5 else None)
                  (if f then Some "g" else None) in
  bot.resetOppositeLevel [filled; filled; sell true] filled
    = [filled; filled; sell false] /\
  bot.resetOppositeLevel [filled; filled; sell false] filled
    = [filled; filled; sell false].
Proof. split; reflexivity. Qed.

(** [TestCalculateSRChange] and the fourth scenario. *)
Example replay_change :
  binary64.strategy.CalculateSRChange 2700 0 = 100%float /\
  binary64.strategy.CalculateSRChange 2700 2700 = 0%float /\
  binary64.models.HasChangedSignificantly
    (binary64.models.mkSupportResistance 0 0 2800)
    (Some (binary64.models.mkSupportResistance 0 0 2700)) 5 = false /\
  binary64.models.HasChangedSignificantly
    (binary64.models.mkSupportResistance 0 0 2900)
    (Some (binary64.models.mkSupportResistance 0 0 2700)) 5 = true.
Proof. repeat split; vm_compute; reflexivity. Qed.

(** [TestDo_RetriesOnServerError], [TestDo_NoRetryOnClientError] and
    [TestDo_RespectsContextCancellation]. *)
Example replay_retry :
  let ok := httputil.mkResponse 200 "" in
  let flaky :=
    httputil.mkWorld (fun _ => None)
      (fun k => httputil.SendResponse
                  (if k <? 3 then httputil.mkResponse 503 "" else ok))
      (fun _ => None) in
  let refused :=
    httputil.mkWorld (fun _ => None)
      (fun _ => httputil.SendResponse (httputil.mkResponse 400 ""))
      (fun _ => None) in
  let cancelled :=
    httputil.mkWorld (fun _ => None)
      (fun _ => httputil.SendResponse (httputil.mkResponse 503 ""))
      (fun _ => Some "context deadline exceeded") in
  httputil.Do flaky testRetry =
    (Ok ok, [httputil.Attempt 1; httputil.Sleep 50000000;
             httputil.Attempt 2; httputil.Sleep 100000000;
             httputil.Attempt 3]) /\
  httputil.Do refused testRetry =
    (Ok (httputil.mkResponse 400 ""), [httputil.Attempt 1]) /\
  httputil.Do cancelled (httputil.mkRetryConfig 10 500000000 2000000000) =
    (Err (httputil.Cancelled "context deadline exceeded"),
     [httputil.Attempt 1]).
Proof. repeat split; reflexivity. Qed.

(** The guardian's tests: limits of 500 USD and of 50 trades a day. *)
Example replay_guardian :
  let sized := risk.mkGuardian (risk.mkLimits 0 500 0 0)
                 (Some (risk.Counted 0)) in
  let daily count := risk.mkGuardian (risk.mkLimits 50 0 0 0)
                       (Some count) in
  let free := risk.mkGuardian (risk.mkLimits 0 0 0 0)
                (Some (risk.Counted 9999)) in
  risk.PreTradeCheck sized 499.99 = None /\
  risk.PreTradeCheck sized 500.01 =
    Some (risk.PositionTooLarge 500.01 500) /\
  risk.PreTradeCheck (daily (risk.Counted 49)) 100 = None /\
  risk.PreTradeCheck (daily (risk.Counted 50)) 100 =
    Some (risk.DailyLimitReached 50 50) /\
  risk.PreTradeCheck (daily (risk.CountFailed "db down")) 100 =
    Some (risk.CountUnavailable "db down") /\
  risk.PreTradeCheck free 999999 = None.
Proof. repeat split; reflexivity. Qed.

(** The sixth scenario on the handler the server installs. *)
Example replay_auth_cors :
  let mux : api.Handler := fun _ w => api.WriteHeader w api.StatusOK in
  let ask key method path auth :=
    api.status (api.serverHandler key "" mux
                  (api.mkRequest method path auth) api.emptyWriter) in
  ask "" "GET" "/v1/trades/stats" "" = Some 200 /\
  ask "s" "GET" "/v1/trades/stats" "" = Some 401 /\
  ask "s" "GET" "/v1/trades/stats" "Bearer s" = Some 200 /\
  ask "s" "GET" "/v1/trades/stats" "Basic s" = Some 401 /\
  ask "s" "GET" "/health" "" = Some 200 /\
  ask "" "OPTIONS" "/v1/prices/latest" "" = Some 200.
Proof. repeat split; reflexivity. Qed.

End Replayed.

(** * Further properties of the code *)

(** ** The range and completeness predicates *)

Section GridPredicates.
Import strategy.

Lemma widen_fold (rest : list GridLevel) : forall lo hi lo' hi',
  fold_left widen rest (lo, hi) = (lo', hi') ->
  ((lo' <= lo)%Q /\ (forall l, l ∈ rest -> (lo' <= Price l)%Q) /\
   (lo' = lo \/ exists l, l ∈ rest /\ lo' = Price l)) /\
  ((hi <= hi')%Q /\ (forall l, l ∈ rest -> (Price l <= hi')%Q) /\
   (hi' = hi \/ exists l, l ∈ rest /\ hi' = Price l)).
Proof.
  induction rest as [|x rest IH]; intros lo hi lo' hi'; simpl.
  - intros [= <- <-]. split; (split; [lra|]); (split; [|auto]);
      intros l Hl; inversion Hl.
  - intros Hfold. apply IH in Hfold as [(Hlo & Hall & Hpick) (Hhi & Hall' & Hpick')].
    split.
    + destruct (Qlt_bool (Price x) lo) eqn:Hx.
      * apply Qlt_bool_iff in Hx. split; [lra|]. split.
        -- intros l [->|Hl]%elem_of_cons; [exact Hlo|auto].
        -- right. destruct Hpick as [->|(l & Hl & ->)].
           ++ exists x. split; [left|reflexivity].
           ++ exists l. split; [right; exact Hl|reflexivity].
      * apply Qlt_bool_false in Hx. split; [exact Hlo|]. split.
        -- intros l [->|Hl]%elem_of_cons; [lra|auto].
        -- destruct Hpick as [->|(l & Hl & ->)]; [left; reflexivity|].
           right. exists l. split; [right; exact Hl|reflexivity].
    + destruct (Qlt_bool hi (Price x)) eqn:Hx.
      * apply Qlt_bool_iff in Hx. split; [lra|]. split.
        -- intros l [->|Hl]%elem_of_cons; [exact Hhi|auto].
        -- right. destruct Hpick' as [->|(l & Hl & ->)].
           ++ exists x. split; [left|reflexivity].
           ++ exists l. split; [right; exact Hl|reflexivity].
      * apply Qlt_bool_false in Hx. split; [exact Hhi|]. split.
        -- intros l [->|Hl]%elem_of_cons; [lra|auto].
        -- destruct Hpick' as [->|(l & Hl & ->)]; [left; reflexivity|].
           right. exists l. split; [right; exact Hl|reflexivity].
Qed.



Lemma countIf_cons test x grid :
  countIf test (x :: grid) =
  (if test x then 1 else 0) + countIf test grid.
Proof. unfold countIf. simpl. destruct (test x); simpl; lia. Qed.

Lemma countIf_nonneg test grid : 0 <= countIf test grid.
Proof. unfold countIf. lia. Qed.

Lemma countIf_pos test grid :
  0 < countIf test grid <-> exists l, l ∈ grid /\ test l = true.
Proof.
  induction grid as [|x grid IH].
  - split; [unfold countIf; simpl; lia|]. intros (l & Hl & _). inversion Hl.
  - rewrite countIf_cons. pose proof (countIf_nonneg test grid).
    destruct (test x) eqn:Hx; split.
    + intros _. exists x. split; [left|exact Hx].
    + lia.
    + intros Hpos. destruct (proj1 IH ltac:(lia)) as (l & Hl & Ht).
      exists l. split; [right; exact Hl|exact Ht].
    + intros (l & [->|Hl]%elem_of_cons & Ht); [congruence|].
      assert (0 < countIf test grid) by (apply IH; eauto). lia.
Qed.

Lemma countIf_zero test grid :
  countIf test grid = 0 <-> forall l, l ∈ grid -> test l = false.
Proof.
  pose proof (countIf_nonneg test grid) as Hnn.
  pose proof (countIf_pos test grid) as Hpos. split.
  - intros Hz l Hl. destruct (test l) eqn:Ht; [|reflexivity].
    assert (0 < countIf test grid) by (apply Hpos; eauto). lia.
  - intros Hall. destruct (Z.eq_dec (countIf test grid) 0) as [|Hne];
      [assumption|].
    destruct (proj1 Hpos ltac:(lia)) as (l & Hl & Ht).
    rewrite (Hall l Hl) in Ht. discriminate.
Qed.

Lemma countIf_split side grid :
  countIf (isSide side) grid =
  countIf (isFilledSide side) grid + countIf (isPendingSide side) grid.
Proof.
  induction grid as [|x grid IH]; [reflexivity|].
  rewrite !countIf_cons, IH. unfold isSide, isFilledSide, isPendingSide.
  destruct (String.eqb (Side x) side), (Filled x); simpl; lia.
Qed.

Lemma tally_fold side (grid : list GridLevel) : forall count filled,
  fold_left (tally side) grid (count, filled) =
  (count + countIf (isSide side) grid,
   filled + countIf (isFilledSide side) grid).
Proof.
  induction grid as [|x grid IH]; intros count filled.
  - unfold countIf. simpl. f_equal; lia.
  - cbn [fold_left]. rewrite !countIf_cons.
    destruct (tally side (count, filled) x) as [c f] eqn:Ht. rewrite IH.
    change (isSide side x) with (String.eqb (Side x) side).
    change (isFilledSide side x) with (String.eqb (Side x) side && Filled x).
    unfold tally in Ht.
    destruct (String.eqb (Side x) side), (Filled x); simpl;
      injection Ht as <- <-; f_equal; lia.
Qed.

Lemma AreAllSideFilled_counts grid side :
  AreAllSideFilled grid side = true <->
  0 < countIf (isFilledSide side) grid /\
  countIf (isPendingSide side) grid = 0.
Proof.
  unfold AreAllSideFilled. rewrite tally_fold, countIf_split, !Z.add_0_l.
  pose proof (countIf_nonneg (isFilledSide side) grid).
  pose proof (countIf_nonneg (isPendingSide side) grid).
  set (f := countIf (isFilledSide side) grid) in *.
  set (q := countIf (isPendingSide side) grid) in *.
  destruct (Z.eqb_spec (f + q) 0).
  - split; [discriminate|lia].
  - rewrite Z.eqb_eq. lia.
Qed.

Lemma AreAllSideFilled_iff (grid : list GridLevel) (side : string) :
  AreAllSideFilled grid side = true <->
  (exists l, l ∈ grid /\ Side l = side) /\
  (forall l, l ∈ grid -> Side l = side -> Filled l = true).
Proof.
  rewrite AreAllSideFilled_counts, countIf_pos, countIf_zero.
  unfold isFilledSide, isPendingSide. split.
  - intros [(l & Hl & Ht) Hall]. apply andb_true_iff in Ht as [Hs _].
    apply String.eqb_eq in Hs. split; [eauto|].
    intros l' Hl' Hs'. specialize (Hall l' Hl').
    apply String.eqb_eq in Hs'. rewrite Hs' in Hall. simpl in Hall.
    destruct (Filled l'); [reflexivity|discriminate].
  - intros [(l & Hl & Hs) Hall]. split.
    + exists l. split; [exact Hl|]. rewrite (Hall l Hl Hs).
      apply String.eqb_eq in Hs. rewrite Hs. reflexivity.
    + intros l' Hl'. destruct (String.eqb_spec (Side l') side) as [Hs'|];
        [|reflexivity].
      rewrite (Hall l' Hl' Hs'). reflexivity.
Qed.

(** X4.  [AreAllSideFilled] holds exactly when the grid has a level of
    that side and every level of that side is filled. *)
Theorem AreAllSideFilled_spec (grid : list GridLevel) (side : string) :
  AreAllSideFilled grid side = true <->
  (exists l, l ∈ grid /\ Side l = side) /\
  (forall l, l ∈ grid -> Side l = side -> Filled l = true).
Proof. exact (AreAllSideFilled_iff grid side). Qed.

Lemma countLevel_fold (grid : list GridLevel) : forall s,
  let s' := fold_left countLevel grid s in
  Levels s' = Levels s /\
  LowestPrice s' = LowestPrice s /\ HighestPrice s' = HighestPrice s /\
  FilledBuys s' = FilledBuys s + countIf (isFilledSide "buy") grid /\
  PendingBuys s' = PendingBuys s + countIf (isPendingSide "buy") grid /\
  FilledSells s' = FilledSells s + countIf (isFilledSide "sell") grid /\
  PendingSells s' = PendingSells s + countIf (isPendingSide "sell") grid /\
  FilledLevels s' =
    FilledLevels s + countIf (isFilledSide "buy") grid
    + countIf (isFilledSide "sell") grid.
Proof.
  induction grid as [|x grid IH]; intros s; simpl.
  - unfold countIf. simpl. repeat split; lia.
  - specialize (IH (countLevel s x)). simpl in IH.
    destruct IH as (H1 & H2 & H3 & H4 & H5 & H6 & H7 & H8).
    rewrite H1, H2, H3, H4, H5, H6, H7, H8, !countIf_cons.
    unfold countLevel, isFilledSide, isPendingSide.
    destruct (String.eqb_spec (Side x) "buy") as [Hb|Hb];
      destruct (String.eqb_spec (Side x) "sell") as [Hs|Hs];
      try (rewrite Hb in Hs; discriminate);
      destruct (Filled x); simpl; repeat split; lia.
Qed.

(** X5.  The counters of [GetGridStats] partition the buy and the sell
    levels: filled levels are the filled buys plus the filled sells, the
    four side counters never exceed the number of levels, and a side is
    reported complete by [AreAllSideFilled] exactly when the statistics
    show a filled level and no pending level on that side. *)
Theorem GetGridStats_spec (grid : list GridLevel) :
  let s := GetGridStats grid in
  Levels s = Z.of_nat (length grid) /\
  FilledLevels s = FilledBuys s + FilledSells s /\
  0 <= FilledBuys s /\ 0 <= PendingBuys s /\
  0 <= FilledSells s /\ 0 <= PendingSells s /\
  FilledBuys s + PendingBuys s + FilledSells s + PendingSells s <= Levels s /\
  ((forall l, l ∈ grid -> Side l = "buy" \/ Side l = "sell") ->
   FilledBuys s + PendingBuys s + FilledSells s + PendingSells s = Levels s) /\
  (AreAllSideFilled grid "buy" = true <->
   0 < FilledBuys s /\ PendingBuys s = 0) /\
  (AreAllSideFilled grid "sell" = true <->
   0 < FilledSells s /\ PendingSells s = 0).
Proof.
  intros s.
  assert (Hcounts :
    Levels s = Z.of_nat (length grid) /\
    FilledBuys s = countIf (isFilledSide "buy") grid /\
    PendingBuys s = countIf (isPendingSide "buy") grid /\
    FilledSells s = countIf (isFilledSide "sell") grid /\
    PendingSells s = countIf (isPendingSide "sell") grid /\
    FilledLevels s = countIf (isFilledSide "buy") grid
                     + countIf (isFilledSide "sell") grid).
  { subst s. destruct grid as [|first rest]; [repeat split|].
    unfold GetGridStats.
    destruct (countLevel_fold (first :: rest)
                (mkGridStats (Z.of_nat (length (first :: rest)))
                   (Some (Price first))
                   (Some (Price (List.last (first :: rest) first)))
                   0 0 0 0 0))
      as (H1 & _ & _ & H4 & H5 & H6 & H7 & H8).
    simpl in H1, H4, H5, H6, H7, H8. repeat split; assumption. }
  destruct Hcounts as (HL & HFB & HPB & HFS & HPS & HFL).
  rewrite HL, HFB, HPB, HFS, HPS, HFL.
  pose proof (countIf_nonneg (isFilledSide "buy") grid).
  pose proof (countIf_nonneg (isPendingSide "buy") grid).
  pose proof (countIf_nonneg (isFilledSide "sell") grid).
  pose proof (countIf_nonneg (isPendingSide "sell") grid).
  assert (Hsum : forall g : list GridLevel,
            countIf (isSide "buy") g + countIf (isSide "sell") g
            <= Z.of_nat (length g) /\
            ((forall l, l ∈ g -> Side l = "buy" \/ Side l = "sell") ->
             countIf (isSide "buy") g + countIf (isSide "sell") g
             = Z.of_nat (length g))).
  { induction g as [|x g [IHle IHeq]]; [split; reflexivity|].
    rewrite !countIf_cons.
    change (isSide "buy" x) with (String.eqb (Side x) "buy").
    change (isSide "sell" x) with (String.eqb (Side x) "sell").
    destruct (String.eqb_spec (Side x) "buy") as [Hb|Hb];
      destruct (String.eqb_spec (Side x) "sell") as [Hs|Hs];
      try (rewrite Hb in Hs; discriminate); simpl length;
      rewrite Nat2Z.inj_succ; split; try lia.
    - intros Hall.
      assert (E := IHeq (fun l Hl => Hall l (list_elem_of_further _ _ _ Hl))).
      lia.
    - intros Hall.
      assert (E := IHeq (fun l Hl => Hall l (list_elem_of_further _ _ _ Hl))).
      lia.
    - intros Hall. destruct (Hall x ltac:(left)); contradiction. }
  destruct (Hsum grid) as [Hle Heq].
  rewrite !countIf_split in Hle, Heq.
  do 7 (split; [lia|]).
  split; [intros Hall; specialize (Heq Hall); lia|].
  split; apply AreAllSideFilled_counts.
Qed.

Lemma GetGridStats_spec_witness :
  FilledBuys (GetGridStats (scenarioGrid true))
  + PendingBuys (GetGridStats (scenarioGrid true))
  + FilledSells (GetGridStats (scenarioGrid true))
  + PendingSells (GetGridStats (scenarioGrid true))
  = Levels (GetGridStats (scenarioGrid true)).
Proof.
  destruct (GetGridStats_spec (scenarioGrid true))
    as (_ & _ & _ & _ & _ & _ & _ & Hall & _).
  apply Hall. intros l Hl.
  repeat (apply elem_of_cons in Hl as [->|Hl]; [simpl; auto|]).
  inversion Hl.
Defined.

End GridPredicates.

(** ** A freshly calculated grid *)

Section FreshGrid.
Import strategy.

Variable sortSlice : SortSlice.
Variable p : GridParams.
Hypothesis Hsort : SortSliceSpec sortSlice.
Hypothesis Hvalid : validParams p.

Let n := LevelCount p.
Let fresh := imap setIndex (generate p).

Lemma fresh_grid_result : CalculateGridLevels sortSlice p = Ok fresh.
Proof.
  destruct Hvalid as (Hc & Hn & Hs & _).
  rewrite CalculateGridLevels_valid by exact Hvalid.
  unfold fresh. rewrite sortSlice_generate by assumption. reflexivity.
Qed.

Lemma fresh_grid_length : Z.of_nat (length fresh) = n.
Proof.
  destruct Hvalid as (_ & Hn & _).
  unfold fresh. rewrite length_imap. apply generate_length, Hn.
Qed.

Lemma fresh_grid_lookup (k : nat) l :
  fresh !! k = Some l <->
  Z.of_nat k < n /\ l = setIndex k (levelAt p (exponentOf n k)).
Proof.
  destruct Hvalid as (_ & Hn & _). unfold fresh.
  rewrite list_lookup_imap_Some. split.
  - intros (l0 & Hl0 & ->).
    assert (Hlt : Z.of_nat k < n).
    { apply lookup_lt_Some in Hl0. pose proof (generate_length p Hn).
      fold n in H. lia. }
    split; [exact Hlt|].
    rewrite generate_lookup in Hl0 by assumption.
    injection Hl0 as <-. reflexivity.
  - intros [Hlt ->]. eexists. split; [|reflexivity].
    apply generate_lookup; assumption.
Qed.


End FreshGrid.

(** ** The sides of a freshly calculated grid *)

Section FreshSides.
Import binary64 binary64.strategy.

Variable Pow : PowFn.
Variable sortSlice : SortSlice.
Hypothesis Hsort : SortSliceSpec sortSlice.
Variable p : GridParams.

Let n := LevelCount p.
Let h := n / 2.

Lemma filter_none {A} (P : A -> Prop) `{forall x, Decision (P x)}
    (l : list A) :
  Forall (fun x => ~ P x) l -> filter P l = [].
Proof.
  induction 1 as [|x l Hx _ IH]; [reflexivity|].
  rewrite filter_cons, decide_False by assumption. exact IH.
Qed.

Lemma exponents_split :
  2 <= n ->
  exponents n =
  seqZ (- h) h ++ (if n mod 2 =? 0 then [] else [0]) ++ seqZ 1 h.
Proof.
  intros Hn. unfold exponents. fold h.
  assert (Hh : n = 2 * h + n mod 2) by (apply Z.div_mod; lia).
  assert (Hm : 0 <= n mod 2 < 2) by (apply Z.mod_pos_bound; lia).
  replace (2 * h + 1) with (h + (1 + h)) by lia.
  rewrite seqZ_app, (seqZ_app _ 1) by lia.
  rewrite !filter_app.
  rewrite (filter_all _ (seqZ (- h) h)), (filter_all _ (seqZ (- h + h + 1) h)).
  - replace (- h + h) with 0 by lia.
    change (seqZ 0 1) with [0]. rewrite filter_cons, filter_nil.
    destruct (Z.eqb_spec (n mod 2) 0) as [He|He].
    + rewrite decide_False by tauto. reflexivity.
    + rewrite decide_True by tauto. reflexivity.
  - apply Forall_forall. intros j Hj. apply elem_of_seqZ in Hj. lia.
  - apply Forall_forall. intros j Hj. apply elem_of_seqZ in Hj. lia.
Qed.

Lemma sideCount_imap side (l : list GridLevel) :
  forall f : nat -> GridLevel -> GridLevel,
    (forall k x, Side (f k x) = Side x) ->
    sideCount side (imap f l) = sideCount side l.
Proof.
  unfold sideCount. induction l as [|x l IH]; intros f Hf; [reflexivity|].
  rewrite imap_cons, !filter_cons, Hf.
  destruct (decide (Side x = side)); simpl;
    rewrite IH by (intros k y; apply Hf); reflexivity.
Qed.

Lemma sideCount_levels side (l : list Z) :
  sideCount side (levelAt Pow p <$> l) =
  length (filter (fun i => (if i <? 0 then "buy" else "sell") = side) l).
Proof.
  unfold sideCount. induction l as [|i l IH]; [reflexivity|].
  rewrite fmap_cons, !filter_cons. simpl Side.
  destruct (decide ((if i <? 0 then "buy" else "sell") = side));
    simpl; rewrite IH; reflexivity.
Qed.

Lemma sideCount_fresh :
  2 <= n ->
  sideCount "buy" (levelAt Pow p <$> exponents n) = Z.to_nat h /\
  sideCount "sell" (levelAt Pow p <$> exponents n) = Z.to_nat (n - h).
Proof.
  intros Hn.
  assert (Hh : n = 2 * h + n mod 2) by (apply Z.div_mod; lia).
  assert (Hm : 0 <= n mod 2 < 2) by (apply Z.mod_pos_bound; lia).
  assert (Hneg : Forall (fun i => i < 0) (seqZ (- h) h))
    by (apply Forall_forall; intros j Hj; apply elem_of_seqZ in Hj; lia).
  assert (Hpos : Forall (fun i => 0 <= i) (seqZ 1 h))
    by (apply Forall_forall; intros j Hj; apply elem_of_seqZ in Hj; lia).
  assert (Hmid : Forall (fun i => 0 <= i) (if n mod 2 =? 0 then [] else [0]))
    by (destruct (n mod 2 =? 0); repeat constructor; lia).
  rewrite !sideCount_levels, exponents_split by exact Hn.
  rewrite !filter_app, !length_app.
  assert (Hside : forall (side : string) (P : Z -> Prop) (l : list Z),
            Forall P l ->
            (forall i, P i -> (if i <? 0 then "buy" else "sell") = side) ->
            filter (fun i => (if i <? 0 then "buy" else "sell") = side) l
            = l).
  { intros side P l Hl HP. apply filter_all.
    eapply Forall_impl; [exact Hl|exact HP]. }
  assert (Hother : forall (side : string) (P : Z -> Prop) (l : list Z),
            Forall P l ->
            (forall i, P i -> (if i <? 0 then "buy" else "sell") <> side) ->
            filter (fun i => (if i <? 0 then "buy" else "sell") = side) l
            = []).
  { intros side P l Hl HP. apply filter_none.
    eapply Forall_impl; [exact Hl|exact HP]. }
  assert (Hbuy : forall i, i < 0 -> (if i <? 0 then "buy" else "sell") = "buy")
    by (intros i Hi; destruct (Z.ltb_spec i 0); [reflexivity|lia]).
  assert (Hsell : forall i, 0 <= i ->
                    (if i <? 0 then "buy" else "sell") = "sell")
    by (intros i Hi; destruct (Z.ltb_spec i 0); [lia|reflexivity]).
  split.
  - rewrite (Hside "buy" _ _ Hneg Hbuy).
    rewrite (Hother "buy" _ _ Hmid), (Hother "buy" _ _ Hpos);
      try (intros i Hi; rewrite (Hsell i Hi); discriminate).
    rewrite length_seqZ. cbn [length]. lia.
  - rewrite (Hother "sell" _ _ Hneg),
      (Hside "sell" _ _ Hmid Hsell), (Hside "sell" _ _ Hpos Hsell);
      try (intros i Hi; rewrite (Hbuy i Hi); discriminate).
    rewrite !length_seqZ.
    destruct (Z.eqb_spec (n mod 2) 0); cbn [length]; lia.
Qed.

(** X24.  When no guard fires, the grid that [CalculateGridLevels]
    returns, whatever [math.Pow] computes and however [sort.Slice]
    arranges the levels, has exactly [n/2] buy levels and [n - n/2] sell
    levels: as many of each for an even [n], one sell more for an odd
    one.  Every level is a buy or a sell and none is filled. *)
Theorem fresh_grid_sides :
  passesGuards p ->
  exists grid,
    CalculateGridLevels Pow sortSlice p = Ok grid /\
    sideCount "buy" grid = Z.to_nat (n / 2) /\
    sideCount "sell" grid = Z.to_nat (n - n / 2) /\
    (forall l, l ∈ grid ->
       Filled l = false /\ (Side l = "buy" \/ Side l = "sell")).
Proof.
  intros Hpass. pose proof Hpass as (_ & Hn & _).
  eexists. split; [apply CalculateGridLevels64_passes, Hpass|].
  rewrite generate64_exponents by exact Hn. fold n.
  destruct (Hsort (levelAt Pow p <$> exponents n)) as [Hperm _].
  destruct (sideCount_fresh Hn) as [Hbuys Hsells].
  rewrite !sideCount_imap by reflexivity.
  unfold sideCount in *. rewrite Hperm.
  split; [exact Hbuys|]. split; [exact Hsells|].
  intros l (k & x & -> & Hx)%elem_of_lookup_imap.
  apply list_elem_of_lookup_2 in Hx. rewrite Hperm in Hx.
  apply list_elem_of_fmap in Hx as (i & -> & _). simpl.
  split; [reflexivity|]. destruct (i <? 0); auto.
Qed.

End FreshSides.

Section FreshSidesWitness.
Import binary64 binary64.strategy.

(** Five levels: two buys and three sells. *)
Lemma fresh_grid_sides_witness :
  exists grid,
    CalculateGridLevels powWhole insertionSortSlice
      (mkGridParams 2700 5 2 100) = Ok grid /\
    sideCount "buy" grid = 2%nat /\ sideCount "sell" grid = 3%nat.
Proof.
  destruct (fresh_grid_sides powWhole insertionSortSlice
              insertionSortSlice_spec (mkGridParams 2700 5 2 100))
    as (grid & Hgrid & Hbuys & Hsells & _).
  - repeat split; (reflexivity || (simpl; lia)).
  - exists grid. split; [exact Hgrid|]. split; assumption.
Defined.

End FreshSidesWitness.

(** ** The paper wallet's ledger and statistics *)

Section PaperLedger.

Import binary64 binary64.bot.

Lemma executePaperSwap_ledger maxPct u now pw level price side eth usdc pw' rc :
  executePaperSwap maxPct u now pw level price side eth usdc = Ok (pw', rc) ->
  initialETH pw' = initialETH pw /\ initialUSDC pw' = initialUSDC pw /\
  TotalGas pw' = (TotalGas pw + defaultPaperGasCost)%float /\
  exists t,
    Trades pw' = Trades pw ++ [t] /\
    ID t = Z.of_nat (length (Trades pw)) + 1 /\
    Side t = side /\ Timestamp t = now /\
    BalanceAfterETH t = ETHBalance pw' /\
    BalanceAfterUSDC t = USDCBalance pw' /\
    GasCost t = defaultPaperGasCost /\
    gasCost rc = defaultPaperGasCost /\
    slippagePct rc = SlippagePct t.
Proof.
  unfold executePaperSwap.
  destruct (String.eqb side "buy").
  - unfold ExecuteBuy.
    destruct (USDCBalance pw <? usdc)%float; [discriminate|].
    intros [= <- <-]. simpl. do 3 (split; [reflexivity|]).
    eexists. split; [reflexivity|]. simpl. auto 10.
  - destruct (ETHBalance pw <? eth + defaultPaperGasCost)%float;
      [discriminate|].
    unfold ExecuteSell.
    destruct (ETHBalance pw <? eth)%float; [discriminate|].
    intros [= <- <-]. simpl. do 3 (split; [reflexivity|]).
    eexists. split; [reflexivity|]. simpl. auto 10.
Qed.

Lemma countSide_fold (trades : list PaperTrade) : forall buys sells,
  exists buys' sells',
    fold_left countSide trades (buys, sells) = (buys', sells') /\
    buys' + sells' = buys + sells + Z.of_nat (length trades).
Proof.
  induction trades as [|t trades IH]; intros buys sells.
  - exists buys, sells. split; [reflexivity|]. simpl. lia.
  - cbn [fold_left]. unfold countSide at 2.
    destruct (String.eqb (Side t) "buy").
    + destruct (IH (buys + 1) sells) as (b' & s' & -> & Hsum).
      exists b', s'. split; [reflexivity|]. simpl length. lia.
    + destruct (IH buys (sells + 1)) as (b' & s' & -> & Hsum).
      exists b', s'. split; [reflexivity|]. simpl length. lia.
Qed.

(** X9.  Every wallet reached from a new wallet through completed paper
    swaps keeps its initial balances on record, numbers its trades 1, 2,
    3, ... in order, each with the gas cost of 0.005 ETH, and carries in
    its latest trade the balances it now holds.  Its total gas is the
    constant added once per trade, each addition rounded (after six
    trades 0.030000000000000002, not 0.03).  In its statistics the trades
    are all counted, each as a buy or as a sell. *)
Theorem reachableWallet_ledger (initialETH0 initialUSDC0 : float)
    (pw : PaperWallet) :
  reachableWallet initialETH0 initialUSDC0 pw ->
  initialETH pw = initialETH0 /\ initialUSDC pw = initialUSDC0 /\
  (forall (i : nat) t,
     Trades pw !! i = Some t ->
     ID t = Z.of_nat i + 1 /\ GasCost t = defaultPaperGasCost) /\
  TotalGas pw = gasAfter (length (Trades pw)) /\
  (forall t, List.last (Some <$> Trades pw) None = Some t ->
     BalanceAfterETH t = ETHBalance pw /\
     BalanceAfterUSDC t = USDCBalance pw) /\
  (forall hours price,
     let stats := Stats hours pw price in
     TotalTrades stats = Z.of_nat (length (Trades pw)) /\
     BuyTrades stats + SellTrades stats = TotalTrades stats /\
     TotalGasSpent stats = TotalGas pw).
Proof.
  intros Hreach.
  assert (Hstats : forall hours price,
            let stats := Stats hours pw price in
            TotalTrades stats = Z.of_nat (length (Trades pw)) /\
            BuyTrades stats + SellTrades stats = TotalTrades stats /\
            TotalGasSpent stats = TotalGas pw).
  { intros hours price. unfold Stats.
    destruct (countSide_fold (Trades pw) 0 0) as (b' & s' & -> & Hsum).
    simpl. split; [reflexivity|]. split; [lia|reflexivity]. }
  assert (Hledger :
            initialETH pw = initialETH0 /\ initialUSDC pw = initialUSDC0 /\
            (forall (i : nat) t,
               Trades pw !! i = Some t ->
               ID t = Z.of_nat i + 1 /\ GasCost t = defaultPaperGasCost) /\
            TotalGas pw = gasAfter (length (Trades pw)) /\
            (forall t, List.last (Some <$> Trades pw) None = Some t ->
               BalanceAfterETH t = ETHBalance pw /\
               BalanceAfterUSDC t = USDCBalance pw)).
  { clear Hstats. induction Hreach as [|pw i pw' rc Hreach IH Hswap].
    - split; [reflexivity|]. split; [reflexivity|]. split; [|split].
      + intros k t Hk. simpl in Hk. rewrite lookup_nil in Hk. discriminate.
      + reflexivity.
      + simpl. intros t [=].
    - destruct IH as (Hie & Hiu & Hids & Hgas & _).
      apply executePaperSwap_ledger in Hswap
        as (Hie' & Hiu' & Hgas' & t & Htr & Hid & _ & _ & Hbe & Hbu
            & Hgc & _).
      rewrite Hie', Hiu', Hgas', Htr.
      split; [exact Hie|]. split; [exact Hiu|]. split; [|split].
      + intros k t' Hk. apply lookup_app_Some in Hk as [Hk|[Hlen Hk]].
        * apply Hids, Hk.
        * destruct (k - length (Trades pw))%nat as [|m] eqn:Hm;
            [|rewrite lookup_cons, lookup_nil in Hk; discriminate].
          injection Hk as <-. split; [rewrite Hid; lia|exact Hgc].
      + rewrite Hgas, length_app. simpl length.
        rewrite Nat.add_1_r. reflexivity.
      + intros t'. rewrite fmap_app. simpl. rewrite last_last.
        intros [= <-]. split; assumption. }
  destruct Hledger as (H1 & H2 & H3 & H4 & H5).
  split; [exact H1|]. split; [exact H2|]. split; [exact H3|].
  split; [exact H4|]. split; [exact H5|exact Hstats].
Qed.

(** The wallet of the seventh scenario after its buy; and the gas of six
    trades. *)
Lemma reachableWallet_ledger_witness :
  (exists pw,
     reachableWallet 1 1000 pw /\
     TotalGas pw = gasAfter 1 /\
     forall t, Trades pw !! 0%nat = Some t -> ID t = 1) /\
  gasAfter 6 = 0.030000000000000002%float.
Proof.
  split; [|vm_compute; reflexivity].
  assert (Hswap : exists pw rc,
            paperSwap (NewPaperWallet 1 1000) firstBuy = Ok (pw, rc))
    by (eexists; eexists; vm_compute; reflexivity).
  destruct Hswap as (pw & rc & Hswap).
  assert (Hreach : reachableWallet 1 1000 pw)
    by (eapply reach_swap; [apply reach_new|exact Hswap]).
  assert (Hone : length (Trades pw) = 1%nat).
  { apply executePaperSwap_ledger in Hswap as (_ & _ & _ & t & -> & _).
    reflexivity. }
  exists pw. split; [exact Hreach|].
  destruct (reachableWallet_ledger 1 1000 pw Hreach)
    as (_ & _ & Hids & Hgas & _).
  split; [rewrite Hgas, Hone; reflexivity|].
  intros t Ht. apply (Hids 0%nat t Ht).
Defined.

End PaperLedger.

(** ** A fill and its opposite level *)

Section FillAndReset.
Import strategy.


Lemma resetOppositeLevel_length Grid filled :
  length (bot.resetOppositeLevel Grid filled) = length Grid.
Proof.
  unfold bot.resetOppositeLevel.
  destruct (GetOppositeLevelIndex filled (Z.of_nat (length Grid)));
    [|reflexivity].
  destruct (Grid !! Z.to_nat z) as [adj|]; [|reflexivity].
  destruct (Filled adj); [apply length_insert|reflexivity].
Qed.

Lemma resetOppositeLevel_lookup Grid filled (j : nat) lvl :
  Grid !! j = Some lvl ->
  bot.resetOppositeLevel Grid filled !! j =
  Some (if decide (GetOppositeLevelIndex filled (Z.of_nat (length Grid))
                   = Some (Z.of_nat j) /\ Filled lvl = true)
        then bot.clearFill lvl else lvl).
Proof.
  intros Hj. unfold bot.resetOppositeLevel.
  destruct (GetOppositeLevelIndex filled (Z.of_nat (length Grid)))
    as [idx|] eqn:Hopp.
  2:{ rewrite Hj. destruct (decide _) as [[[=] _]|]; reflexivity. }
  pose proof (GetOppositeLevelIndex_in_range _ _ _ Hopp) as Hidx.
  destruct (Grid !! Z.to_nat idx) as [adj|] eqn:Hadj.
  2:{ apply lookup_ge_None in Hadj. lia. }
  destruct (decide (j = Z.to_nat idx)) as [->|Hne].
  - assert (lvl = adj) as -> by congruence.
    destruct (Filled adj) eqn:Hf.
    + rewrite list_lookup_insert_eq by (eapply lookup_lt_Some; eauto).
      destruct (decide _) as [|Hno]; [reflexivity|].
      exfalso. apply Hno. split; [f_equal; lia|reflexivity].
    + rewrite Hj. destruct (decide _) as [[_ [=]]|]; reflexivity.
  - assert (Hother : ~ (Some idx = Some (Z.of_nat j) /\ Filled lvl = true)).
    { intros [[= ->] _]. apply Hne. lia. }
    destruct (Filled adj).
    + rewrite list_lookup_insert_ne by auto. rewrite Hj.
      destruct (decide _); [contradiction|reflexivity].
    + rewrite Hj. destruct (decide _); [contradiction|reflexivity].
Qed.




(** X12.  [resetOppositeLevel] never fills a level: a level that is
    filled afterwards was the same filled level before; and resetting
    twice for the same fill changes nothing more than resetting once. *)
Theorem resetOppositeLevel_idempotent (Grid : list GridLevel)
    (filled : GridLevel) :
  let Grid' := bot.resetOppositeLevel Grid filled in
  (forall (j : nat) l', Grid' !! j = Some l' -> Filled l' = true ->
     Grid !! j = Some l') /\
  bot.resetOppositeLevel Grid' filled = Grid'.
Proof.
  intros Grid'. subst Grid'. split.
  - intros j l' Hj Hf.
    assert (Hlt : (j < length Grid)%nat).
    { apply lookup_lt_Some in Hj. rewrite resetOppositeLevel_length in Hj.
      exact Hj. }
    destruct (lookup_lt_is_Some_2 Grid j Hlt) as [l Hl].
    rewrite (resetOppositeLevel_lookup _ _ _ _ Hl) in Hj.
    injection Hj as <-. destruct (decide _); [discriminate|exact Hl].
  - apply list_eq. intros j.
    destruct (bot.resetOppositeLevel Grid filled !! j) as [l'|] eqn:Hj.
    + rewrite (resetOppositeLevel_lookup _ _ _ _ Hj).
      destruct (decide _) as [[Hopp Hf]|]; [|reflexivity].
      exfalso. rewrite resetOppositeLevel_length in Hopp.
      assert (Hlt : (j < length Grid)%nat).
      { apply lookup_lt_Some in Hj. rewrite resetOppositeLevel_length in Hj.
        exact Hj. }
      destruct (lookup_lt_is_Some_2 Grid j Hlt) as [l Hl].
      rewrite (resetOppositeLevel_lookup _ _ _ _ Hl) in Hj.
      injection Hj as <-.
      destruct (decide _) as [|Hno]; [discriminate|].
      apply Hno. split; [exact Hopp|exact Hf].
    + apply lookup_ge_None in Hj. apply lookup_ge_None.
      rewrite !resetOppositeLevel_length.
      rewrite resetOppositeLevel_length in Hj. exact Hj.
Qed.

End FillAndReset.

(** ** The S/R cache over several calls *)

Section DuneCache.

Import external.

(** A fresh entry answers a fetch that is not forced, whatever the query
    would return. *)
Lemma FetchSupportResistance_hit d clock rows cached :
  cachedResult d = Some cached ->
  atCheck clock - lastFetch d < cacheTTL d ->
  FetchSupportResistance d clock false rows = (Ok cached, d).
Proof.
  intros Hc Hage. unfold FetchSupportResistance. rewrite Hc. simpl.
  destruct (Z.ltb_spec (atCheck clock - lastFetch d) (cacheTTL d)); [|lia].
  reflexivity.
Qed.

(** Without a fresh entry the flag makes no difference. *)
Lemma FetchSupportResistance_miss d clock rows :
  NeedsRefresh d (atCheck clock) = true ->
  FetchSupportResistance d clock false rows
  = FetchSupportResistance d clock true rows.
Proof.
  unfold NeedsRefresh, FetchSupportResistance.
  destruct (cachedResult d) as [cached|]; [|reflexivity].
  intros Hold. apply Z.leb_le in Hold. simpl.
  destruct (Z.ltb_spec (atCheck clock - lastFetch d) (cacheTTL d)); [lia|].
  reflexivity.
Qed.

Lemma NeedsRefresh_false d now :
  NeedsRefresh d now = false ->
  exists cached, cachedResult d = Some cached /\
                 now - lastFetch d < cacheTTL d.
Proof.
  unfold NeedsRefresh. destruct (cachedResult d) as [cached|]; [|discriminate].
  intros Hfresh. apply Z.leb_gt in Hfresh. eauto.
Qed.

(** A forced fetch never reads the cache. *)
Lemma FetchSupportResistance_forced d clock rows r d' :
  FetchSupportResistance d clock true rows = (Ok r, d') ->
  d' = store d r (atStore clock) /\ validSR r /\
  exists row rest, rows = Ok (row :: rest) /\ r = rowResult d clock row.
Proof.
  unfold FetchSupportResistance. simpl.
  assert (Hmiss : match cachedResult d with
                  | Some _ => None | None => None
                  end = @None SRResult)
    by (destruct (cachedResult d); reflexivity).
  rewrite Hmiss.
  destruct rows as [[|row rest]|e]; try discriminate.
  destruct (_ || _ || _) eqn:Hnan; [discriminate|].
  destruct (fge _ _) eqn:Hge; [discriminate|].
  intros [= <- <-]. split; [reflexivity|].
  split; [apply validation_passes; assumption|]. eauto.
Qed.

(** X13.  [NeedsRefresh] and the cache test of [FetchSupportResistance]
    agree: at one reading of the clock, [NeedsRefresh] is false exactly
    when a fetch that is not forced is answered from the cache, with the
    same result whatever the query would return and the client unchanged;
    it is true exactly when such a fetch behaves as a forced one. *)
Theorem NeedsRefresh_spec (d : DuneClient) (clock : Clock) :
  (NeedsRefresh d (atCheck clock) = false <->
   exists cached, forall rows,
     FetchSupportResistance d clock false rows = (Ok cached, d)) /\
  (NeedsRefresh d (atCheck clock) = true <->
   forall rows,
     FetchSupportResistance d clock false rows
     = FetchSupportResistance d clock true rows).
Proof.
  assert (Hforced : forall e,
            FetchSupportResistance d clock true (Err e) = (Err e, d)).
  { intros e. unfold FetchSupportResistance. simpl.
    destruct (cachedResult d); reflexivity. }
  split; split.
  - intros Hfresh.
    destruct (NeedsRefresh_false _ _ Hfresh) as (cached & Hc & Hage).
    exists cached. intros rows.
    apply FetchSupportResistance_hit; assumption.
  - intros (cached & Hhit).
    destruct (NeedsRefresh d (atCheck clock)) eqn:Hn; [|reflexivity].
    specialize (Hhit (Err "down")).
    rewrite (FetchSupportResistance_miss _ _ _ Hn), Hforced in Hhit.
    discriminate.
  - intros Hn rows. apply FetchSupportResistance_miss, Hn.
  - intros Hsame.
    destruct (NeedsRefresh d (atCheck clock)) eqn:Hn; [reflexivity|].
    destruct (NeedsRefresh_false _ _ Hn) as (cached & Hc & Hage).
    specialize (Hsame (Err "down")).
    rewrite (FetchSupportResistance_hit _ _ _ _ Hc Hage), Hforced in Hsame.
    discriminate.
Qed.

(** X14.  After a forced fetch has succeeded, the result it returned is
    the cached one, stamped with the client's method and lookback; until
    the TTL has passed since the store every fetch that is not forced
    returns that same result without consulting the query and
    [NeedsRefresh] is false; from then on [NeedsRefresh] is true and the
    fetch goes to the query again. *)
Theorem cache_round_trip (d d' : DuneClient) (clock : Clock)
    (rows : result string (list (gmap string JSONValue))) (r : SRResult) :
  FetchSupportResistance d clock true rows = (Ok r, d') ->
  cachedResult d' = Some r /\ lastFetch d' = atStore clock /\
  Method r = method d /\ LookbackDays r = lookbackDays d /\
  FetchedAt r = atResult clock /\
  forall clock' rows',
    (atCheck clock' - atStore clock < cacheTTL d ->
     NeedsRefresh d' (atCheck clock') = false /\
     FetchSupportResistance d' clock' false rows' = (Ok r, d')) /\
    (cacheTTL d <= atCheck clock' - atStore clock ->
     NeedsRefresh d' (atCheck clock') = true /\
     FetchSupportResistance d' clock' false rows'
     = FetchSupportResistance d' clock' true rows').
Proof.
  intros Hfetch.
  destruct (FetchSupportResistance_forced _ _ _ _ _ Hfetch)
    as (-> & _ & row & rest & -> & ->).
  split; [reflexivity|]. split; [reflexivity|].
  split; [reflexivity|]. split; [reflexivity|]. split; [reflexivity|].
  intros clock' rows'. split; intros Hage.
  - split.
    + unfold NeedsRefresh. simpl. apply Z.leb_gt. exact Hage.
    + apply FetchSupportResistance_hit; [reflexivity|exact Hage].
  - assert (Hn : NeedsRefresh (store d (rowResult d clock row) (atStore clock))
                   (atCheck clock') = true)
      by (unfold NeedsRefresh; simpl; apply Z.leb_le; exact Hage).
    split; [exact Hn|]. apply FetchSupportResistance_miss, Hn.
Qed.

(** A client with default options fetches at time 2; an hour later it
    answers from the cache although the query is down. *)
Lemma cache_round_trip_witness :
  exists r d',
    FetchSupportResistance coldClient (mkClock 0 1 2) true (Ok [sampleRow])
    = (Ok r, d') /\
    FetchSupportResistance d' (mkClock Hour Hour Hour) false (Err "down")
    = (Ok r, d').
Proof.
  destruct (FetchSupportResistance coldClient (mkClock 0 1 2) true
              (Ok [sampleRow])) as [[r|e] d'] eqn:Hfetch;
    [|vm_compute in Hfetch; discriminate].
  exists r, d'. split; [reflexivity|].
  destruct (cache_round_trip _ _ _ _ _ Hfetch) as (_ & _ & _ & _ & _ & Hlater).
  destruct (Hlater (mkClock Hour Hour Hour) (Err "down")) as [Hfresh _].
  apply Hfresh. vm_compute. reflexivity.
Defined.

(** X15.  [SeedCache] ignores a nil result and one whose age has reached
    the TTL; a younger one becomes the cached result, with its own fetch
    time as the time of the last fetch, and from then until the TTL has
    passed since that fetch time every fetch that is not forced returns it
    without consulting the query.  The seeded result is not validated. *)
Theorem SeedCache_spec (d : DuneClient) (sr : SRResult) (now : Z) :
  SeedCache d None now = d /\
  (cacheTTL d <= now - FetchedAt sr -> SeedCache d (Some sr) now = d) /\
  (now - FetchedAt sr < cacheTTL d ->
   let d' := SeedCache d (Some sr) now in
   cachedResult d' = Some sr /\ lastFetch d' = FetchedAt sr /\
   cacheTTL d' = cacheTTL d /\ method d' = method d /\
   lookbackDays d' = lookbackDays d /\
   NeedsRefresh d' now = false /\
   forall clock rows,
     atCheck clock - FetchedAt sr < cacheTTL d ->
     FetchSupportResistance d' clock false rows = (Ok sr, d')).
Proof.
  split; [reflexivity|]. split.
  - intros Hold. unfold SeedCache.
    destruct (Z.leb_spec (cacheTTL d) (now - FetchedAt sr)); [reflexivity|lia].
  - intros Hage. unfold SeedCache.
    destruct (Z.leb_spec (cacheTTL d) (now - FetchedAt sr)); [lia|].
    simpl. do 5 (split; [reflexivity|]). split.
    + unfold NeedsRefresh. simpl. apply Z.leb_gt. exact Hage.
    + intros clock rows Hlater.
      apply FetchSupportResistance_hit; [reflexivity|exact Hlater].
Qed.

(** A result whose support is above its resistance, seeded into a new
    client, is what the next fetch returns. *)
Lemma SeedCache_spec_witness :
  ~ validSR invertedSample /\
  FetchSupportResistance (SeedCache coldClient (Some invertedSample) 2000)
    (mkClock 3000 3001 3002) false (Ok [sampleRow])
  = (Ok invertedSample, SeedCache coldClient (Some invertedSample) 2000).
Proof.
  split.
  - intros (s & res & m & Hs & Hres & _ & Hlt).
    vm_compute in Hs, Hres. injection Hs as <-. injection Hres as <-.
    revert Hlt. apply Qle_not_lt. vm_compute. discriminate.
  - destruct (SeedCache_spec coldClient invertedSample 2000)
      as (_ & _ & Hseed).
    destruct (Hseed ltac:(vm_compute; reflexivity)) as (_ & _ & _ & _ & _ & _ & Hserve).
    apply Hserve. vm_compute. reflexivity.
Defined.

End DuneCache.

(** ** Every run of the retry executor *)

Section RetryBounds.

Import httputil.

Variable w : World.




End RetryBounds.

(** ** The scheduler's decision *)

Section Scheduler.

Import strategy scheduler.

Lemma IsPriceOutsideGrid_beyond (P : Q) (grid : list GridLevel) :
  grid <> [] ->
  (IsPriceOutsideGrid P grid = true <-> beyondGrid P grid).
Proof.
  destruct grid as [|first rest]; [contradiction|]. intros _.
  unfold beyondGrid. simpl.
  destruct (fold_left widen rest (Price first, Price first))
    as [lo hi] eqn:Hfold.
  apply widen_fold in Hfold
    as [(Hlo & Hall & Hpick) (Hhi & Hall' & Hpick')].
  rewrite orb_true_iff, !Qlt_bool_iff. split.
  - intros [Hbelow|Habove]; [left|right].
    + intros l [->|Hl]%elem_of_cons; [lra|].
      specialize (Hall l Hl). lra.
    + intros l [->|Hl]%elem_of_cons; [lra|].
      specialize (Hall' l Hl). lra.
  - intros [Hbelow|Habove]; [left|right].
    + destruct Hpick as [->|(l & Hl & ->)].
      * apply Hbelow. left.
      * apply Hbelow. right. exact Hl.
    + destruct Hpick' as [->|(l & Hl & ->)].
      * apply Habove. left.
      * apply Habove. right. exact Hl.
Qed.

Lemma consistent_raise (reasons : list Reason) (r : Reason) :
  consistent (true, reasons ++ [r]).
Proof.
  unfold consistent. simpl. split; [|discriminate].
  intros H. apply app_eq_nil in H as [_ [=]].
Qed.

Lemma changeCondition_spec change state :
  let state' := changeCondition change state in
  (state'.1 = true <->
   state.1 = true \/
   exists a, change = Ok a /\ binary64.repository.HasChanged a = true) /\
  (consistent state -> consistent state').
Proof.
  unfold changeCondition. destruct change as [a|e]; simpl.
  - destruct (binary64.repository.HasChanged a) eqn:Hc; simpl.
    + split; [|intros _; apply consistent_raise].
      split; [|reflexivity]. intros _. right. eauto.
    + split; [|auto]. split; [auto|].
      intros [H|(a' & [= <-] & Ha)]; [exact H|congruence].
  - split; [|auto]. split; [auto|].
    intros [H|(a & [=] & _)]. exact H.
Qed.

Lemma gridConditions_spec bot state :
  (gridConditions bot state).1 =
    state.1
    || (Qlt_bool 0 (LastETHPrice bot)
        && IsPriceOutsideGrid (LastETHPrice bot) (Grid bot))
    || AreAllSideFilled (Grid bot) "buy"
    || AreAllSideFilled (Grid bot) "sell" /\
  (consistent state -> consistent (gridConditions bot state)).
Proof.
  unfold gridConditions.
  destruct (gridRange (Grid bot)) as [lo hi].
  destruct (Qlt_bool 0 (LastETHPrice bot)
            && IsPriceOutsideGrid (LastETHPrice bot) (Grid bot));
    destruct (AreAllSideFilled (Grid bot) "buy");
    destruct (AreAllSideFilled (Grid bot) "sell");
    simpl; repeat (rewrite orb_true_r || rewrite orb_false_r);
    (split; [reflexivity|]); auto using consistent_raise.
Qed.

Lemma botConditions_spec getBotState state :
  let state' := botConditions getBotState state in
  (state'.1 = true <-> state.1 = true \/ gridSpent getBotState) /\
  (consistent state -> consistent state').
Proof.
  unfold botConditions, gridSpent.
  destruct getBotState as [[bot|]|]; simpl.
  - destruct (Z.ltb_spec 0 (Z.of_nat (length (Grid bot)))) as [Hlen|Hlen].
    + assert (Hne : Grid bot <> [])
        by (intros Hnil; rewrite Hnil in Hlen; simpl in Hlen; lia).
      destruct (gridConditions_spec bot state) as [-> Hcons].
      split; [|exact Hcons].
      rewrite !orb_true_iff, andb_true_iff, Qlt_bool_iff,
        (IsPriceOutsideGrid_beyond _ _ Hne), !AreAllSideFilled_iff.
      fold (sideSpent "buy" (Grid bot)) (sideSpent "sell" (Grid bot)).
      split.
      * intros [[[H|H]|H]|H]; [left; exact H| | |];
          right; exists bot; auto 6.
      * intros [H|(bot' & [= <-] & _ & [H|[H|H]])]; auto.
    + split; [|auto]. split; [auto|].
      intros [H|(bot' & [= <-] & Hne & _)]; [exact H|].
      destruct (Grid bot); [contradiction|]. simpl in Hlen. lia.
  - split; [|auto]. split; [auto|].
    intros [H|(bot & [=] & _)]. exact H.
  - split; [|auto]. split; [auto|].
    intros [H|(bot & [=] & _)]. exact H.
Qed.

(** X17.  A run of [fetchAndProcess] of a scheduler made by
    [NewSRScheduler] (threshold 5 unless a positive one is configured).
    If the forced fetch fails the run returns that error, stores nothing,
    calls nothing and leaves the client as it was.  Otherwise the client
    has cached the result, and the grid is to be recalculated exactly
    when the repository's check, asked about the new midpoint at the
    scheduler's threshold, reports a change, or the bot has a grid that
    the last price (if positive) has left or one side of which is all
    filled; an error of the check counts as no change.  The reasons are
    empty exactly when no recalculation is due.  If storing the row fails
    the run returns that error and calls nothing; else it stores the row
    with the decision as its flag, then calls [OnSRUpdate] if set, then
    [OnGridRecalculate] if set and a recalculation is due. *)
Theorem fetchAndProcess_spec (s : SRScheduler) (cfg0 : SRSchedulerConfig)
    (d : external.DuneClient) (clock : external.Clock)
    (rows : result string (list (gmap string external.JSONValue)))
    (check : ChangeCheck)
    (getBotState : option (option BotState)) (recordError : option string) :
  cfg s = cfg (NewSRScheduler cfg0) ->
  match external.FetchSupportResistance d clock true rows with
  | (Err e, _) =>
      fetchAndProcess s d clock rows check getBotState recordError
      = (Some e, d, [], [])
  | (Ok sr, d') =>
      exists (should : bool) (reasons : list Reason),
        d' = external.store d sr (external.atStore clock) /\
        (should = true <->
         changeReported check (external.Midpoint sr)
           (effectiveThreshold cfg0) \/
         gridSpent getBotState) /\
        (reasons = [] <-> should = false) /\
        fetchAndProcess s d clock rows check getBotState recordError
        = (recordError, d',
           match recordError with
           | Some _ => []
           | None => storedRun (cfg s) sr should
           end, reasons)
  end.
Proof.
  intros Hcfg. unfold fetchAndProcess.
  destruct (external.FetchSupportResistance d clock true rows)
    as [[sr|e] d'] eqn:Hfetch.
  - destruct (FetchSupportResistance_forced _ _ _ _ _ Hfetch)
      as (Hstore & _ & _).
    rewrite Hcfg.
    change (SRChangeThreshold (cfg (NewSRScheduler cfg0)))
      with (effectiveThreshold cfg0).
    set (change := check (external.Midpoint sr) (effectiveThreshold cfg0)).
    pose proof (changeCondition_spec change (false, []))
      as [Hflag Hcons].
    pose proof (botConditions_spec getBotState
                  (changeCondition change (false, [])))
      as [Hflag' Hcons'].
    cbv zeta in Hflag, Hcons, Hflag', Hcons'.
    destruct (botConditions getBotState _) as [should reasons].
    exists should, reasons.
    split; [exact Hstore|]. split.
    { simpl in Hflag'. rewrite Hflag', Hflag. simpl.
      unfold changeReported. fold change. split.
      - intros [[[=]|H]|H]; auto.
      - intros [H|H]; auto. }
    split.
    { apply Hcons', Hcons. unfold consistent. simpl. split; reflexivity. }
    rewrite <- Hcfg. destruct recordError; reflexivity.
  - destruct (FetchSupportResistance_cases d clock true rows)
      as [Hsame|(r & Hr & _)].
    + rewrite Hfetch in Hsame. simpl in Hsame. subst d'. reflexivity.
    + rewrite Hfetch in Hr. discriminate.
Qed.

(** The scheduler of [main], a check that reports no change and a grid
    that the price has left: the row is stored and the run is as the
    theorem says. *)
Lemma fetchAndProcess_spec_witness :
  exists sr d' should reasons,
    fetchAndProcess mainScheduler coldClient (external.mkClock 0 1 2)
      (Ok [sampleRow]) steadyCheck (Some (Some leftBehind)) None
    = (None, d', storedRun (cfg mainScheduler) sr should, reasons) /\
    (reasons = [] <-> should = false).
Proof.
  pose proof (fetchAndProcess_spec mainScheduler
                (mkSRSchedulerConfig (1 * external.Hour) 5 false true)
                coldClient (external.mkClock 0 1 2) (Ok [sampleRow])
                steadyCheck (Some (Some leftBehind)) None eq_refl) as Hspec.
  destruct (external.FetchSupportResistance coldClient
              (external.mkClock 0 1 2) true (Ok [sampleRow]))
    as [[sr|e] d'] eqn:Hfetch; [|vm_compute in Hfetch; discriminate].
  destruct Hspec as (should & reasons & _ & _ & Hcons & Hrun).
  exists sr, d', should, reasons. split; assumption.
Defined.

(** X18.  For a grid that is not empty, with prices no larger in
    magnitude than the largest float, [gridRange] returns the least and
    the greatest price of the grid, and these are the bounds that
    [IsPriceOutsideGrid] tests: the price is outside exactly when it is
    below the first or above the second. *)
Theorem gridRange_spec (grid : list GridLevel) :
  grid <> [] ->
  (forall l, l ∈ grid ->
     (- MaxFloat64 <= Price l)%Q /\ (Price l <= MaxFloat64)%Q) ->
  (forall l, l ∈ grid ->
     ((gridRange grid).1 <= Price l)%Q /\
     (Price l <= (gridRange grid).2)%Q) /\
  (exists l, l ∈ grid /\ (Price l == (gridRange grid).1)%Q) /\
  (exists l, l ∈ grid /\ (Price l == (gridRange grid).2)%Q) /\
  (forall P : Q,
     IsPriceOutsideGrid P grid = true <->
     (P < (gridRange grid).1)%Q \/ ((gridRange grid).2 < P)%Q).
Proof.
  intros Hne Hfloat. unfold gridRange.
  destruct (fold_left widen grid (MaxFloat64, (- MaxFloat64)%Q))
    as [lo hi] eqn:Hfold.
  apply widen_fold in Hfold
    as [(Hlo & Hall & Hpick) (Hhi & Hall' & Hpick')].
  simpl.
  assert (Hmin : exists l, l ∈ grid /\ (Price l == lo)%Q).
  { destruct Hpick as [->|(l & Hl & ->)].
    - destruct grid as [|first rest]; [contradiction|].
      exists first. split; [left|].
      specialize (Hall first ltac:(left)).
      destruct (Hfloat first ltac:(left)). lra.
    - exists l. split; [exact Hl|reflexivity]. }
  assert (Hmax : exists l, l ∈ grid /\ (Price l == hi)%Q).
  { destruct Hpick' as [->|(l & Hl & ->)].
    - destruct grid as [|first rest]; [contradiction|].
      exists first. split; [left|].
      specialize (Hall' first ltac:(left)).
      destruct (Hfloat first ltac:(left)). lra.
    - exists l. split; [exact Hl|reflexivity]. }
  split; [intros l Hl; split; auto|].
  split; [exact Hmin|]. split; [exact Hmax|].
  intros P. rewrite (IsPriceOutsideGrid_beyond _ _ Hne).
  unfold beyondGrid. split.
  - intros [Hbelow|Habove]; [left|right].
    + destruct Hmin as (l & Hl & Heq). specialize (Hbelow l Hl). lra.
    + destruct Hmax as (l & Hl & Heq). specialize (Habove l Hl). lra.
  - intros [Hbelow|Habove]; [left|right]; intros l Hl.
    + specialize (Hall l Hl). lra.
    + specialize (Hall' l Hl). lra.
Qed.

Lemma gridRange_spec_witness :
  ((gridRange (scenarioGrid false)).1 == 2550)%Q /\
  ((gridRange (scenarioGrid false)).2 == 2750)%Q /\
  IsPriceOutsideGrid 2800 (scenarioGrid false) = true.
Proof.
  assert (Hne : scenarioGrid false <> []) by discriminate.
  assert (Hfloat : forall l, l ∈ scenarioGrid false ->
            (- MaxFloat64 <= Price l)%Q /\ (Price l <= MaxFloat64)%Q).
  { intros l Hl. unfold scenarioGrid in Hl.
    repeat (apply elem_of_cons in Hl as [->|Hl];
            [split; vm_compute; discriminate|]).
    inversion Hl. }
  destruct (gridRange_spec (scenarioGrid false) Hne Hfloat)
    as (_ & _ & _ & Hout).
  split; [reflexivity|]. split; [reflexivity|].
  apply Hout. right. vm_compute. reflexivity.
Defined.

End Scheduler.

(** ** The price and the tick *)

Section Tick.

Import gridbot.

Lemma withLastETHPrice_same b : withLastETHPrice b (LastETHPrice b) = b.
Proof. destruct b. reflexivity. Qed.

Lemma fetchETHPrice_cases b quote :
  (exists p, accepted quote p /\
             fetchETHPrice b quote = (p, withLastETHPrice b p)) \/
  ((forall p, ~ accepted quote p) /\
   fetchETHPrice b quote = (LastETHPrice b, b)).
Proof.
  unfold fetchETHPrice, accepted. destruct quote as [price|e].
  - destruct (Qlt_bool price 100) eqn:Hlow; simpl.
    + right. split; [|reflexivity]. intros p ([= ->] & Hp & _).
      apply Qlt_bool_iff in Hlow. lra.
    + destruct (Qlt_bool 100000 price) eqn:Hhigh.
      * right. split; [|reflexivity]. intros p ([= ->] & _ & Hp).
        apply Qlt_bool_iff in Hhigh. lra.
      * left. exists price. apply Qlt_bool_false in Hlow, Hhigh. auto.
  - right. split; [|reflexivity]. intros p ([=] & _).
Qed.

Lemma fetchETHPrice_stores b quote :
  fetchETHPrice b quote
  = ((fetchETHPrice b quote).1,
     withLastETHPrice b (fetchETHPrice b quote).1).
Proof.
  destruct (fetchETHPrice_cases b quote) as [(p & _ & ->)|[_ ->]];
    simpl; [reflexivity|].
  rewrite withLastETHPrice_same. reflexivity.
Qed.

(** X19.  Starting from a last price that is zero or was accepted,
    [fetchETHPrice] hands back the price it leaves in [LastETHPrice] and
    changes nothing else; that price is the quote when the quote is a
    price between 100 and 100000, and the last price otherwise, so it is
    again zero or within these bounds.  It is not positive only when the
    last price is zero and the quote is not accepted: once a quote has
    been accepted, a failed or rejected quote makes the bot go on with
    the last accepted price. *)
Theorem fetchETHPrice_spec (b : GridBot)
    (quote : result external.PriceError Q) :
  saneOrUnset (LastETHPrice b) ->
  exists price,
    fetchETHPrice b quote = (price, withLastETHPrice b price) /\
    saneOrUnset price /\
    (accepted quote price \/
     ((forall p, ~ accepted quote p) /\ price = LastETHPrice b)) /\
    ((price <= 0)%Q <->
     (LastETHPrice b == 0)%Q /\ forall p, ~ accepted quote p).
Proof.
  intros Hlast.
  destruct (fetchETHPrice_cases b quote)
    as [(p & Hacc & Hfetch)|[Hrej Hfetch]].
  - exists p. split; [exact Hfetch|].
    pose proof Hacc as (_ & Hlo & Hhi).
    split; [right; auto|]. split; [left; exact Hacc|]. split.
    + intros Hp. lra.
    + intros [_ Hno]. destruct (Hno p Hacc).
  - exists (LastETHPrice b). rewrite withLastETHPrice_same.
    split; [exact Hfetch|]. split; [exact Hlast|].
    split; [right; auto|]. split.
    + intros Hp. split; [|exact Hrej].
      destruct Hlast as [Hz|[Hlo _]]; [exact Hz|lra].
    + intros [Hz _]. lra.
Qed.

(** A bot that has accepted 2000 before goes on with it when the quote
    fails. *)
Lemma fetchETHPrice_spec_witness :
  exists price,
    fetchETHPrice
      (withLastETHPrice
         (NewGridBot (mkConfig 10 2 100 (1 # 2)) (risk.mkLimits 0 0 0 0)
            (bot.NewPaperWallet 1 1000)) 2000)
      (Err (external.BadStatus 429))
    = (price,
       withLastETHPrice
         (withLastETHPrice
            (NewGridBot (mkConfig 10 2 100 (1 # 2)) (risk.mkLimits 0 0 0 0)
               (bot.NewPaperWallet 1 1000)) 2000) price) /\
    saneOrUnset price.
Proof.
  destruct (fetchETHPrice_spec
              (withLastETHPrice
                 (NewGridBot (mkConfig 10 2 100 (1 # 2))
                    (risk.mkLimits 0 0 0 0) (bot.NewPaperWallet 1 1000))
                 2000)
              (Err (external.BadStatus 429)))
    as (price & Hfetch & Hsane & _).
  - right. simpl. split; vm_compute; discriminate.
  - exists price. split; assumption.
Defined.

Lemma PortfolioCheck_trips (g : risk.Guardian) (pnl : Q) :
  (exists e, risk.PortfolioCheck g pnl = Some e) <->
  breakerTripped (risk.limits g) pnl.
Proof.
  unfold breakerTripped. split.
  - intros [e He]. apply PortfolioCheck_cause in He.
    destruct e; try contradiction; [left|right]; exact He.
  - unfold risk.PortfolioCheck.
    intros [[Hset Hlow]|[Hset Hhigh]].
    + apply Qlt_bool_iff in Hset. apply Qle_bool_iff in Hlow.
      rewrite Hset, Hlow. simpl. eauto.
    + apply Qlt_bool_iff in Hset. apply Qle_bool_iff in Hhigh.
      rewrite Hset, Hhigh. simpl.
      destruct (_ && _); eauto.
Qed.


Lemma tick_unfold (ar : Arith) (b : GridBot) (i : TickInput) :
  let b1 := withLastETHPrice
              (withPriceChecks b (wrap64 (PriceChecks b + 1)))
              (tickPrice b i) in
  tick ar b i =
  if Qle_bool (tickPrice b i) 0 then (NoPrice, b1)
  else
    match risk.PortfolioCheck
            (risk.mkGuardian (limits b) (Some (count i)))
            (tickPnL ar b i) with
    | Some e =>
        if stopClosed b then (ClosedTwice, b1) else (CircuitBreaker e, halt b1)
    | None =>
        match strategy.FindTriggeredLevel (tickPrice b i) (Grid b) with
        | None => (Quiet, b1)
        | Some pos =>
            match executeTrade ar b1 i pos (tickPrice b i) with
            | Err e => (TradeFailed pos e, b1)
            | Ok b' => (Traded pos, b')
            end
        end
    end.
Proof.
  unfold tick. rewrite fetchETHPrice_stores.
  assert (Hprice : (fetchETHPrice
                      (withPriceChecks b (wrap64 (PriceChecks b + 1)))
                      (quote i)).1 = tickPrice b i).
  { unfold tickPrice, fetchETHPrice. destruct (quote i) as [price|e];
      [|reflexivity].
    destruct (_ || _); reflexivity. }
  rewrite Hprice. reflexivity.
Qed.

(** Splits a conjunction of eight. *)
Ltac conj8 := split; [|split; [|split; [|split; [|split; [|split; [|split]]]]]].

(** X20.  A tick counts itself and leaves the price it worked with in
    [LastETHPrice].  It is skipped exactly when that price is not
    positive.  Otherwise the circuit breaker comes first: exactly when
    the stop-loss or the take-profit is set and reached by the P&L
    percent that the wallet's [Stats] reports at that price, whatever
    the arithmetic that computes it, the tick ends in the breaker (or
    panics, closing a stop channel that is closed already), whatever
    level is triggered;
    the breaker leaves [running] false and the channel closed, every
    other outcome leaves both as they were.  A tick that does not trade
    changes neither the grid nor the wallet nor the trade counter. *)
Theorem tick_safety (ar : Arith) (b : GridBot) (i : TickInput) :
  PriceChecks (tick ar b i).2 = wrap64 (PriceChecks b + 1) /\
  LastETHPrice (tick ar b i).2 = tickPrice b i /\
  ((tick ar b i).1 = NoPrice <-> (tickPrice b i <= 0)%Q) /\
  ((exists e, (tick ar b i).1 = CircuitBreaker e) \/ (tick ar b i).1 = ClosedTwice
   <-> (0 < tickPrice b i)%Q /\ breakerTripped (limits b) (tickPnL ar b i)) /\
  ((tick ar b i).1 = ClosedTwice -> stopClosed b = true) /\
  ((exists e, (tick ar b i).1 = CircuitBreaker e) ->
   running (tick ar b i).2 = false /\ stopClosed (tick ar b i).2 = true) /\
  ((forall e, (tick ar b i).1 <> CircuitBreaker e) ->
   running (tick ar b i).2 = running b /\
   stopClosed (tick ar b i).2 = stopClosed b) /\
  ((forall pos, (tick ar b i).1 <> Traded pos) ->
   Grid (tick ar b i).2 = Grid b /\
   paperWallet (tick ar b i).2 = paperWallet b /\
   TradesExecuted (tick ar b i).2 = TradesExecuted b).
Proof.
  pose proof (PortfolioCheck_trips
                (risk.mkGuardian (limits b) (Some (count i))) (tickPnL ar b i))
    as Htrip.
  simpl in Htrip. rewrite tick_unfold. cbv zeta.
  destruct (Qle_bool (tickPrice b i) 0) eqn:Hskip.
  { apply Qle_bool_iff in Hskip. simpl. conj8.
    - reflexivity.
    - reflexivity.
    - split; auto.
    - split; [intros [[e [=]]|[=]]|intros [Hpos _]; lra].
    - discriminate.
    - intros [e [=]].
    - intros _. split; reflexivity.
    - intros _. repeat split; reflexivity. }
  apply Qle_bool_false in Hskip.
  destruct (risk.PortfolioCheck _ (tickPnL ar b i)) as [e|] eqn:Hcheck.
  { assert (Htripped : breakerTripped (limits b) (tickPnL ar b i))
      by (apply Htrip; eauto).
    destruct (stopClosed b) eqn:Hclosed; simpl; conj8.
    - reflexivity.
    - reflexivity.
    - split; [discriminate|intros; lra].
    - split; [intros _; split; [lra|exact Htripped]|auto].
    - intros _. reflexivity.
    - intros [f [=]].
    - intros _. split; [reflexivity|exact Hclosed].
    - intros _. repeat split; reflexivity.
    - reflexivity.
    - reflexivity.
    - split; [discriminate|intros; lra].
    - split; [intros _; split; [lra|exact Htripped]|eauto].
    - discriminate.
    - intros _. split; reflexivity.
    - intros Hnot. destruct (Hnot e eq_refl).
    - intros _. repeat split; reflexivity. }
  assert (Hquiet : ~ breakerTripped (limits b) (tickPnL ar b i)).
  { intros Htripped. apply Htrip in Htripped as [e [=]]. }
  destruct (strategy.FindTriggeredLevel (tickPrice b i) (Grid b))
    as [pos|].
  2:{ simpl. conj8.
      - reflexivity.
      - reflexivity.
      - split; [discriminate|intros; lra].
      - split; [intros [[e [=]]|[=]]|intros [_ Htripped]; contradiction].
      - discriminate.
      - intros [e [=]].
      - intros _. split; reflexivity.
      - intros _. repeat split; reflexivity. }
  match goal with
  | |- context [executeTrade ar ?b1 i pos ?P] =>
      destruct (executeTrade ar b1 i pos P) as [b'|e] eqn:Htrade
  end.
  2:{ simpl. conj8.
      - reflexivity.
      - reflexivity.
      - split; [discriminate|intros; lra].
      - split; [intros [[f [=]]|[=]]|intros [_ Htripped]; contradiction].
      - discriminate.
      - intros [f [=]].
      - intros _. split; reflexivity.
      - intros _. repeat split; reflexivity. }
  unfold executeTrade in Htrade. simpl in Htrade.
  destruct (Grid b !! pos) as [level|]; [|discriminate].
  destruct (risk.PreTradeCheck _ _); [discriminate|].
  destruct (bot.executeSwap _ _ _ _ _ _ _ _) as [c|]; [|discriminate].
  injection Htrade as <-. simpl. conj8.
  - reflexivity.
  - reflexivity.
  - split; [discriminate|intros; lra].
  - split; [intros [[f [=]]|[=]]|intros [_ Htripped]; contradiction].
  - discriminate.
  - intros [f [=]].
  - intros _. split; reflexivity.
  - intros Hnot. destruct (Hnot pos eq_refl).
Qed.



End Tick.

(** ** Initializing and rebuilding the grid *)

Section Recalculation.

Import gridbot.

Variable sortSlice : strategy.SortSlice.
Hypothesis Hsort : strategy.SortSliceSpec sortSlice.

Lemma fetchETHPrice_fields b quote :
  let b' := (fetchETHPrice b quote).2 in
  cfg b' = cfg b /\ limits b' = limits b /\ Grid b' = Grid b /\
  BasePrice b' = BasePrice b /\ TradesExecuted b' = TradesExecuted b /\
  PriceChecks b' = PriceChecks b /\ LastSRRefresh b' = LastSRRefresh b /\
  paperWallet b' = paperWallet b /\ running b' = running b /\
  stopClosed b' = stopClosed b.
Proof.
  rewrite fetchETHPrice_stores. simpl. repeat split; reflexivity.
Qed.

Lemma fetchETHPrice_price_indep b b0 quote :
  LastETHPrice b0 = LastETHPrice b ->
  (fetchETHPrice b0 quote).1 = (fetchETHPrice b quote).1.
Proof.
  intros Hlast. unfold fetchETHPrice. rewrite Hlast.
  destruct quote as [price|e]; [|reflexivity].
  destruct (_ || _); reflexivity.
Qed.

(** X22.  The recalculation that the scheduler asks for.  After a forced
    fetch has succeeded with a positive midpoint, [Service.InitializeGrid],
    run before the TTL has passed since the store, with a valid grid
    configuration and a positive price at hand, takes the S/R from the
    cache without consulting the query, and leaves the bot with a grid
    calculated around that midpoint: the configured number of levels,
    none of them filled, with [BasePrice] the midpoint.  The wallet and
    the trade counter are as before, and the client is unchanged. *)
Theorem recalculation_uses_fetched_midpoint
    (b : GridBot) (d d1 : external.DuneClient)
    (clock clock' : external.Clock)
    (rows rows' : result string (list (gmap string external.JSONValue)))
    (sr : external.SRResult) (m : Q) (now : Z)
    (quoteSR quote : result external.PriceError Q) :
  external.FetchSupportResistance d clock true rows = (Ok sr, d1) ->
  external.Midpoint sr = external.Num m -> (0 < m)%Q ->
  external.atCheck clock' - external.atStore clock < external.cacheTTL d ->
  2 <= GridLevels (cfg b) ->
  (0 < GridSpacingPercent (cfg b))%Q -> (0 < AmountPerGrid (cfg b))%Q ->
  (0 < (fetchETHPrice b quote).1)%Q ->
  exists b',
    Service_InitializeGrid sortSlice (Some b) (Some d1) clock' rows' now
      quoteSR quote = Some (Some b', Some d1) /\
    BasePrice b' = m /\
    strategy.CalculateGridLevels sortSlice (gridParams (cfg b) m)
    = Ok (Grid b') /\
    Z.of_nat (length (Grid b')) = GridLevels (cfg b) /\
    (forall l, l ∈ Grid b' -> strategy.Filled l = false) /\
    LastSRRefresh b' = Some now /\
    paperWallet b' = paperWallet b /\
    TradesExecuted b' = TradesExecuted b.
Proof.
  intros Hfetch Hm Hpos Hfresh Hn Hs Ha Hprice.
  destruct (FetchSupportResistance_forced _ _ _ _ _ Hfetch)
    as (Hstore & _ & _).
  assert (Hhit : external.FetchSupportResistance d1 clock' false rows'
                 = (Ok sr, d1)).
  { apply FetchSupportResistance_hit; rewrite Hstore; [reflexivity|].
    simpl. exact Hfresh. }
  assert (Hvalid : validParams (gridParams (cfg b) m)).
  { unfold validParams, gridParams. simpl. auto. }
  unfold Service_InitializeGrid, InitializeGrid, fetchSR.
  rewrite Hhit. simpl. rewrite Hm.
  rewrite fetchETHPrice_stores.
  match goal with
  | |- context [(fetchETHPrice ?b0 quote).1] =>
      rewrite (fetchETHPrice_price_indep b b0 quote) by reflexivity
  end.
  destruct (Qle_bool (fetchETHPrice b quote).1 0) eqn:Hle.
  { apply Qle_bool_iff in Hle. lra. }
  simpl.
  change {| strategy.CenterPrice := m;
            strategy.LevelCount := GridLevels (cfg b);
            strategy.SpacingPercent := GridSpacingPercent (cfg b);
            strategy.AmountPerGrid := AmountPerGrid (cfg b) |}
    with (gridParams (cfg b) m).
  rewrite (fresh_grid_result sortSlice _ Hsort Hvalid).
  eexists. split; [reflexivity|]. simpl.
  split; [reflexivity|]. split; [reflexivity|].
  split; [exact (fresh_grid_length _ Hvalid)|].
  split; [|repeat split; reflexivity].
  intros l [k Hk]%list_elem_of_lookup.
  apply (fresh_grid_lookup _ Hvalid) in Hk as [_ ->]. reflexivity.
Qed.

Lemma fetchSR_fields b dune clock rows now quoteSR sr b1 dune1 :
  fetchSR b dune clock rows now quoteSR = (sr, b1, dune1) ->
  cfg b1 = cfg b /\ Grid b1 = Grid b /\ BasePrice b1 = BasePrice b /\
  paperWallet b1 = paperWallet b /\ TradesExecuted b1 = TradesExecuted b /\
  (dune = None ->
   dune1 = None /\
   external.Midpoint sr = external.Num (fetchETHPrice b quoteSR).1).
Proof.
  unfold fetchSR. destruct dune as [d|].
  - destruct (external.FetchSupportResistance d clock false rows)
      as [[r|e] d'].
    + intros [= <- <- <-]. simpl. do 5 (split; [reflexivity|]).
      discriminate.
    + rewrite fetchETHPrice_stores. intros [= <- <- <-]. simpl.
      do 5 (split; [reflexivity|]). discriminate.
  - rewrite fetchETHPrice_stores. intros [= <- <- <-]. simpl.
    do 5 (split; [reflexivity|]). intros _. split; reflexivity.
Qed.

(** X23.  In a run of [InitializeGrid] whose center is a number (a
    seeded S/R result may carry a NaN midpoint, which these runs leave
    out), whatever it returns, the wallet, the trade counter and the
    configuration are as before; a base price that is set is kept, and
    then the S/R plays no part in the center; without a Dune client and
    without a base price the center is the price that the fallback
    fetched.  On an error the grid is the old one, though [BasePrice]
    may have been overwritten already.  On success the last price is
    positive and the grid is what [CalculateGridLevels] returned for the
    configured level count, spacing and amount around the new
    [BasePrice]. *)
Theorem InitializeGrid_spec (b b' : GridBot)
    (dune dune' : option external.DuneClient) (clock : external.Clock)
    (rows : result string (list (gmap string external.JSONValue)))
    (now : Z) (quoteSR quote : result external.PriceError Q)
    (err : option string) :
  InitializeGrid sortSlice b dune clock rows now quoteSR quote
  = Some (err, b', dune') ->
  cfg b' = cfg b /\ paperWallet b' = paperWallet b /\
  TradesExecuted b' = TradesExecuted b /\
  (~ (BasePrice b == 0)%Q -> BasePrice b' = BasePrice b) /\
  (dune = None ->
   dune' = None /\
   ((BasePrice b == 0)%Q -> BasePrice b' = (fetchETHPrice b quoteSR).1)) /\
  match err with
  | Some _ => Grid b' = Grid b
  | None =>
      (0 < LastETHPrice b')%Q /\
      strategy.CalculateGridLevels sortSlice
        (gridParams (cfg b) (BasePrice b')) = Ok (Grid b')
  end.
Proof.
  unfold InitializeGrid.
  destruct (fetchSR b dune clock rows now quoteSR) as [[sr b1] dune1]
    eqn:Hsr.
  apply fetchSR_fields in Hsr as (Hcfg & Hgrid & Hbase & Hwallet & Htrades & Hnil).
  set (center := if Qeq_bool (BasePrice b1) 0
                 then match external.Midpoint sr with
                      | external.Num m => Some m
                      | external.NaN => None
                      end
                 else Some (BasePrice b1)).
  destruct center as [c|] eqn:Hcenter; [|discriminate].
  assert (Hkept : ~ (BasePrice b == 0)%Q -> c = BasePrice b).
  { intros Hset. subst center. rewrite Hbase in Hcenter.
    destruct (Qeq_bool (BasePrice b) 0) eqn:Hz.
    - apply Qeq_bool_iff in Hz. contradiction.
    - congruence. }
  assert (Hfallback : dune = None -> (BasePrice b == 0)%Q ->
                      c = (fetchETHPrice b quoteSR).1).
  { intros Hd Hz. destruct (Hnil Hd) as [_ Hmid].
    subst center. rewrite Hbase, Hmid in Hcenter.
    apply Qeq_bool_iff in Hz. rewrite Hz in Hcenter. congruence. }
  rewrite fetchETHPrice_stores.
  set (price := (fetchETHPrice (withBasePrice b1 c) quote).1).
  destruct (Qle_bool price 0) eqn:Hle.
  { intros [= <- <- <-]. simpl.
    split; [exact Hcfg|]. split; [exact Hwallet|]. split; [exact Htrades|].
    split; [exact Hkept|]. split; [|exact Hgrid].
    intros Hd. split; [apply Hnil, Hd|apply Hfallback, Hd]. }
  apply Qle_bool_false in Hle. simpl.
  change {| strategy.CenterPrice := c;
            strategy.LevelCount := GridLevels (cfg b1);
            strategy.SpacingPercent := GridSpacingPercent (cfg b1);
            strategy.AmountPerGrid := AmountPerGrid (cfg b1) |}
    with (gridParams (cfg b1) c).
  rewrite Hcfg.
  destruct (strategy.CalculateGridLevels sortSlice (gridParams (cfg b) c))
    as [grid|e] eqn:Hcalc.
  - intros [= <- <- <-]. simpl.
    split; [exact Hcfg|]. split; [exact Hwallet|]. split; [exact Htrades|].
    split; [exact Hkept|]. split.
    { intros Hd. split; [apply Hnil, Hd|apply Hfallback, Hd]. }
    split; [exact Hle|exact Hcalc].
  - intros [= <- <- <-]. simpl.
    split; [exact Hcfg|]. split; [exact Hwallet|]. split; [exact Htrades|].
    split; [exact Hkept|]. split; [|exact Hgrid].
    intros Hd. split; [apply Hnil, Hd|apply Hfallback, Hd].
Qed.

End Recalculation.

Section RecalculationWitness.

Import gridbot.

(** The client of [main] fetches a midpoint of 2700; an hour later the
    bot of the seventh scenario is rebuilt around it while the query is
    down. *)
Lemma recalculation_uses_fetched_midpoint_witness :
  exists sr d1 b',
    external.FetchSupportResistance coldClient (external.mkClock 0 1 2)
      true (Ok [sampleRow]) = (Ok sr, d1) /\
    Service_InitializeGrid strategy.mergeSortSlice (Some scenarioTrader)
      (Some d1) (external.mkClock external.Hour external.Hour external.Hour)
      (Err "down") 5 (Err (external.BadStatus 429)) (Ok 2000%Q)
    = Some (Some b', Some d1) /\
    BasePrice b' = 2700%Q.
Proof.
  destruct (external.FetchSupportResistance coldClient
              (external.mkClock 0 1 2) true (Ok [sampleRow]))
    as [[sr|e] d1] eqn:Hfetch; [|vm_compute in Hfetch; discriminate].
  assert (Hm : external.Midpoint sr = external.Num 2700).
  { vm_compute in Hfetch. injection Hfetch as <- _. reflexivity. }
  assert (Hpos : (0 < 2700)%Q) by reflexivity.
  assert (Hfresh : external.atCheck
                     (external.mkClock external.Hour external.Hour
                        external.Hour)
                   - external.atStore (external.mkClock 0 1 2)
                   < external.cacheTTL coldClient)
    by (vm_compute; reflexivity).
  assert (Hn : 2 <= GridLevels (cfg scenarioTrader))
    by (vm_compute; discriminate).
  assert (Hs : (0 < GridSpacingPercent (cfg scenarioTrader))%Q)
    by reflexivity.
  assert (Ha : (0 < AmountPerGrid (cfg scenarioTrader))%Q) by reflexivity.
  assert (Hprice : (0 < (fetchETHPrice scenarioTrader (Ok 2000%Q)).1)%Q)
    by (vm_compute; reflexivity).
  destruct (recalculation_uses_fetched_midpoint strategy.mergeSortSlice
              mergeSortSlice_spec scenarioTrader coldClient d1
              (external.mkClock 0 1 2)
              (external.mkClock external.Hour external.Hour external.Hour)
              (Ok [sampleRow]) (Err "down") sr 2700%Q 5
              (Err (external.BadStatus 429)) (Ok 2000%Q) Hfetch Hm Hpos
              Hfresh Hn Hs Ha Hprice)
    as (b' & Hinit & Hbase & _).
  exists sr, d1, b'. split; [reflexivity|]. split; assumption.
Defined.

(** Without a Dune client, the bot of the seventh scenario keeps its base
    price of 2000 and its wallet when the grid is initialized. *)
Lemma InitializeGrid_spec_witness :
  exists b',
    InitializeGrid strategy.mergeSortSlice scenarioTrader None
      (external.mkClock 0 0 0) (Err "down") 0 (Ok 2000%Q) (Ok 2000%Q)
    = Some (None, b', None) /\
    BasePrice b' = BasePrice scenarioTrader /\
    paperWallet b' = paperWallet scenarioTrader.
Proof.
  assert (Hrun : exists b',
            InitializeGrid strategy.mergeSortSlice scenarioTrader None
              (external.mkClock 0 0 0) (Err "down") 0 (Ok 2000%Q)
              (Ok 2000%Q) = Some (None, b', None))
    by (eexists; vm_compute; reflexivity).
  destruct Hrun as [b' Hrun]. exists b'. split; [exact Hrun|].
  destruct (InitializeGrid_spec strategy.mergeSortSlice _ _ _ _ _ _ _ _ _ _
              Hrun) as (_ & Hwallet & _ & Hbase & _).
  split; [|exact Hwallet].
  apply Hbase. vm_compute. discriminate.
Defined.

End RecalculationWitness.
